(** * Regulatory impact analyzer: a shallow embedding of the analysis pipeline

    The Python sources under [regulatory_impact_analyzer/] are embedded one
    module per source file.  Python [str] values are sequences of Unicode
    code points, Python exceptions are values of an error type, calls into
    the remote model service are answered by an oracle, and effects that
    the program performs for the operator (printing, sleeping, logging,
    writing files) are recorded in traces.

    Part I holds the definitions, Part II the theorems. *)

From Stdlib Require Import ZArith NArith QArith Lqa List String Ascii Bool Lia.
Import ListNotations.

Set Implicit Arguments.
Close Scope Q_scope.

(* ================================================================== *)
(** * Part I. Definitions                                              *)
(* ================================================================== *)

(** ** Python values used by the sources *)

Module Py.

(** A Python [str] is a sequence of Unicode code points. *)
Definition char := N.
Definition str := list char.

Definition char_eqb (a b : char) : bool := N.eqb a b.

Fixpoint str_eqb (a b : str) : bool :=
  match a, b with
  | [], [] => true
  | x :: a', y :: b' => char_eqb x y && str_eqb a' b'
  | _, _ => false
  end.

(** UTF-8 decoding of a byte sequence, strict as Python's codec is:
    overlong forms, surrogates and values above U+10FFFF are refused. *)
Definition is_cont (b : N) : bool := (128 <=? b)%N && (b <=? 191)%N.

Fixpoint utf8_decode_bytes (fuel : nat) (bs : list N) : option str :=
  match fuel with
  | O => match bs with [] => Some [] | _ => None end
  | S fuel' =>
    match bs with
    | [] => Some []
    | b0 :: r0 =>
      if (b0 <? 128)%N then option_map (cons b0) (utf8_decode_bytes fuel' r0)
      else if (194 <=? b0)%N && (b0 <=? 223)%N then
        match r0 with
        | b1 :: r1 =>
          if is_cont b1
          then option_map (cons ((b0 - 192) * 64 + (b1 - 128))%N)
                          (utf8_decode_bytes fuel' r1)
          else None
        | _ => None
        end
      else if (224 <=? b0)%N && (b0 <=? 239)%N then
        match r0 with
        | b1 :: b2 :: r2 =>
          let cp := ((b0 - 224) * 4096 + (b1 - 128) * 64 + (b2 - 128))%N in
          if is_cont b1 && is_cont b2 && (2048 <=? cp)%N
             && negb ((55296 <=? cp)%N && (cp <=? 57343)%N)
          then option_map (cons cp) (utf8_decode_bytes fuel' r2)
          else None
        | _ => None
        end
      else if (240 <=? b0)%N && (b0 <=? 244)%N then
        match r0 with
        | b1 :: b2 :: b3 :: r3 =>
          let cp := ((b0 - 240) * 262144 + (b1 - 128) * 4096
                     + (b2 - 128) * 64 + (b3 - 128))%N in
          if is_cont b1 && is_cont b2 && is_cont b3
             && (65536 <=? cp)%N && (cp <=? 1114111)%N
          then option_map (cons cp) (utf8_decode_bytes fuel' r3)
          else None
        | _ => None
        end
      else None
    end
  end.

(** [bytes.decode('utf-8')]: [None] stands for [UnicodeDecodeError]. *)
Definition utf8_decode (bs : list N) : option str :=
  utf8_decode_bytes (List.length bs) bs.

(** [bytes.decode('latin-1', errors='ignore')]: every byte is a code point. *)
Definition latin1_decode (bs : list N) : str := bs.

Definition bytes_of_string (s : string) : list N :=
  List.map N_of_ascii (list_ascii_of_string s).

(** String literals of the sources, written in UTF-8. *)
Definition u (s : string) : str :=
  match utf8_decode (bytes_of_string s) with
  | Some t => t
  | None => []
  end.

(** Literals that hold a double quote are written with an apostrophe in its
    place, a line feed is [nl]. *)
Definition dq : char := 34%N.
Definition nl : char := 10%N.
Definition uq (s : string) : str :=
  List.map (fun c => if (c =? 39)%N then dq else c) (u s).

(** [str.isspace] for one code point, the set [str.strip()] removes. *)
Definition is_space (c : char) : bool :=
  ((9 <=? c) && (c <=? 13) || (28 <=? c) && (c <=? 32)
   || (c =? 133) || (c =? 160) || (c =? 5760)
   || (8192 <=? c) && (c <=? 8202)
   || (c =? 8232) || (c =? 8233) || (c =? 8239) || (c =? 8287)
   || (c =? 12288))%N.

Fixpoint lstrip (s : str) : str :=
  match s with
  | c :: s' => if is_space c then lstrip s' else s
  | [] => []
  end.

Definition rstrip (s : str) : str := rev (lstrip (rev s)).

(** [s.strip()] *)
Definition strip (s : str) : str := rstrip (lstrip s).

(** [s.startswith(p)] *)
Fixpoint startswith (s p : str) : bool :=
  match p, s with
  | [], _ => true
  | x :: p', y :: s' => char_eqb x y && startswith s' p'
  | _ :: _, [] => false
  end.

(** [s.endswith(p)] *)
Definition endswith (s p : str) : bool := startswith (rev s) (rev p).

(** [s[n:]] and [s[:n]] for [n >= 0], and [s[:-n]] for [n > 0]. *)
Definition slice_from (n : nat) (s : str) : str := skipn n s.
Definition slice_to (n : nat) (s : str) : str := firstn n s.
Definition slice_to_neg (n : nat) (s : str) : str :=
  firstn (List.length s - n) s.

(** [p in s] *)
Fixpoint contains (s p : str) : bool :=
  startswith s p ||
  match s with
  | [] => false
  | _ :: s' => contains s' p
  end.

(** [s.split(sep)] for a one-character separator. *)
Fixpoint split (sep : char) (s : str) : list str :=
  match s with
  | [] => [[]]
  | c :: s' =>
    match split sep s' with
    | [] => [[c]]
    | seg :: segs =>
      if char_eqb c sep then [] :: seg :: segs else (c :: seg) :: segs
    end
  end.

(** [sep.join(parts)] *)
Fixpoint join (sep : str) (parts : list str) : str :=
  match parts with
  | [] => []
  | [p] => p
  | p :: ps => p ++ sep ++ join sep ps
  end.

(** [str.lower()] on ASCII letters; other code points are left as they are.
    Where a source calls [lower()] on arbitrary text the embedding takes the
    lower-casing function as a parameter; this one instantiates it on ASCII
    inputs. *)
Definition ascii_lower_char (c : char) : char :=
  if ((65 <=? c) && (c <=? 90))%N then (c + 32)%N else c.
Definition ascii_lower (s : str) : str := List.map ascii_lower_char s.

(** [str(n)] for a non-negative integer. *)
Fixpoint digits_fuel (fuel : nat) (n : N) (acc : str) : str :=
  match fuel with
  | O => acc
  | S fuel' =>
    let acc' := (48 + n mod 10)%N :: acc in
    if (n <? 10)%N then acc' else digits_fuel fuel' (n / 10)%N acc'
  end.
Definition str_of_N (n : N) : str := digits_fuel (S (N.to_nat (N.log2 n))) n [].
Definition str_of_nat (n : nat) : str := str_of_N (N.of_nat n).

(** Python floats as far as comparison is concerned: a finite value (an
    exact rational), the two infinities, or NaN.  Integers are finite
    values. *)
Inductive number : Type :=
| Fin (q : Q)
| PosInf
| NegInf
| NaN.

Definition Qlt_bool (a b : Q) : bool := negb (Qle_bool b a).

(** [x <= c], [x < c] and [x >= c] against a finite constant [c]; every
    comparison with NaN is false. *)
Definition le_const (x : number) (c : Q) : bool :=
  match x with
  | Fin q => Qle_bool q c
  | NegInf => true
  | PosInf | NaN => false
  end.

Definition lt_const (x : number) (c : Q) : bool :=
  match x with
  | Fin q => Qlt_bool q c
  | NegInf => true
  | PosInf | NaN => false
  end.

Definition ge_const (x : number) (c : Q) : bool :=
  match x with
  | Fin q => Qle_bool c q
  | PosInf => true
  | NegInf | NaN => false
  end.

Definition number_is_zero (x : number) : bool :=
  match x with
  | Fin q => Qeq_bool q 0
  | _ => false
  end.

(** The Python values that JSON decoding produces: [None], [bool], [int],
    [float], [str], [list] and [dict].  A [dict] keeps its keys in insertion
    order, so it is an association list without duplicate keys. *)
#[warnings="-register-all"]
Inductive value : Type :=
| PNone
| PBool (b : bool)
| PInt (z : Z)
| PFloat (x : number)
| PStr (s : str)
| PList (items : list value)
| PDict (fields : list (str * value)).

Definition dict := list (str * value).

Fixpoint dict_lookup (d : dict) (k : str) : option value :=
  match d with
  | [] => None
  | (k', v) :: d' => if str_eqb k' k then Some v else dict_lookup d' k
  end.

(** [d[k] = v]: an existing key keeps its position. *)
Fixpoint dict_set (d : dict) (k : str) (v : value) : dict :=
  match d with
  | [] => [(k, v)]
  | (k', v') :: d' =>
    if str_eqb k' k then (k', v) :: d' else (k', v') :: dict_set d' k v
  end.

(** [dict(pairs)] *)
Definition dict_of_pairs (pairs : list (str * value)) : dict :=
  fold_left (fun d kv => dict_set d (fst kv) (snd kv)) pairs [].

(** [d.keys()] *)
Definition keys (d : dict) : list str := List.map fst d.

(** [bool(v)] *)
Definition truthy (v : value) : bool :=
  match v with
  | PNone => false
  | PBool b => b
  | PInt z => negb (Z.eqb z 0)
  | PFloat x => negb (number_is_zero x)
  | PStr s => match s with [] => false | _ => true end
  | PList l => match l with [] => false | _ => true end
  | PDict d => match d with [] => false | _ => true end
  end.

(** Exceptions.  An exception is represented by its class; the message is
    kept only for the exceptions of the service client, the one place where
    the sources look into it. *)
Inductive exn : Type :=
| JSONDecodeError
| KeyError
| IndexError
| TypeError
| AttributeError
| ValueError
| BinasciiError
| UnboundLocalError (name : str)
| NameError (name : str)
| ZeroDivisionError
| ClientError (msg : str)
| OverflowError.

(** A computation that may raise. *)
Definition result (A : Type) : Type := (exn + A)%type.
Definition ret {A} (a : A) : result A := inr a.
Definition raise {A} (e : exn) : result A := inl e.
Definition bind {A B} (m : result A) (k : A -> result B) : result B :=
  match m with
  | inl e => inl e
  | inr a => k a
  end.

(** [v.get(k, default)]: only a [dict] has the method. *)
Definition get (v : value) (k : str) (default : value) : result value :=
  match v with
  | PDict d =>
    match dict_lookup d k with
    | Some x => ret x
    | None => ret default
    end
  | _ => raise AttributeError
  end.

(** [v[k]] for a string key: a [dict] looks the key up, a [list] or a [str]
    refuses a string index, the other values are not subscriptable. *)
Definition getitem_key (v : value) (k : str) : result value :=
  match v with
  | PDict d =>
    match dict_lookup d k with
    | Some x => ret x
    | None => raise KeyError
    end
  | _ => raise TypeError
  end.

(** [v[0]] *)
Definition getitem_0 (v : value) : result value :=
  match v with
  | PList (x :: _) => ret x
  | PList [] => raise IndexError
  | PStr (c :: _) => ret (PStr [c])
  | PStr [] => raise IndexError
  | PDict d =>
    (* an integer is never a key of a decoded JSON object *)
    raise KeyError
  | _ => raise TypeError
  end.

End Py.

Import Py.

Declare Scope py_scope.
Delimit Scope py_scope with py.
Notation "x <- m ;; k" := (bind m (fun x => k))
  (at level 61, m at next level, right associativity) : py_scope.

(** ** The JSON decoder of the Python standard library

    [loads] follows [json.loads] on a [str]: JSON white space is space, tab,
    line feed and carriage return; a number is an optional minus sign, then
    either 0 or a non-zero digit followed by digits, then an optional
    fraction (a dot and one digit or more) and an optional exponent (e or E,
    an optional sign, one digit or more); the literals [NaN],
    [Infinity] and [-Infinity] are accepted; a string may not hold a raw
    control character; a repeated key keeps its first position and its last
    value; anything after the value but white space is an error.  The float
    that a literal denotes is rounded to binary64 as [float] does, so that a
    literal below the range is zero and one beyond it an infinity.  An
    integer literal is decoded whatever its length (CPython from 3.11 on
    refuses one of more than 4300 digits).  [None] stands for
    [JSONDecodeError]. *)

Module Json.

Definition is_ws (c : char) : bool :=
  ((c =? 32) || (c =? 9) || (c =? 10) || (c =? 13))%N.

Fixpoint skip_ws (s : str) : str :=
  match s with
  | c :: s' => if is_ws c then skip_ws s' else s
  | [] => []
  end.

Definition is_digit (c : char) : bool := ((48 <=? c) && (c <=? 57))%N.

Fixpoint take_digits (s : str) : str * str :=
  match s with
  | c :: s' =>
    if is_digit c then let (ds, r) := take_digits s' in (c :: ds, r)
    else ([], s)
  | [] => ([], [])
  end.

Definition digits_value (ds : str) : Z :=
  fold_left (fun a d => (a * 10 + Z.of_N (d - 48))%Z) ds 0%Z.

Definition pow10 (e : Z) : Q :=
  if (0 <=? e)%Z then inject_Z (10 ^ e) else / inject_Z (10 ^ (- e)).

(** [float(literal)]: the rational that the literal denotes, rounded to
    binary64, to nearest and ties to even; beyond the range it is an
    infinity.  [ulp] is the exponent of the last binary place of the
    result, [-1074] for a subnormal.  A rational that binary64 holds is
    returned as it is written. *)
Definition floor_log2 (n d : positive) : Z :=
  let k := (Z.log2 (Z.pos n) - Z.log2 (Z.pos d))%Z in
  let reaches :=
    if (0 <=? k)%Z then (Z.pos d * 2 ^ k <=? Z.pos n)%Z
    else (Z.pos d <=? Z.pos n * 2 ^ (- k))%Z in
  if reaches then k else (k - 1)%Z.

Definition round_half_even (n d : Z) : Z :=
  let f := (n / d)%Z in
  let r := (n mod d)%Z in
  match (2 * r ?= d)%Z with
  | Lt => f
  | Gt => (f + 1)%Z
  | Eq => if Z.even f then f else (f + 1)%Z
  end.

Definition binary64 (q : Q) : number :=
  match Qnum q with
  | Z0 => Fin q
  | Zpos n | Zneg n =>
    let neg := (Qnum q <? 0)%Z in
    let d := Qden q in
    let ulp := Z.max (floor_log2 n d - 52) (-1074) in
    let '(sn, sd) :=
      if (0 <=? ulp)%Z then (Z.pos n, Z.pos d * 2 ^ ulp)%Z
      else (Z.pos n * 2 ^ (- ulp), Z.pos d)%Z in
    let m := round_half_even sn sd in
    if (0 <=? ulp)%Z && (2 ^ 1024 <=? m * 2 ^ ulp)%Z
    then (if neg then NegInf else PosInf)
    else if (sn mod sd =? 0)%Z then Fin q
    else
      let a :=
        if (0 <=? ulp)%Z then inject_Z (m * 2 ^ ulp)
        else Qmake m (Z.to_pos (2 ^ (- ulp))) in
      Fin (if neg then - a else a)%Q
  end.

(** The integer part: [0], or a non-zero digit and more digits. *)
Definition scan_int_part (s : str) : option (str * str) :=
  match s with
  | c :: r =>
    if (c =? 48)%N then Some ([c], r)
    else if is_digit c then let (ds, r') := take_digits r in Some (c :: ds, r')
    else None
  | [] => None
  end.

Definition scan_frac (s : str) : option (str * str) :=
  match s with
  | c :: r =>
    if (c =? 46)%N then
      match take_digits r with
      | ([], _) => None
      | (ds, r') => Some (ds, r')
      end
    else None
  | [] => None
  end.

Definition scan_exp (s : str) : option (Z * str) :=
  match s with
  | c :: r =>
    if ((c =? 101) || (c =? 69))%N then
      let '(neg, r1) :=
        match r with
        | sg :: r0 =>
          if (sg =? 45)%N then (true, r0)
          else if (sg =? 43)%N then (false, r0)
          else (false, r)
        | [] => (false, r)
        end in
      match take_digits r1 with
      | ([], _) => None
      | (ds, r') =>
        Some ((if neg then - digits_value ds else digits_value ds)%Z, r')
      end
    else None
  | [] => None
  end.

Definition scan_number (s : str) : option (value * str) :=
  let '(neg, s1) :=
    match s with
    | c :: r => if (c =? 45)%N then (true, r) else (false, s)
    | [] => (false, s)
    end in
  match scan_int_part s1 with
  | None => None
  | Some (ids, r1) =>
    let '(frac, r2) :=
      match scan_frac r1 with
      | Some (fds, r) => (Some fds, r)
      | None => (None, r1)
      end in
    let '(ex, r3) :=
      match scan_exp r2 with
      | Some (e, r) => (Some e, r)
      | None => (None, r2)
      end in
    match frac, ex with
    | None, None =>
      let z := digits_value ids in
      Some (PInt (if neg then - z else z)%Z, r3)
    | _, _ =>
      let fds := match frac with Some d => d | None => [] end in
      let e := match ex with Some e => e | None => 0%Z end in
      let m := digits_value (ids ++ fds) in
      let q := (inject_Z m * pow10 (e - Z.of_nat (List.length fds)))%Q in
      Some (PFloat (binary64 (if neg then - q else q)%Q), r3)
    end
  end.

Definition hex_val (c : char) : option N :=
  if is_digit c then Some (c - 48)%N
  else if ((97 <=? c) && (c <=? 102))%N then Some (c - 87)%N
  else if ((65 <=? c) && (c <=? 70))%N then Some (c - 55)%N
  else None.

Definition hex4 (a b c d : char) : option N :=
  match hex_val a, hex_val b, hex_val c, hex_val d with
  | Some x, Some y, Some z, Some w => Some (((x * 16 + y) * 16 + z) * 16 + w)%N
  | _, _, _, _ => None
  end.

Definition simple_escape (c : char) : option char :=
  if (c =? 34)%N then Some 34%N
  else if (c =? 92)%N then Some 92%N
  else if (c =? 47)%N then Some 47%N
  else if (c =? 98)%N then Some 8%N
  else if (c =? 102)%N then Some 12%N
  else if (c =? 110)%N then Some 10%N
  else if (c =? 114)%N then Some 13%N
  else if (c =? 116)%N then Some 9%N
  else None.

Definition is_high_surrogate (c : N) : bool := ((55296 <=? c) && (c <=? 56319))%N.
Definition is_low_surrogate (c : N) : bool := ((56320 <=? c) && (c <=? 57343))%N.

(** The body of a string, after its opening quote. *)
Fixpoint scan_string (fuel : nat) (s : str) (acc : str) : option (str * str) :=
  match fuel with
  | O => None
  | S fuel' =>
    match s with
    | [] => None
    | c :: r =>
      if (c =? 34)%N then Some (rev acc, r)
      else if (c =? 92)%N then
        match r with
        | [] => None
        | e :: r1 =>
          if (e =? 117)%N then
            match r1 with
            | h1 :: h2 :: h3 :: h4 :: r2 =>
              match hex4 h1 h2 h3 h4 with
              | None => None
              | Some cp =>
                match r2 with
                | b :: l :: g1 :: g2 :: g3 :: g4 :: r3 =>
                  if is_high_surrogate cp && (b =? 92)%N && (l =? 117)%N then
                    match hex4 g1 g2 g3 g4 with
                    | None => None
                    | Some cp2 =>
                      if is_low_surrogate cp2
                      then scan_string fuel' r3
                             ((65536 + (cp - 55296) * 1024 + (cp2 - 56320))%N :: acc)
                      else scan_string fuel' r2 (cp :: acc)
                    end
                  else scan_string fuel' r2 (cp :: acc)
                | _ => scan_string fuel' r2 (cp :: acc)
                end
              end
            | _ => None
            end
          else
            match simple_escape e with
            | Some ch => scan_string fuel' r1 (ch :: acc)
            | None => None
            end
        end
      else if (c <? 32)%N then None
      else scan_string fuel' r (c :: acc)
    end
  end.

Definition literal (s : str) (name : string) (v : value) : option (value * str) :=
  if startswith s (u name)
  then Some (v, skipn (List.length (u name)) s)
  else None.

Definition or_else {A} (a b : option A) : option A :=
  match a with
  | Some _ => a
  | None => b
  end.

Fixpoint scan_once (fuel : nat) (s : str) : option (value * str) :=
  match fuel with
  | O => None
  | S fuel' =>
    match s with
    | [] => None
    | c :: r =>
      if (c =? 34)%N then
        match scan_string (S (List.length r)) r [] with
        | Some (t, r') => Some (PStr t, r')
        | None => None
        end
      else if (c =? 123)%N then
        match skip_ws r with
        | c' :: r' =>
          if (c' =? 125)%N then Some (PDict [], r')
          else scan_members fuel' (c' :: r') []
        | [] => None
        end
      else if (c =? 91)%N then
        match skip_ws r with
        | c' :: r' =>
          if (c' =? 93)%N then Some (PList [], r')
          else scan_items fuel' (c' :: r') []
        | [] => None
        end
      else
        or_else (literal s "null" PNone)
        (or_else (literal s "true" (PBool true))
        (or_else (literal s "false" (PBool false))
        (or_else (scan_number s)
        (or_else (literal s "NaN" (PFloat NaN))
        (or_else (literal s "Infinity" (PFloat PosInf))
                 (literal s "-Infinity" (PFloat NegInf)))))))
    end
  end
with scan_items (fuel : nat) (s : str) (acc : list value)
  : option (value * str) :=
  match fuel with
  | O => None
  | S fuel' =>
    match scan_once fuel' s with
    | None => None
    | Some (v, r) =>
      match skip_ws r with
      | c :: r' =>
        if (c =? 93)%N then Some (PList (rev (v :: acc)), r')
        else if (c =? 44)%N then scan_items fuel' (skip_ws r') (v :: acc)
        else None
      | [] => None
      end
    end
  end
with scan_members (fuel : nat) (s : str) (acc : list (str * value))
  : option (value * str) :=
  match fuel with
  | O => None
  | S fuel' =>
    match s with
    | c :: r =>
      if (c =? 34)%N then
        match scan_string (S (List.length r)) r [] with
        | None => None
        | Some (k, r1) =>
          match skip_ws r1 with
          | c1 :: r2 =>
            if (c1 =? 58)%N then
              match scan_once fuel' (skip_ws r2) with
              | None => None
              | Some (v, r3) =>
                match skip_ws r3 with
                | c3 :: r4 =>
                  if (c3 =? 125)%N
                  then Some (PDict (dict_of_pairs (rev ((k, v) :: acc))), r4)
                  else if (c3 =? 44)%N
                  then scan_members fuel' (skip_ws r4) ((k, v) :: acc)
                  else None
                | [] => None
                end
              end
            else None
          | [] => None
          end
        end
      else None
    | [] => None
    end
  end.

(** [json.loads(s)] *)
Definition loads (s : str) : option value :=
  if startswith s [65279%N] then None
  else
    match scan_once (2 * List.length s + 2) (skip_ws s) with
    | Some (v, r) => match skip_ws r with [] => Some v | _ => None end
    | None => None
    end.

End Json.

(** ** The environment of the program

    What the remote model service answers, what the program prints, logs
    and writes, and how long it sleeps. *)

Module Env.

(** The outcome of one [BEDROCK_CLIENT.invoke_model(...)] call: the client
    raises (time-out, throttling, service error), or returns a response whose
    body is read as text. *)
Inductive invoke_outcome : Type :=
| Raises (msg : str)
| Responds (body : str).

(** The answers of the service to the successive attempts of one task,
    numbered from 0. *)
Definition answers := nat -> invoke_outcome.

(** The pieces of a formatted message.  Text is kept as it is; a value that
    Python formats (a float with a precision, the text of an exception, a
    decoded value) is kept as the value. *)
Inductive piece : Type :=
| Lit (s : str)
| Int (z : Z)
| Float1 (x : Q)
| ExnText (e : exn)
| Val (v : value).

Definition message := list piece.

Inductive event : Type :=
| Invoke (prompt : str)
| Sleep (seconds : Q)
| Print (line : message)
| LogError (who : str) (what : message).

Definition trace := list event.

(** What a batch function leaves behind: lines on the console and files.
    [R] is the type of the records of the batch. *)
Inductive output (R : Type) : Type :=
| Console (line : message)
| JsonFile (file : str) (content : list R)
| CsvFile (file : str) (rows : list (list value)).

Arguments Console {R} line.
Arguments JsonFile {R} file content.
Arguments CsvFile {R} file rows.

Definition is_json_file {R} (o : output R) : bool :=
  match o with
  | JsonFile _ _ => true
  | _ => false
  end.

(** ["=" * 70] *)
Definition rule : str := repeat 61%N 70.

Definition is_invoke (e : event) : bool :=
  match e with
  | Invoke _ => true
  | _ => false
  end.

(** The number of requests sent to the service. *)
Definition invocations (t : trace) : nat := List.length (filter is_invoke t).

(** [response_body['content'][0]['text']] on the decoded response body. *)
Definition completion_text (loads : str -> option value) (body : str)
  : result value :=
  match loads body with
  | None => raise JSONDecodeError
  | Some response_body =>
    (content <- getitem_key response_body (u "content") ;;
     first <- getitem_0 content ;;
     getitem_key first (u "text"))%py
  end.

(** An answer that carries a completion, the text [t]. *)
Definition carries (loads : str -> option value) (o : invoke_outcome) (t : str)
  : Prop :=
  exists body, o = Responds body /\ completion_text loads body = ret (PStr t).

(** The number of attempts that a retry loop over [todo] makes when
    [failed] tells which attempts fail: it stops at the first success. *)
Fixpoint attempts_needed (failed : nat -> bool) (todo : list nat) : nat :=
  match todo with
  | [] => 0
  | n :: rest => if failed n then S (attempts_needed failed rest) else 1
  end.

Definition is_raised {A} (r : result A) : bool :=
  match r with
  | inl _ => true
  | inr _ => false
  end.

End Env.

Import Env.

(** ** app/run_analysis.py *)

Module RunAnalysis.

Definition MAX_WORKERS : nat := 5.
Definition MAX_RETRIES : nat := 2.

Definition OUTPUT_FILE : str := u "impact_analysis_results.json".
Definition RECOMMENDATIONS_FILE : str := u "recommendations.csv".

(** The block under [# Nettoyer markdown] in [call_bedrock]: three
    independent tests on the stripped text. *)
Definition clean_markdown (response_text : str) : str :=
  let response_text := strip response_text in
  let response_text :=
    if startswith response_text (u "```json")
    then slice_from 7 response_text else response_text in
  let response_text :=
    if startswith response_text (u "```")
    then slice_from 3 response_text else response_text in
  let response_text :=
    if endswith response_text (u "```")
    then slice_to_neg 3 response_text else response_text in
  response_text.

Section Gateway.

Variable loads : str -> option value.

(** The cleaning and decoding of the text of the completion: only a [str]
    has [strip]. *)
Definition decode_completion (response_text : value) : result value :=
  match response_text with
  | PStr t =>
    match loads (strip (clean_markdown t)) with
    | Some result => ret result
    | None => raise JSONDecodeError
    end
  | _ => raise AttributeError
  end.

(** The body of the [try] of one attempt. *)
Definition attempt (o : invoke_outcome) : result value :=
  match o with
  | Raises msg => raise (ClientError msg)
  | Responds body =>
    (response_text <- completion_text loads body ;;
     decode_completion response_text)%py
  end.

(** [for attempt in range(MAX_RETRIES)], from the attempts still to make.
    The value returned is a Python value: [PNone] is [None]. *)
Fixpoint call_bedrock_loop (sv : answers) (prompt : str) (todo : list nat)
  : trace * value :=
  match todo with
  | [] => ([], PNone)
  | n :: rest =>
    match attempt (sv n) with
    | inr result => ([Invoke prompt], result)
    | inl e =>
      if n <? MAX_RETRIES - 1 then
        let '(t, r) := call_bedrock_loop sv prompt rest in
        (Invoke prompt :: Sleep 1 :: t, r)
      else
        ([Invoke prompt; Print [Lit (u "❌ Bedrock error: "); ExnText e]],
         PNone)
    end
  end.

Definition call_bedrock (sv : answers) (prompt : str) : trace * value :=
  call_bedrock_loop sv prompt (seq 0 MAX_RETRIES).

End Gateway.

(** The recommendation categories of [get_overall_recommendation]. *)
Inductive recommendation : Type :=
| SELL
| REDUCE
| HOLD
| BUY
| STRONG_BUY.

Definition get_overall_recommendation (score : number) : recommendation :=
  if le_const score (-1.5) then SELL
  else if le_const score (-0.5) then REDUCE
  else if le_const score 0.5 then HOLD
  else if le_const score 1.5 then BUY
  else STRONG_BUY.

(** The objects that module-level names are bound to. *)
Inductive pyobject : Type :=
| Data (v : value)
| Callable
| ModuleObject
| Opaque.

(** The namespace of the module when [run_full_analysis] runs: the names
    that the imports, the assignments and the [def]s of the module bind.
    The paths built from the configuration are opaque here. *)
Definition module_namespace : list (str * pyobject) :=
  [ (u "boto3", ModuleObject); (u "json", ModuleObject);
    (u "Path", Callable); (u "ThreadPoolExecutor", Callable);
    (u "as_completed", Callable); (u "Dict", Opaque); (u "List", Opaque);
    (u "Optional", Opaque); (u "Tuple", Opaque); (u "time", ModuleObject);
    (u "datetime", Callable); (u "pd", ModuleObject); (u "tqdm", Callable);
    (u "os", ModuleObject); (u "sys", ModuleObject);
    (u "FILLINGS_DIR", Opaque); (u "PROJECT_DIR", Opaque);
    (u "PROCESSED_DIR", Opaque); (u "AWS_REGION", Opaque);
    (u "MODEL_ID_10K", Opaque); (u "BEDROCK_CLIENT", Opaque);
    (u "MODEL_ID", Opaque); (u "REGULATIONS_FILE", Opaque);
    (u "COMPANY_10K_FILE", Opaque); (u "RISK_SCORES_FILE", Opaque);
    (u "OUTPUT_FILE", Opaque); (u "RECOMMENDATIONS_FILE", Opaque);
    (u "MAX_WORKERS", Data (PInt 5)); (u "MAX_RETRIES", Data (PInt 2));
    (u "IMPACT_ANALYSIS_PROMPT", Opaque);
    (u "load_regulations", Callable); (u "load_company_data", Callable);
    (u "load_risk_scores", Callable); (u "format_company_info", Callable);
    (u "call_bedrock", Callable);
    (u "analyze_company_regulation_pair", Callable);
    (u "run_full_analysis", Callable);
    (u "argparse", ModuleObject); (u "parser", Opaque); (u "args", Opaque) ].

Fixpoint lookup_name (ns : list (str * pyobject)) (name : str)
  : option pyobject :=
  match ns with
  | [] => None
  | (n, o) :: rest => if str_eqb n name then Some o else lookup_name rest name
  end.

(** Reading a name that the function does not assign: it is looked up in
    the module (no built-in has the names read this way). *)
Definition load_global (name : str) : result pyobject :=
  match lookup_name module_namespace name with
  | Some o => ret o
  | None => raise (NameError name)
  end.

(** [len(o)] *)
Definition len (o : pyobject) : result nat :=
  match o with
  | Data (PList l) => ret (List.length l)
  | Data (PStr s) => ret (List.length s)
  | Data (PDict d) => ret (List.length d)
  | _ => raise TypeError
  end.

(** [run_full_analysis] from the end of its loop to the message that the
    results are saved: [results] is what the loop collected,
    [elapsed_time] the difference of the two clock readings.  The function
    returns the console lines and files produced, and whether this part
    ended or raised. *)
Definition statistics_and_save (results : list value) (elapsed_time : Q)
  : list (output value) * result unit :=
  let out :=
    [ Console []; Console [Lit rule];
      Console [Lit (u "📊 STATISTIQUES")]; Console [Lit rule] ] in
  match (tasks <- load_global (u "tasks") ;; len tasks)%py with
  | inl e => (out, raise e)
  | inr n_tasks =>
    let out := out ++
      [ Console [Lit (u "✅ Analyses réussies: ");
                 Int (Z.of_nat (List.length results)); Lit (u "/");
                 Int (Z.of_nat n_tasks)];
        Console [Lit (u "⏱️  Temps total: "); Float1 (elapsed_time / 60)%Q;
                 Lit (u " minutes")] ] in
    if Qeq_bool elapsed_time 0 then (out, raise ZeroDivisionError)
    else
      (out ++
       [ Console [Lit (u "⚡ Vitesse: ");
                  Float1 (inject_Z (Z.of_nat (List.length results))
                          / elapsed_time * 60)%Q;
                  Lit (u " analyses/minute")];
         JsonFile OUTPUT_FILE results;
         Console [Lit (nl :: u "💾 Résultats sauvegardés: "); Lit OUTPUT_FILE] ],
       ret tt)
  end.

End RunAnalysis.

(** ** extraction_mod/extract_10k_v2.py *)

Module Extract10kV2.

Definition MAX_WORKERS : nat := 5.
Definition MAX_RETRIES : nat := 3.

Definition clean_json_response (text : str) : str :=
  let text := strip text in
  let text :=
    if startswith text (u "```json") then slice_from 7 text
    else if startswith text (u "```") then slice_from 3 text
    else text in
  let text :=
    if endswith text (u "```") then slice_to_neg 3 text else text in
  strip text.

(** [data.get(section, {}).get(key, default)] *)
Definition get_in (data : value) (section key : str) (default : value)
  : result value :=
  (s <- get data section (PDict []) ;; get s key default)%py.

(** [', '.join(v.keys())]: only a [dict] has keys; the keys of a decoded
    object are strings. *)
Definition join_keys (v : value) : result value :=
  match v with
  | PDict d => ret (PStr (join (u ", ") (keys d)))
  | _ => raise AttributeError
  end.

Definition normalize_structure (data : value) : result value :=
  (company_info <- get data (u "company_info") (PDict []) ;;
   geographic_revenue <- get data (u "geographic_revenue") (PDict []) ;;
   business_segments <- get data (u "business_segments") (PDict []) ;;
   key_financials <- get data (u "key_financials") (PDict []) ;;
   supply_chain <- get data (u "supply_chain") (PDict []) ;;
   metadata <- get data (u "metadata") (PDict []) ;;
   company_name <- get_in data (u "company_info") (u "name") PNone ;;
   trading_symbol <- get_in data (u "company_info") (u "ticker") PNone ;;
   legal_domicile_country <-
     get_in data (u "company_info") (u "domicile_country") PNone ;;
   sector_industry <- get_in data (u "company_info") (u "sector") PNone ;;
   regions <- get data (u "geographic_revenue") (PDict []) ;;
   regions_keys <- get data (u "geographic_revenue") (PDict []) ;;
   regions_of_activity <- join_keys regions_keys ;;
   segments <- get data (u "business_segments") (PDict []) ;;
   suppliers_sector_industries <-
     get_in data (u "supply_chain") (u "major_suppliers_industries") (PList []) ;;
   key_countries <-
     get_in data (u "supply_chain") (u "key_supplier_countries") (PList []) ;;
   purchase_obligations_usd <-
     get_in data (u "key_financials") (u "purchase_obligations_usd") PNone ;;
   r_and_d_expense_usd <-
     get_in data (u "key_financials") (u "r_and_d_expense_usd") PNone ;;
   ret (PDict
     [ (u "company_info", company_info);
       (u "geographic_revenue", geographic_revenue);
       (u "business_segments", business_segments);
       (u "key_financials", key_financials);
       (u "supply_chain", supply_chain);
       (u "metadata", metadata);
       (u "identity_and_jurisdiction", PDict
         [ (u "company_name", company_name);
           (u "trading_symbol", trading_symbol);
           (u "legal_domicile_country", legal_domicile_country);
           (u "sector_industry", sector_industry) ]);
       (u "geographic_exposure", PDict
         [ (u "regions", regions);
           (u "regions_of_activity", regions_of_activity) ]);
       (u "business_mix", PDict
         [ (u "segments", segments) ]);
       (u "supply_chain_and_commitments", PDict
         [ (u "suppliers_sector_industries", suppliers_sector_industries);
           (u "key_countries", key_countries);
           (u "purchase_obligations_usd", purchase_obligations_usd) ]);
       (u "tax_and_innovation", PDict
         [ (u "r_and_d_expense_usd", r_and_d_expense_usd) ]) ]))%py.

Section Gateway.

Variable loads : str -> option value.
Variable lower : str -> str.

(** [json.loads(clean_json_response(response_text))]: only a [str] has
    [strip]. *)
Definition decode_completion (response_text : value) : result value :=
  match response_text with
  | PStr t =>
    match loads (clean_json_response t) with
    | Some data => ret data
    | None => raise JSONDecodeError
    end
  | _ => raise AttributeError
  end.

(** The body of the [try] of one attempt, after the sleep and the request. *)
Definition attempt (o : invoke_outcome) : result value :=
  match o with
  | Raises msg => raise (ClientError msg)
  | Responds body =>
    (response_text <- completion_text loads body ;;
     data <- decode_completion response_text ;;
     normalize_structure data)%py
  end.

(** ['throttl' in str(e).lower()]: the text of an exception of the service
    client is its message; the texts of the exceptions that the attempt
    itself raises do not hold the word. *)
Definition mentions_throttling (e : exn) : bool :=
  match e with
  | ClientError msg => contains (lower msg) (u "throttl")
  | _ => false
  end.

(** [time.sleep(min(2 ** retry, 10))] before every attempt but the first. *)
Definition backoff (retry : nat) : trace :=
  if 0 <? retry then [Sleep (inject_Z (Z.min (2 ^ Z.of_nat retry) 10))]
  else [].

Fixpoint call_bedrock_loop (sv : answers) (prompt : str) (todo : list nat)
  : trace * value :=
  match todo with
  | [] => ([], PNone)
  | retry :: rest =>
    let continue (before : trace) :=
      let '(t, r) := call_bedrock_loop sv prompt rest in
      (backoff retry ++ Invoke prompt :: before ++ t, r) in
    let log_and_stop (before : trace) (who : str) (what : message) :=
      (backoff retry ++ Invoke prompt :: before ++ [LogError who what],
       PNone) in
    match attempt (sv retry) with
    | inr data => (backoff retry ++ [Invoke prompt], data)
    | inl JSONDecodeError =>
      if retry <? MAX_RETRIES - 1 then continue []
      else log_and_stop [] (u "json") [Lit (u "JSON error: "); ExnText JSONDecodeError]
    | inl e =>
      if mentions_throttling e then
        let slept := [Sleep (inject_Z (5 * (Z.of_nat retry + 1)))] in
        if retry <? MAX_RETRIES - 1 then continue slept
        else log_and_stop slept (u "bedrock") [Lit (u "Error: "); ExnText e]
      else
        if retry <? MAX_RETRIES - 1 then continue []
        else log_and_stop [] (u "bedrock") [Lit (u "Error: "); ExnText e]
    end
  end.

Definition call_bedrock (sv : answers) (prompt : str) : trace * value :=
  call_bedrock_loop sv prompt (seq 0 MAX_RETRIES).

End Gateway.

(** A filing on disk: [html_path.parent.name] and [str(html_path)]. *)
Record path : Type := {
  parent_name : str;
  path_str : str
}.

(** One task of a batch with what its environment provides: the text that
    [extract_text_smart] returns for the file (empty when the extraction
    failed), the answers of the service and the time at which it ends. *)
Record task : Type := {
  html_path : path;
  extract_text_smart : str;
  service : answers;
  now_isoformat : str
}.

(** The two shapes of the dictionary that [process_single_10k] returns;
    ['success'] tells them apart. *)
Inductive extraction : Type :=
| Extracted (ticker file_path : str) (data : value) (extracted_at : str)
| Failure (ticker file_path : str) (error : message).

Definition success_of (r : extraction) : bool :=
  match r with
  | Extracted _ _ _ _ => true
  | Failure _ _ _ => false
  end.

Definition ticker_of (r : extraction) : str :=
  match r with
  | Extracted t _ _ _ => t
  | Failure t _ _ => t
  end.

Definition create_error_result (ticker : str) (p : path) (error : message)
  : extraction :=
  Failure ticker (path_str p) error.

(** The shared dictionary [progress]. *)
Record progress : Type := {
  success : nat;
  failed : nat
}.

Definition count_success (p : progress) : progress :=
  {| success := success p + 1; failed := failed p |}.
Definition count_failed (p : progress) : progress :=
  {| success := success p; failed := failed p + 1 |}.

Section Runner.

Variable loads : str -> option value.
Variable lower : str -> str.

(** [EXTRACTION_PROMPT.format(content=text)].  The worker is written over
    every behaviour of the call; the call on the template of the source is
    [Extract10kV2Prompt.format_prompt], further down, which raises
    KeyError on every text, the braces of the JSON sample in the template
    not being doubled. *)
Variable format_prompt : str -> result str.

Definition process_single_10k (t : task) (p : progress)
  : extraction * progress * trace :=
  let ticker := parent_name (html_path t) in
  let body : result (extraction * progress * trace) :=
    let text := extract_text_smart t in
    match text with
    | [] =>
      ret (create_error_result ticker (html_path t) [Lit (u "Empty extraction")],
           count_failed p, [])
    | _ =>
      (prompt <- format_prompt text ;;
       let '(tr, data) := call_bedrock loads lower (service t) prompt in
       if truthy data then
         ret (Extracted ticker (path_str (html_path t)) data (now_isoformat t),
              count_success p, tr)
       else
         ret (create_error_result ticker (html_path t) [Lit (u "Bedrock failed")],
              count_failed p, tr))%py
    end in
  match body with
  | inr outcome => outcome
  | inl e =>
    (create_error_result ticker (html_path t) [ExnText e],
     count_failed p, [LogError ticker [ExnText e]])
  end.

(** The pool of [extract_all_10k]: the futures are taken in the order in
    which they complete, [completed] lists the tasks in that order.  Every
    worker updates the shared [progress], one worker after the other; the
    loop appends what the worker returned.  The progress bar and the
    [time.sleep] between two results leave no mark here. *)
Fixpoint as_completed (completed : list task) (p : progress)
  (results : list extraction) : list extraction * progress :=
  match completed with
  | [] => (results, p)
  | t :: rest =>
    let '(r, p', _) := process_single_10k t p in
    as_completed rest p' (results ++ [r])
  end.

Definition extract_all_10k (completed : list task)
  : list extraction * progress :=
  as_completed completed {| success := 0; failed := 0 |} [].

End Runner.

End Extract10kV2.

(** ** The base64 decoder of the Python standard library

    [b64decode] follows [base64.b64decode(s)] on a [str] with the default
    [validate=False]: the text must be ASCII; characters outside the
    alphabet are skipped; the padding that completes a group ends the
    decoding; a group left incomplete at the end is an error. *)

Module Base64.

Definition index (c : char) : option N :=
  if ((65 <=? c) && (c <=? 90))%N then Some (c - 65)%N
  else if ((97 <=? c) && (c <=? 122))%N then Some (c - 71)%N
  else if ((48 <=? c) && (c <=? 57))%N then Some (c + 4)%N
  else if (c =? 43)%N then Some 62%N
  else if (c =? 47)%N then Some 63%N
  else None.

Fixpoint a2b_base64 (s : str) (quad_pos : nat) (leftchar : N) (pads : nat)
  (out : list N) : result (list N) :=
  match s with
  | [] =>
    match quad_pos with
    | O => ret (rev out)
    | _ => raise BinasciiError
    end
  | c :: r =>
    if (c =? 61)%N then
      if 2 <=? quad_pos then
        if 4 <=? quad_pos + S pads then ret (rev out)
        else a2b_base64 r quad_pos leftchar (S pads) out
      else a2b_base64 r quad_pos leftchar pads out
    else
      match index c with
      | None => a2b_base64 r quad_pos leftchar pads out
      | Some v =>
        match quad_pos with
        | 0%nat => a2b_base64 r 1 v 0 out
        | 1%nat =>
          a2b_base64 r 2 (v mod 16)%N 0 ((leftchar * 4 + v / 16)%N :: out)
        | 2%nat =>
          a2b_base64 r 3 (v mod 4)%N 0 ((leftchar * 16 + v / 4)%N :: out)
        | _ => a2b_base64 r 0 0%N 0 ((leftchar * 64 + v)%N :: out)
        end
      end
  end.

Definition b64decode (s : str) : result (list N) :=
  if forallb (fun c => (c <? 128)%N) s then a2b_base64 s 0 0%N 0 []
  else raise ValueError.

End Base64.

(** ** dashboard/config.py *)

Module DashboardConfig.

Definition MAX_WORKERS : nat := 50.

Definition REGULATORY_KEYWORDS : list str :=
  [ u "regulation"; u "law"; u "policy"; u "compliance"; u "directive";
    u "decree"; u "act"; u "statute"; u "ordinance"; u "legislation";
    u "amendment"; u "requirement"; u "provision"; u "enactment"; u "bill";
    u "règlement"; u "loi"; u "politique"; u "conformité"; u "décret";
    u "ordonnance";
    u "法"; u "法律"; u "法规"; u "规定"; u "条例"; u "政策"; u "能源法";
    u "中华人民共和国"; u "规章"; u "办法"; u "实施"; u "管理";
    u "ley"; u "reglamento"; u "decreto";
    u "gesetz"; u "verordnung" ].

Definition MIN_DOCUMENT_LENGTH : nat := 50.
Definition MIN_KEYWORD_MATCHES : nat := 1.

End DashboardConfig.

(** ** dashboard/regulatory_utils.py *)

Module RegulatoryUtils.

Import DashboardConfig.

Section Parsers.

(** [str.lower]. *)
Variable lower : str -> str.

(** The format-specific extractors, which rest on pdfplumber, ElementTree
    and HTMLParser.  Each returns the text it found, or raises. *)
Variable parse_pdf_document : list N -> result str.
Variable parse_xml_document : str -> result str.
Variable parse_html_document : str -> result str.

(** [parts[1]] and [parts[-1]] *)
Definition item_1 (parts : list str) : result str :=
  match parts with
  | _ :: p :: _ => ret p
  | _ => raise IndexError
  end.

Definition item_last (parts : list str) : str := last parts [].

(** [decoded.decode('utf-8')], and on [UnicodeDecodeError]
    [decoded.decode('latin-1', errors='ignore')]. *)
Definition decode_text (decoded : list N) : str :=
  match utf8_decode decoded with
  | Some text => text
  | None => latin1_decode decoded
  end.

Definition parse_any_format (contents filename : str) : str :=
  let body : result str :=
    (content_string <- item_1 (split 44%N contents) ;;
     decoded <- Base64.b64decode content_string ;;
     let ext := item_last (split 46%N (lower filename)) in
     if str_eqb ext (u "pdf") then parse_pdf_document decoded
     else
       let text := decode_text decoded in
       if str_eqb ext (u "xml") then parse_xml_document text
       else if str_eqb ext (u "html") || str_eqb ext (u "htm")
       then parse_html_document text
       else ret text)%py in
  match body with
  | inr text => text
  | inl _ => []
  end.

Definition validate_regulatory_document (text : str) : bool * str :=
  if match text with [] => true | _ => false end
     || (List.length text <? MIN_DOCUMENT_LENGTH)
  then
    (false,
     u "Document trop court (minimum " ++ str_of_nat MIN_DOCUMENT_LENGTH
       ++ u " caractères)")
  else
    let text_lower := lower text in
    let matches :=
      List.length
        (filter (fun keyword => contains text_lower keyword)
                REGULATORY_KEYWORDS) in
    if matches <? MIN_KEYWORD_MATCHES then
      (false,
       u "Document ne contient pas assez de mots-clés réglementaires (trouvé "
         ++ str_of_nat matches ++ u ", minimum "
         ++ str_of_nat MIN_KEYWORD_MATCHES ++ u ")")
    else (true, u "Document validé").

End Parsers.

Section Profile.

(** [f"{value}"] for a decoded value, and [f"{x/1e9:.1f}"] for a number:
    the formatting of floats is left to Python. *)
Variable format_value : value -> str.
Variable format_billions : value -> str.

(** The dictionary that [format_company_profile] returns. *)
Record company_profile : Type := {
  ticker : value;
  company_name : value;
  sector : value;
  geography : str;
  business_mix : str;
  supply_chain : str;
  r_and_d : str
}.

Definition REGION_KEYS : list (str * str) :=
  [ (u "Americas", u "americas_revenue_share_prct_2024");
    (u "Europe", u "europe_revenue_share_prct_2024");
    (u "China", u "china_revenue_share_prct_2024");
    (u "Japan", u "japan_revenue_share_prct_2024");
    (u "Rest of Asia", u "restofasia_revenue_share_prct_2024") ].

(** The loop over the region keys, which fills [geography_parts]. *)
Fixpoint geography_loop (geo : value) (todo : list (str * str))
  (geography_parts : list str) : result (list str) :=
  match todo with
  | [] => ret geography_parts
  | (region, key) :: rest =>
    (v <- get geo key PNone ;;
     if truthy v
     then geography_loop geo rest
            (geography_parts ++ [region ++ u ": " ++ format_value v ++ u "%"])
     else geography_loop geo rest geography_parts)%py
  end.

Definition or_not_disclosed (parts : list str) : str :=
  match parts with
  | [] => u "Not disclosed"
  | _ => join (u ", ") parts
  end.

(** [x/1e9] is defined on numbers only, and an integer is converted to a
    float first, which overflows from [2**1024 - 2**970] on: the least
    integer that rounds to [2**1024], one binade above the largest
    float. *)
Definition float_overflows (z : Z) : bool :=
  (2 ^ 1024 - 2 ^ 970 <=? Z.abs z)%Z.

Definition billions (v : value) : result str :=
  match v with
  | PInt z =>
    if float_overflows z then raise OverflowError else ret (format_billions v)
  | PFloat _ | PBool _ => ret (format_billions v)
  | _ => raise TypeError
  end.

(** [biz.get(key)] tested, then [biz[key]/1e9] formatted. *)
Definition revenue_part (biz : value) (label key : str)
  (business_parts : list str) : result (list str) :=
  (v <- get biz key PNone ;;
   if truthy v then
     (x <- getitem_key biz key ;;
      b <- billions x ;;
      ret (business_parts ++ [label ++ u ": $" ++ b ++ u "B"]))
   else ret business_parts)%py.

(** [", ".join(suppliers[:3])] *)
Fixpoint strings_of (items : list value) : result (list str) :=
  match items with
  | [] => ret []
  | PStr s :: rest => (ss <- strings_of rest ;; ret (s :: ss))%py
  | _ :: _ => raise TypeError
  end.

Definition join_first_3 (suppliers : value) : result str :=
  match suppliers with
  | PList l => (ss <- strings_of (firstn 3 l) ;; ret (join (u ", ") ss))%py
  | PStr s => ret (join (u ", ") (List.map (fun c => [c]) (firstn 3 s)))
  | _ => raise TypeError
  end.

Definition format_company_profile (company_data : value)
  : result company_profile :=
  (ticker <- get company_data (u "ticker") (PStr (u "UNK")) ;;
   data <- get company_data (u "data") (PDict []) ;;
   identity <- get data (u "identity_and_jurisdiction") (PDict []) ;;
   company_name <- get identity (u "company_name") (PStr (u "Unknown")) ;;
   sector <- get identity (u "sector_industry") (PStr (u "Unknown")) ;;
   geo <- get data (u "geographic_exposure") (PDict []) ;;
   geography_parts <- geography_loop geo REGION_KEYS [] ;;
   let geography := or_not_disclosed geography_parts in
   biz <- get data (u "business_mix") (PDict []) ;;
   business_parts <-
     revenue_part biz (u "Products") (u "products_revenue_usd") [] ;;
   business_parts <-
     revenue_part biz (u "Services") (u "services_revenue_usd") business_parts ;;
   let business_mix := or_not_disclosed business_parts in
   supply <- get data (u "supply_chain_and_commitments") (PDict []) ;;
   suppliers <- get supply (u "suppliers_sector_industries") (PList []) ;;
   supply_chain <-
     (if truthy suppliers then join_first_3 suppliers
      else ret (u "Not disclosed")) ;;
   tax_innov <- get data (u "tax_and_innovation") (PDict []) ;;
   r_and_d_value <- get tax_innov (u "r_and_d_expense_usd") PNone ;;
   r_and_d <-
     (if truthy r_and_d_value
      then (b <- billions r_and_d_value ;; ret (u "$" ++ b ++ u "B"))
      else ret (u "Not disclosed")) ;;
   ret {| ticker := ticker;
          company_name := company_name;
          sector := sector;
          geography := geography;
          business_mix := business_mix;
          supply_chain := supply_chain;
          r_and_d := r_and_d |})%py.

End Profile.

End RegulatoryUtils.

(** ** dashboard/app.py *)

Module DashboardApp.

Import RegulatoryUtils.

(** [s.replace(old, '')]: the occurrences of [old] are removed from left to
    right. *)
Fixpoint remove_all (fuel : nat) (s old : str) : str :=
  match fuel with
  | O => s
  | S fuel' =>
    match s with
    | [] => []
    | c :: r =>
      if startswith s old && negb (match old with [] => true | _ => false end)
      then remove_all fuel' (skipn (List.length old) s) old
      else c :: remove_all fuel' r old
    end
  end.

Definition replace_with_empty (s old : str) : str :=
  remove_all (List.length s) s old.

(** The regulation that every task of a batch is analysed against. *)
Record regulation : Type := {
  title : str;
  requirements : str
}.

Definition make_regulation (text filename : str) : regulation :=
  {| title :=
       replace_with_empty
         (replace_with_empty
           (replace_with_empty
             (replace_with_empty filename (u ".pdf")) (u ".txt")) (u ".xml"))
         (u ".html");
     requirements :=
       if 500 <? List.length text then slice_to 500 text ++ u "..." else text |}.

(** The dictionary that [analyze_company_regulation_pair] returns. *)
Record analysis : Type := {
  a_ticker : value;
  a_company_name : value;
  a_sector : value;
  impact_score : value;
  sentiment : value;
  reliability : value;
  reasons : value;
  date_analyzed : str
}.

(** A company of the batch with what its environment provides. *)
Record task : Type := {
  company_data : value;
  service : answers;
  now_strftime : str
}.

(** [v[:n]] *)
Definition slice_value (n : nat) (v : value) : result value :=
  match v with
  | PList l => ret (PList (firstn n l))
  | PStr s => ret (PStr (firstn n s))
  | _ => raise TypeError
  end.

Section Analysis.

Variable loads : str -> option value.
Variable format_value : value -> str.
Variable format_billions : value -> str.

(** [round(x, 2)] on a float. *)
Variable round_2 : number -> number.

(** [IMPACT_ANALYSIS_PROMPT.format(regulation_name=..., requirements=...,
    **company_info)]: every field of the template is supplied. *)
Variable format_prompt : str -> str -> company_profile -> str.

(** Whether the service client could be built when the module was loaded. *)
Variable BEDROCK_AVAILABLE : bool.

(** [for attempt in range(2)].  [response_text] is the local variable of
    that name, [None] while it is not bound; the handler of
    [JSONDecodeError] prints [response_text[:300]], and what it raises
    leaves [call_bedrock].  The cleaning block is the one of
    run_analysis.py, word for word. *)
Fixpoint call_bedrock_loop (sv : answers) (prompt : str)
  (response_text : option value) (todo : list nat) : trace * result value :=
  match todo with
  | [] => ([], ret PNone)
  | n :: rest =>
    let retry_or_none (before : trace) (bound : option value) :=
      if n <? 1 then
        let '(t, r) := call_bedrock_loop sv prompt bound rest in
        (Invoke prompt :: before ++ Sleep 1 :: t, r)
      else (Invoke prompt :: before, ret PNone) in
    let on_json_error (bound : option value) :=
      match bound with
      | None => ([Invoke prompt], raise (UnboundLocalError (u "response_text")))
      | Some v =>
        match slice_value 300 v with
        | inl e => ([Invoke prompt], raise e)
        | inr shown =>
          retry_or_none [Print [Lit (u "   Réponse: "); Val shown]] bound
        end
      end in
    match sv n with
    | Raises _ => retry_or_none [] response_text
    | Responds body =>
      match loads body with
      | None => on_json_error response_text
      | Some response_body =>
        match (content <- getitem_key response_body (u "content") ;;
               first <- getitem_0 content ;;
               getitem_key first (u "text"))%py with
        | inl _ => retry_or_none [] response_text
        | inr (PStr t) =>
          let cleaned := RunAnalysis.clean_markdown t in
          match loads (strip cleaned) with
          | Some result => ([Invoke prompt], ret result)
          | None => on_json_error (Some (PStr cleaned))
          end
        | inr v => retry_or_none [] (Some v)
        end
      end
    end
  end.

Definition call_bedrock (sv : answers) (prompt : str) : trace * result value :=
  if BEDROCK_AVAILABLE then call_bedrock_loop sv prompt None (seq 0 2)
  else ([], ret PNone).

(** [round(v, 2)] *)
Definition round_value (v : value) : result value :=
  match v with
  | PInt z => ret (PInt z)
  | PBool b => ret (PInt (if b then 1 else 0))
  | PFloat x => ret (PFloat (round_2 x))
  | _ => raise TypeError
  end.

Definition analyze_company_regulation_pair (t : task) (reg : regulation)
  : trace * result (option analysis) :=
  match format_company_profile format_value format_billions (company_data t) with
  | inl e => ([], raise e)
  | inr company_info =>
    match get (company_data t) (u "ticker") (PStr (u "UNK")) with
    | inl e => ([], raise e)
    | inr ticker =>
      let prompt := format_prompt (title reg) (requirements reg) company_info in
      let '(tr, called) := call_bedrock (service t) prompt in
      (tr,
       (analysis <- called ;;
        if truthy analysis then
          (score <- get analysis (u "impact_score") (PInt 0) ;;
           score <- round_value score ;;
           sentiment <- get analysis (u "sentiment") (PStr (u "NEUTRAL")) ;;
           reliability <- get analysis (u "reliability") (PFloat (Fin 0.5)) ;;
           reliability <- round_value reliability ;;
           reasons <- get analysis (u "reasons") (PList []) ;;
           reasons <- slice_value 2 reasons ;;
           ret (Some {| a_ticker := ticker;
                        a_company_name := company_name company_info;
                        a_sector := sector company_info;
                        impact_score := score;
                        sentiment := sentiment;
                        reliability := reliability;
                        reasons := reasons;
                        date_analyzed := now_strftime t |}))
        else ret None)%py)
    end
  end.

(** What the loop of [analyze_regulation_with_bedrock] tells the caller. *)
Inductive notice : Type :=
| Progress (completed total : nat).

(** The loop over [as_completed(futures)]: [completed] lists the tasks in
    the order in which their futures complete.  [future.result()] raises
    what the worker raised.  The [time.sleep(0.01)] that ends each turn
    leaves no mark here. *)
Fixpoint as_completed (reg : regulation) (callback : bool) (total : nat)
  (todo : list task) (completed : nat) (results : list analysis)
  : list notice * result (list analysis) :=
  match todo with
  | [] => ([], ret results)
  | t :: rest =>
    match snd (analyze_company_regulation_pair t reg) with
    | inl e => ([], raise e)
    | inr result =>
      let results :=
        match result with
        | Some r => results ++ [r]
        | None => results
        end in
      let completed := completed + 1 in
      let '(ns, out) := as_completed reg callback total rest completed results in
      ((if callback then [Progress completed total] else []) ++ ns, out)
    end
  end.

Definition analyze_regulation_with_bedrock (text filename : str)
  (callback : bool) (completed : list task)
  : list notice * result (list analysis) :=
  match completed with
  | [] => ([], ret [])
  | _ =>
    as_completed (make_regulation text filename) callback
      (List.length completed) completed 0 []
  end.

End Analysis.

(** The sentiment labels, the keys of [SENTIMENT_CONFIG]. *)
Inductive sentiment_label : Type :=
| VERY_NEGATIVE
| NEGATIVE
| NEUTRAL
| POSITIVE
| VERY_POSITIVE.

(** [SENTIMENT_CONFIG] as far as ['range'] goes, in the order of the
    dictionary. *)
Definition SENTIMENT_CONFIG : list (sentiment_label * (Q * Q)) :=
  [ (VERY_NEGATIVE, (-3, -1.5));
    (NEGATIVE, (-1.5, -0.5));
    (NEUTRAL, (-0.5, 0.5));
    (POSITIVE, (0.5, 1.5));
    (VERY_POSITIVE, (1.5, 3)) ]%Q.

(** The loop of [get_sentiment_from_score]; [None] when it ends without
    returning. *)
Fixpoint first_range (items : list (sentiment_label * (Q * Q)))
  (score : number) : option sentiment_label :=
  match items with
  | [] => None
  | (sentiment, (low, high)) :: rest =>
    if ge_const score low && lt_const score high then Some sentiment
    else first_range rest score
  end.

Definition get_sentiment_from_score (score : number) : sentiment_label :=
  match first_range SENTIMENT_CONFIG score with
  | Some sentiment => sentiment
  | None => if ge_const score 1.5 then VERY_POSITIVE else VERY_NEGATIVE
  end.

Section Upload.

Variable lower : str -> str.
Variable parse_pdf_document : list N -> result str.
Variable parse_xml_document : str -> result str.
Variable parse_html_document : str -> result str.

Definition parse_document_text (contents filename : str) : str :=
  parse_any_format lower parse_pdf_document parse_xml_document
    parse_html_document contents filename.

Definition validate_regulatory_document (text : str) : bool :=
  fst (RegulatoryUtils.validate_regulatory_document lower text).

End Upload.

End DashboardApp.

(** ** extraction_mod/extract_10k.py *)

Module Extract10k.

Import Extract10kV2.

Definition MAX_WORKERS : nat := 5.
Definition MAX_RETRIES : nat := 2.

Section Epilogue.

(** The two paths under [PROCESSED_DIR], and
    [OUTPUT_FILE.with_suffix('.csv')]. *)
Variable OUTPUT_FILE : str.
Variable ERROR_LOG_FILE : str.
Variable CSV_FILE : str.

(** [r['data']['identity_and_jurisdiction'][key] if r['success'] else None]
    for a row of the summary. *)
Definition identity_field (r : extraction) (key : str) : result value :=
  match r with
  | Extracted _ _ data _ =>
    (identity <- getitem_key data (u "identity_and_jurisdiction") ;;
     getitem_key identity key)%py
  | Failure _ _ _ => ret PNone
  end.

Fixpoint summary_rows (results : list extraction) : result (list (list value)) :=
  match results with
  | [] => ret []
  | r :: rest =>
    (company_name <- identity_field r (u "company_name") ;;
     sector <- identity_field r (u "sector_industry") ;;
     rows <- summary_rows rest ;;
     ret ([PStr (ticker_of r); PBool (success_of r); company_name; sector]
          :: rows))%py
  end.

(** [extract_all_10k] after its pool: the statistics, the JSON file, the
    CSV summary.  [results] is what the pool collected (the dictionaries
    have the two shapes of [extraction], as in extract_10k_v2.py),
    [elapsed_time] the difference of the two clock readings. *)
Definition statistics_and_save (results : list extraction) (elapsed_time : Q)
  : list (output extraction) * result (list extraction) :=
  let n := List.length results in
  let successful := List.length (filter success_of results) in
  let failed := n - successful in
  let out :=
    [ Console []; Console [Lit rule];
      Console [Lit (u " STATISTIQUES")]; Console [Lit rule] ] in
  if n =? 0 then (out, raise ZeroDivisionError)
  else
    let out := out ++
      [ Console [Lit (u "✅ Succès: "); Int (Z.of_nat successful);
                 Lit (u "/"); Int (Z.of_nat n); Lit (u " (");
                 Float1 (inject_Z (Z.of_nat successful)
                         / inject_Z (Z.of_nat n) * 100)%Q;
                 Lit (u "%)")];
        Console [Lit (u "❌ Échecs: "); Int (Z.of_nat failed)];
        Console [Lit (u "⏱️  Temps total: "); Float1 (elapsed_time / 60)%Q;
                 Lit (u " minutes")] ] in
    if Qeq_bool elapsed_time 0 then (out, raise ZeroDivisionError)
    else
      let out := out ++
        [ Console [Lit (u "⚡ Vitesse: ");
                   Float1 (inject_Z (Z.of_nat n) / elapsed_time * 60)%Q;
                   Lit (u " fichiers/minute")];
          JsonFile OUTPUT_FILE results;
          Console [Lit (nl :: u "💾 Résultats sauvegardés: "); Lit OUTPUT_FILE] ]
        ++ (if 0 <? failed
            then [Console [Lit (u "⚠️  Erreurs logguées dans: ");
                           Lit ERROR_LOG_FILE]]
            else []) in
      match summary_rows results with
      | inl e => (out, raise e)
      | inr rows =>
        let csv_file := CSV_FILE in
        (out ++ [ CsvFile csv_file rows;
                  Console [Lit (u " Récapitulatif CSV: "); Lit csv_file] ],
         ret results)
      end.

End Epilogue.

End Extract10k.

(** ** Vocabulary of the theorems *)

(** The two failures of an attempt that the gateway retries: the client
    raises, or the completion is not JSON once [clean] has stripped the
    fences. *)
Definition transport_error (o : invoke_outcome) : Prop :=
  exists msg, o = Raises msg.

Definition parse_failure (loads : str -> option value) (clean : str -> str)
  (o : invoke_outcome) : Prop :=
  exists t, carries loads o t /\ loads (clean t) = None.

(** Every one of the [retries] attempts fails in one of the two ways. *)
Definition gateway_down (loads : str -> option value) (clean : str -> str)
  (sv : answers) (retries : nat) : Prop :=
  forall n, n < retries -> transport_error (sv n) \/ parse_failure loads clean (sv n).

(** The cleaning of run_analysis.py and dashboard/app.py, with the
    [strip()] applied to the argument of [json.loads]. *)
Definition clean_v1 (t : str) : str := strip (RunAnalysis.clean_markdown t).

(** The attempts [k], ..., [k + m - 1] all fail. *)
Definition all_fail (failed : nat -> bool) (k m : nat) : Prop :=
  forall n, k <= n < k + m -> failed n = true.

(** A service that is down for one task: the client raises on the first
    attempt, then the completions are no JSON. *)
Definition service_down : answers :=
  fun n =>
    match n with
    | O => Raises (u "ThrottlingException: Too many requests")
    | _ => Responds (uq "{'content':[{'type':'text','text':'not json'}]}")
    end.

(** A service that answers with an object on the first attempt. *)
Definition service_up : answers :=
  fun _ =>
    Responds
      (uq "{'content':[{'type':'text','text':'{\'impact_score\':1.5,\'company_info\':{\'name\':\'Acme\'}}'}]}").

(** Sample completions: an object inside a [```json] fence, inside a bare
    fence, without a fence, and a text that is not JSON. *)
Definition fenced : str :=
  u "```json" ++ [nl] ++ uq "{'a':1}" ++ [nl] ++ u "```".
Definition plain_fenced : str :=
  u "```" ++ [nl] ++ uq "{'a':1}" ++ [nl] ++ u "```".
Definition bare : str := uq "{'a':1}".
Definition not_json : str := u "not json".

(** The record that the worker of extract_10k_v2.py returns for a task,
    and how a record counts in [progress]. *)
Definition record_of (loads : str -> option value) (lower : str -> str)
  (format_prompt : str -> result str) (t : Extract10kV2.task)
  : Extract10kV2.extraction :=
  fst (fst (Extract10kV2.process_single_10k loads lower format_prompt t
              {| Extract10kV2.success := 0; Extract10kV2.failed := 0 |})).

Definition count (r : Extract10kV2.extraction) (p : Extract10kV2.progress)
  : Extract10kV2.progress :=
  if Extract10kV2.success_of r
  then Extract10kV2.count_success p else Extract10kV2.count_failed p.

(** Reading a dictionary: [d.get(k, default)], the object under a key (empty
    when there is none), and whether a key holds an object or nothing. *)
Definition get_or (d : dict) (k : str) (default : value) : value :=
  match dict_lookup d k with
  | Some v => v
  | None => default
  end.

Definition section_of (d : dict) (k : str) : dict :=
  match dict_lookup d k with
  | Some (PDict s) => s
  | _ => []
  end.

Definition section_is_object (d : dict) (k : str) : Prop :=
  match dict_lookup d k with
  | None | Some (PDict _) => True
  | Some _ => False
  end.

(** [v[k1][k2]...], [None] when a key is missing on the way. *)
Fixpoint lookup_path (v : value) (path : list str) : option value :=
  match path with
  | [] => Some v
  | k :: rest =>
    match v with
    | PDict d =>
      match dict_lookup d k with
      | Some x => lookup_path x rest
      | None => None
      end
    | _ => None
    end
  end.

(** The legacy fields of [normalize_structure] with the place of the input
    that each one is read from: those that default to [None], and those that
    default to the empty list. *)
Definition SCALAR_LEGACY_FIELDS : list (list str * list str) :=
  [ ([u "identity_and_jurisdiction"; u "company_name"],
     [u "company_info"; u "name"]);
    ([u "identity_and_jurisdiction"; u "trading_symbol"],
     [u "company_info"; u "ticker"]);
    ([u "identity_and_jurisdiction"; u "legal_domicile_country"],
     [u "company_info"; u "domicile_country"]);
    ([u "identity_and_jurisdiction"; u "sector_industry"],
     [u "company_info"; u "sector"]);
    ([u "supply_chain_and_commitments"; u "purchase_obligations_usd"],
     [u "key_financials"; u "purchase_obligations_usd"]);
    ([u "tax_and_innovation"; u "r_and_d_expense_usd"],
     [u "key_financials"; u "r_and_d_expense_usd"]) ].

Definition LIST_LEGACY_FIELDS : list (list str * list str) :=
  [ ([u "supply_chain_and_commitments"; u "suppliers_sector_industries"],
     [u "supply_chain"; u "major_suppliers_industries"]);
    ([u "supply_chain_and_commitments"; u "key_countries"],
     [u "supply_chain"; u "key_supplier_countries"]) ].

(** The sections that [normalize_structure] calls a method on are objects
    where the record has them. *)
Definition sections_are_objects (d : dict) : Prop :=
  section_is_object d (u "company_info") /\
  section_is_object d (u "geographic_revenue") /\
  section_is_object d (u "key_financials") /\
  section_is_object d (u "supply_chain").

(** The canonical profile of such a record. *)
Definition normalized (d : dict) : dict :=
  let field s k default := get_or (section_of d s) k default in
  [ (u "company_info", get_or d (u "company_info") (PDict []));
    (u "geographic_revenue", get_or d (u "geographic_revenue") (PDict []));
    (u "business_segments", get_or d (u "business_segments") (PDict []));
    (u "key_financials", get_or d (u "key_financials") (PDict []));
    (u "supply_chain", get_or d (u "supply_chain") (PDict []));
    (u "metadata", get_or d (u "metadata") (PDict []));
    (u "identity_and_jurisdiction", PDict
      [ (u "company_name", field (u "company_info") (u "name") PNone);
        (u "trading_symbol", field (u "company_info") (u "ticker") PNone);
        (u "legal_domicile_country",
         field (u "company_info") (u "domicile_country") PNone);
        (u "sector_industry", field (u "company_info") (u "sector") PNone) ]);
    (u "geographic_exposure", PDict
      [ (u "regions", get_or d (u "geographic_revenue") (PDict []));
        (u "regions_of_activity",
         PStr (join (u ", ") (keys (section_of d (u "geographic_revenue"))))) ]);
    (u "business_mix", PDict
      [ (u "segments", get_or d (u "business_segments") (PDict [])) ]);
    (u "supply_chain_and_commitments", PDict
      [ (u "suppliers_sector_industries",
         field (u "supply_chain") (u "major_suppliers_industries") (PList []));
        (u "key_countries",
         field (u "supply_chain") (u "key_supplier_countries") (PList []));
        (u "purchase_obligations_usd",
         field (u "key_financials") (u "purchase_obligations_usd") PNone) ]);
    (u "tax_and_innovation", PDict
      [ (u "r_and_d_expense_usd",
         field (u "key_financials") (u "r_and_d_expense_usd") PNone) ]) ].

(** The record of the normalizer's example: regions EMEA and APAC. *)
Definition emea_apac : dict :=
  [ (u "geographic_revenue", PDict [(u "EMEA", PInt 40); (u "APAC", PInt 60)]) ].

(** A text of 40 characters that holds keywords, and a text of 200
    characters that holds "directive" once and no other keyword. *)
Definition short_text : str := u "This directive is a law and a regulation".
Definition long_text : str := u "Directive" ++ repeat 120%N 191.

(** Extractors that find no text, for the examples of the upload. *)
Definition no_text (A : Type) (_ : A) : result str := ret [].

(** The extension that [parse_any_format] dispatches on, and whether it
    selects a format-specific extractor. *)
Definition extension (lower : str -> str) (filename : str) : str :=
  RegulatoryUtils.item_last (split 46%N (lower filename)).

Definition dispatched (ext : str) : bool :=
  str_eqb ext (u "pdf") || str_eqb ext (u "xml")
  || str_eqb ext (u "html") || str_eqb ext (u "htm").

(** The payload of an upload: [base64.b64decode(contents.split(',')[1])]. *)
Definition payload (contents : str) : result (list N) :=
  (content_string <- RegulatoryUtils.item_1 (split 44%N contents) ;;
   Base64.b64decode content_string)%py.

(** The tasks of the examples: a filing and a company, each with the
    service that answers for it. *)
Definition filing (ticker : string) (sv : answers) : Extract10kV2.task :=
  {| Extract10kV2.html_path :=
       {| Extract10kV2.parent_name := u ticker;
          Extract10kV2.path_str := u "fillings/" ++ u ticker ++ u "/10k.html" |};
     Extract10kV2.extract_text_smart := u "ANNUAL REPORT";
     Extract10kV2.service := sv;
     Extract10kV2.now_isoformat := u "2025-11-01T10:00:00" |}.

Definition company (ticker : string) (sv : answers) : DashboardApp.task :=
  {| DashboardApp.company_data :=
       PDict [(u "ticker", PStr (u ticker)); (u "success", PBool true)];
     DashboardApp.service := sv;
     DashboardApp.now_strftime := u "2025-11-01 10:00" |}.

(** Stand-ins for the formatting that is left to Python, in examples. *)
Definition plain_prompt (text : str) : result str := ret text.
Definition no_format (_ : value) : str := [].
Definition same_number (x : number) : number := x.
Definition fixed_prompt (_ _ : str) (_ : RegulatoryUtils.company_profile)
  : str := u "prompt".

(** ** More of the sources

    The functions around those above: the text of a filing, the files of
    a batch, the gateway and the worker of extract_10k.py, the loaders of
    the companies, and the steps of the progress display. *)

(** *** The prompt of extract_10k_v2.py and [str.format] *)

Module StrFormat.

(** [str.format] as the formatter of CPython runs it, for a call that
    passes keyword arguments only, all of them of type [str]
    ([template.format(name=value, ...)]).  The template is read from left
    to right; a replacement field is looked up, and an exception raised,
    when the reading comes to it.  What such a call does outside this
    fragment is left to Python: a field name whose first part holds a
    character outside ASCII or more than nine digits, and a field that
    asks for more than the value found (an attribute or an item, a
    conversion, a format specification that is not empty). *)

Definition OPEN : char := 123%N.
Definition CLOSE : char := 125%N.

(** The literal text up to the first brace, and that brace with what
    follows it. *)
Fixpoint scan_literal (s : str) : str * option (char * str) :=
  match s with
  | [] => ([], None)
  | c :: r =>
    if char_eqb c OPEN || char_eqb c CLOSE then ([], Some (c, r))
    else let '(literal, found) := scan_literal r in (c :: literal, found)
  end.

(** The name of a field: it ends at the first closing brace, colon or
    exclamation mark; an opening brace in it is an error; after an opening
    square bracket everything up to the next closing one belongs to the
    name.  The result is the name, the character that ended it and the
    text after that character. *)
Fixpoint scan_name (in_brackets : bool) (s : str)
  : result (str * char * str) :=
  match s with
  | [] => raise ValueError
  | c :: r =>
    let go_on (in_brackets : bool) :=
      (found <- scan_name in_brackets r ;;
       let '(name, stop, rest) := found in ret (c :: name, stop, rest))%py in
    if in_brackets then go_on (negb (char_eqb c 93%N))
    else if char_eqb c OPEN then raise ValueError
    else if char_eqb c 91%N then go_on true
    else if char_eqb c CLOSE || char_eqb c 58%N || char_eqb c 33%N
    then ret ([], c, r)
    else go_on false
  end.

(** The format specification: it ends at the brace that closes the field,
    the braces inside it being counted. *)
Fixpoint scan_spec (count : nat) (s : str) : result (str * str) :=
  match s with
  | [] => raise ValueError
  | c :: r =>
    let go_on (count : nat) :=
      (found <- scan_spec count r ;;
       let '(spec, rest) := found in ret (c :: spec, rest))%py in
    if char_eqb c OPEN then go_on (S count)
    else if char_eqb c CLOSE then
      match count with
      | 0 | 1 => ret ([], r)
      | S count => go_on count
      end
    else go_on count
  end.

(** A replacement field: its name, its conversion and its format
    specification. *)
Record field : Type := {
  field_name : str;
  conversion : option char;
  format_spec : str
}.

(** [parse_field], from the character after the opening brace. *)
Definition parse_field (s : str) : result (field * str) :=
  (found <- scan_name false s ;;
   let '(name, stop, rest) := found in
   let with_spec (conv : option char) (s : str) :=
     (found <- scan_spec 1 s ;;
      let '(spec, rest) := found in
      ret ({| field_name := name; conversion := conv; format_spec := spec |},
           rest)) in
   if char_eqb stop CLOSE then
     ret ({| field_name := name; conversion := None; format_spec := [] |}, rest)
   else if char_eqb stop 58%N then with_spec None rest
   else
     match rest with
     | [] => raise ValueError
     | conv :: [] => with_spec (Some conv) []
     | conv :: c :: rest =>
       if char_eqb c CLOSE then
         ret ({| field_name := name; conversion := Some conv;
                 format_spec := [] |}, rest)
       else if char_eqb c 58%N then with_spec (Some conv) rest
       else raise ValueError
     end)%py.

(** The first part of a field name, up to the first dot or opening square
    bracket, and the rest of it. *)
Fixpoint field_name_split (name : str) : str * str :=
  match name with
  | [] => ([], [])
  | c :: r =>
    if char_eqb c 46%N || char_eqb c 91%N then ([], name)
    else let '(first, rest) := field_name_split r in (c :: first, rest)
  end.

Definition is_ascii (c : char) : bool := (c <? 128)%N.
Definition is_digit (c : char) : bool := ((48 <=? c) && (c <=? 57))%N.

(** [get_field_object] and [render_field] for a field: a name that is
    empty or a number asks for a positional argument, and there is none;
    another name is looked up among the keyword arguments, before the
    conversion and the format specification are looked at.  [None] when
    the field is outside the fragment. *)
Definition output_markup (kwargs : list (str * str)) (f : field)
  : option (result str) :=
  let '(first, rest) := field_name_split (field_name f) in
  if negb (forallb is_ascii first) then None
  else if forallb is_digit first then
    if List.length first <=? 9 then Some (raise IndexError) else None
  else
    match find (fun kv => str_eqb (fst kv) first) kwargs with
    | None => Some (raise KeyError)
    | Some (_, value) =>
      match rest, conversion f, format_spec f with
      | [], None, [] => Some (ret value)
      | _, _, _ => None
      end
    end.

(** The loop of [build_string] over the template; [fuel] bounds the
    number of its turns, each of which reads one character at least. *)
Fixpoint build_string (fuel : nat) (kwargs : list (str * str)) (s : str)
  : option (result str) :=
  match fuel with
  | O => None
  | S fuel =>
    let then_rest (written : str) (rest : str) :=
      match build_string fuel kwargs rest with
      | Some (inr more) => Some (ret (written ++ more))
      | other => other
      end in
    match scan_literal s with
    | (literal, None) => Some (ret literal)
    | (literal, Some (c, [])) => Some (raise ValueError)
    | (literal, Some (c, c' :: rest)) =>
      if char_eqb c c' then then_rest (literal ++ [c]) rest
      else if char_eqb c CLOSE then Some (raise ValueError)
      else
        match parse_field (c' :: rest) with
        | inl e => Some (raise e)
        | inr (f, rest) =>
          match output_markup kwargs f with
          | Some (inr written) => then_rest (literal ++ written) rest
          | other => other
          end
        end
    end
  end.

Section Format.

(** What [str.format] does outside the fragment. *)
Variable beyond : str -> list (str * str) -> result str.

(** [template.format(name=value, ...)] *)
Definition format (template : str) (kwargs : list (str * str)) : result str :=
  match build_string (S (List.length template)) kwargs template with
  | Some outcome => outcome
  | None => beyond template kwargs
  end.

End Format.

End StrFormat.

Module Extract10kV2Prompt.

(** Literals of the template are written with a circumflex in the place
    of the double quote; the template holds no circumflex. *)
Definition uc (s : string) : str :=
  List.map (fun c => if (c =? 94)%N then dq else c) (u s).

(** [EXTRACTION_PROMPT] of extract_10k_v2.py, line by line. *)
Definition EXTRACTION_PROMPT : str :=
  join [nl]
    [
      uc "You are a financial analyst extracting data from a 10-K filing.";
      uc "";
      uc "**CRITICAL: Extract data EXACTLY AS REPORTED. Do NOT assume structure.**";
      uc "";
      uc "Return a JSON object with FLEXIBLE structure that adapts to what you find:";
      uc "";
      uc "{";
      uc "    ^company_info^: {";
      uc "        ^name^: ^string^,";
      uc "        ^ticker^: ^string^, ";
      uc "        ^domicile_country^: ^string^,";
      uc "        ^sector^: ^string^";
      uc "    },";
      uc "    ";
      uc "    ^geographic_revenue^: {";
      uc "        // IMPORTANT: Use the EXACT region names from the document";
      uc "        // DO NOT force specific regions like ^Americas^ or ^Europe^";
      uc "        // If company reports ^North America^, use ^North America^";
      uc "        // If company reports ^EMEA^, use ^EMEA^";
      uc "        // Return as key-value pairs: {^region_name^: percentage}";
      uc "        // Example: {^United States^: 45.2, ^China^: 23.1, ^Europe^: 31.7}";
      uc "    },";
      uc "    ";
      uc "    ^business_segments^: {";
      uc "        // Extract revenue by business line AS REPORTED";
      uc "        // Use company's own segment names";
      uc "        // Example: {^iPhone^: 52.3, ^Services^: 24.1, ^Mac^: 10.2, ^iPad^: 8.5, ^Wearables^: 4.9}";
      uc "        // OR: {^Products^: 75.0, ^Services^: 25.0}";
      uc "        // Adapt to what's in the document";
      uc "    },";
      uc "    ";
      uc "    ^key_financials^: {";
      uc "        ^total_revenue_usd^: ^float or null^,";
      uc "        ^r_and_d_expense_usd^: ^float or null^,";
      uc "        ^purchase_obligations_usd^: ^float or null^";
      uc "    },";
      uc "    ";
      uc "    ^supply_chain^: {";
      uc "        ^major_suppliers_industries^: [^list of supplier industries if mentioned^],";
      uc "        ^key_supplier_countries^: [^list of countries if mentioned^]";
      uc "    },";
      uc "    ";
      uc "    ^metadata^: {";
      uc "        ^fiscal_year^: ^YYYY (detect from document)^,";
      uc "        ^filing_date^: ^YYYY-MM-DD if found^";
      uc "    }";
      uc "}";
      uc "";
      uc "**EXTRACTION GUIDELINES:**";
      uc "";
      uc "1. **Geographic Revenue:**";
      uc "   - Look in Item 7 (MD&A) or Item 8 (Financial Statements) ";
      uc "   - Find ^Revenue by Geography^ or ^Segment Reporting^";
      uc "   - Use EXACT names from tables (don't translate or standardize)";
      uc "   - If percentages given, use those";
      uc "   - If dollar amounts given, calculate percentages";
      uc "   - If neither, return empty object";
      uc "";
      uc "2. **Business Segments:**";
      uc "   - Look for ^Revenue by Product^ or ^Business Segments^";
      uc "   - Use company's terminology (iPhone, Cloud Services, Therapeutics, etc.)";
      uc "   - Extract AS REPORTED";
      uc "";
      uc "3. **Numbers:**";
      uc "   - Full USD amounts (5200000000 not ^5.2B^)";
      uc "   - Use null if not found";
      uc "";
      uc "4. **Fiscal Year:**";
      uc "   - Detect from document (look for ^fiscal year ended^, filing date, etc.)";
      uc "   - Common patterns: 2024, 2023, FY2024";
      uc "";
      uc "5. **Flexibility:**";
      uc "   - If a company doesn't report certain data, use null or empty";
      uc "   - DO NOT invent structure";
      uc "   - Adapt to what's actually there";
      uc "";
      uc "**10-K CONTENT:**";
      uc "{content}";
      uc "";
      uc "**JSON OUTPUT (adapt structure to document):**" ].

Section Format.

Variable beyond : str -> list (str * str) -> result str.

(** [EXTRACTION_PROMPT.format(content=text)] *)
Definition format_prompt (text : str) : result str :=
  StrFormat.format beyond EXTRACTION_PROMPT [(u "content", text)].

End Format.

End Extract10kV2Prompt.

(** *** The text of a filing (extract_10k.py, extract_10k_v2.py) *)

Module FilingText.

(** [CHAR_LIMIT] of extract_10k.py and of extract_10k_v2.py. *)
Definition CHAR_LIMIT_V1 : nat := 400 * 1000.
Definition CHAR_LIMIT : nat := 350 * 1000.

(** [text[a:b]] for [0 <= a <= b], and [text[-n:]] for [n > 0]. *)
Definition slice (a b : nat) (text : str) : str := firstn (b - a) (skipn a text).
Definition slice_last (n : nat) (text : str) : str :=
  skipn (List.length text - n) text.

(** [extract_text_from_html] of extract_10k.py, from the text that
    BeautifulSoup gives for the file, or the exception raised on the way;
    [name] is [html_path.name]. *)
Definition extract_text_from_html (name : str) (soup_text : result str)
  : str * trace :=
  match soup_text with
  | inr text =>
    (if CHAR_LIMIT_V1 <? List.length text then slice_to CHAR_LIMIT_V1 text
     else text, [])
  | inl e =>
    ([], [LogError name [Lit (u "HTML extraction error: "); ExnText e]])
  end.

(** The patterns of [extract_key_sections] with the length kept for each. *)
Definition patterns : list (str * nat) :=
  [ (u "item\s*1[^a0-9].*?business", 30 * 1000);
    (u "item\s*1a.*?risk", 20 * 1000);
    (u "item\s*7[^a].*?management", 40 * 1000);
    (u "item\s*8.*?financial", 30 * 1000) ].

Definition SECTION_MARK : str := [nl; nl] ++ u "=== SECTION ===" ++ [nl; nl].
Definition MIDDLE_MARK : str :=
  [nl; nl] ++ u "[...MIDDLE SECTION...]" ++ [nl; nl].
Definition END_MARK : str := [nl; nl] ++ u "[...]" ++ [nl; nl].

Section Smart.

(** [str.lower], and the start of the first match of a pattern in a text
    ([re.finditer(pattern, text, re.IGNORECASE)]), if there is one. *)
Variable lower : str -> str.
Variable search : str -> str -> option nat.

(** The loop of [extract_key_sections]: the match is looked for in the
    lower-case text, the section is cut from the text itself. *)
Fixpoint key_sections (text text_lower : str) (todo : list (str * nat))
  (sections : list str) : list str :=
  match todo with
  | [] => sections
  | (pattern, max_len) :: rest =>
    match search pattern text_lower with
    | Some start =>
      key_sections text text_lower rest
        (sections ++ [slice start (start + max_len) text])
    | None => key_sections text text_lower rest sections
    end
  end.

Definition extract_key_sections (text : str) : str :=
  match key_sections text (lower text) patterns [] with
  | [] => []
  | sections => slice_to CHAR_LIMIT (join SECTION_MARK sections)
  end.

(** [int(CHAR_LIMIT * 0.4)] and [int(CHAR_LIMIT * 0.2)]. *)
Definition part1 : nat := 140 * 1000.
Definition part2 : nat := 140 * 1000.
Definition part3 : nat := 70 * 1000.

(** [extract_text_smart] of extract_10k_v2.py, from the text that
    BeautifulSoup gives for the file, or the exception raised on the way. *)
Definition extract_text_smart (name : str) (soup_text : result str)
  : str * trace :=
  match soup_text with
  | inr text =>
    let text :=
      if CHAR_LIMIT <? List.length text then
        match extract_key_sections text with
        | [] => text
        | sections => sections
        end
      else text in
    let text :=
      if CHAR_LIMIT <? List.length text then
        let mid := List.length text / 2 in
        slice_to part1 text ++ MIDDLE_MARK
          ++ slice mid (mid + part2) text ++ END_MARK
          ++ slice_last part3 text
      else text in
    (text, [])
  | inl e =>
    ([], [LogError name [Lit (u "Text extraction error: "); ExnText e]])
  end.

End Smart.

End FilingText.

(** *** The files of a batch (extract_10k.py, extract_10k_v2.py) *)

Module Selection.

(** [all_files[:n]] for an integer [n] of either sign. *)
Definition take {A} (n : Z) (l : list A) : list A :=
  if (0 <=? n)%Z then firstn (Z.to_nat n) l
  else firstn (List.length l - Z.to_nat (- n)) l.

(** The files that [extract_all_10k] keeps: five in a dry run, else the
    first [sample_size] when that is given and not zero, else all. *)
Definition select {A} (dry_run : bool) (sample_size : option Z)
  (all_files : list A) : list A :=
  if dry_run then take 5 all_files
  else
    match sample_size with
    | Some n => if (n =? 0)%Z then all_files else take n all_files
    | None => all_files
    end.

(** The options of the command line: [--dry-run], [--sample N], [--full]. *)
Record arguments : Type := {
  dry_run : bool;
  sample : option Z;
  full : bool
}.

(** The block under [if __name__ == "__main__"], as far as the files go
    that the call of [extract_all_10k] keeps. *)
Definition main {A} (args : arguments) (all_files : list A) : list A :=
  if dry_run args then select true None all_files
  else if match sample args with
          | Some n => negb (n =? 0)%Z
          | None => false
          end
  then select false (sample args) all_files
  else if full args then select false None all_files
  else select true None all_files.

End Selection.

(** *** The gateway and the worker of extract_10k.py *)

Module Extract10kRun.

Import Extract10kV2.

Section Gateway.

Variable loads : str -> option value.

(** [for attempt in range(max_retries)]; the body of the [try] is the one
    of run_analysis.py, word for word. *)
Fixpoint call_bedrock_loop (max_retries : nat) (sv : answers) (prompt : str)
  (todo : list nat) : trace * value :=
  match todo with
  | [] => ([], PNone)
  | n :: rest =>
    let again (seconds : Q) :=
      let '(t, r) := call_bedrock_loop max_retries sv prompt rest in
      (Invoke prompt :: Sleep seconds :: t, r) in
    match RunAnalysis.attempt loads (sv n) with
    | inr data => ([Invoke prompt], data)
    | inl JSONDecodeError =>
      if n <? max_retries - 1 then again 1%Q
      else
        ([Invoke prompt;
          LogError (u "bedrock_call")
            [Lit (u "JSON decode error: "); ExnText JSONDecodeError]], PNone)
    | inl e =>
      if n <? max_retries - 1 then again 2%Q
      else
        ([Invoke prompt;
          LogError (u "bedrock_call") [Lit (u "Bedrock error: "); ExnText e]],
         PNone)
    end
  end.

(** [call_bedrock(prompt, max_retries)]; a negative [max_retries] gives
    the empty range that 0 gives. *)
Definition call_bedrock (sv : answers) (prompt : str) (max_retries : nat)
  : trace * value :=
  call_bedrock_loop max_retries sv prompt (seq 0 max_retries).

(** [EXTRACTION_PROMPT.format(schema=..., content=text)]: the template of
    extract_10k.py holds its two fields and no other brace. *)
Variable format_prompt : str -> str.

(** [process_single_10k] of extract_10k.py.  The text of the task is what
    [extract_text_from_html] returns for the file. *)
Definition process_single_10k (t : task) : extraction * trace :=
  let ticker := parent_name (html_path t) in
  match extract_text_smart t with
  | [] =>
    (Failure ticker (path_str (html_path t)) [Lit (u "Empty text extraction")],
     [])
  | text =>
    let '(tr, data) :=
      call_bedrock (service t) (format_prompt text) Extract10k.MAX_RETRIES in
    if truthy data then
      (Extracted ticker (path_str (html_path t)) data (now_isoformat t), tr)
    else
      (Failure ticker (path_str (html_path t))
         [Lit (u "Bedrock extraction failed")], tr)
  end.

End Gateway.

End Extract10kRun.

(** *** The loaders of the companies (run_analysis.py, regulatory_utils.py) *)

Module Loaders.

Import Extract10kV2.

(** The dictionary that a worker of the extraction returns, as it is written
    to the JSON file; [render] gives the text of an error. *)
Definition extraction_dict (render : message -> str) (r : extraction) : value :=
  match r with
  | Extracted ticker file_path data extracted_at =>
    PDict [ (u "ticker", PStr ticker); (u "file_path", PStr file_path);
            (u "success", PBool true); (u "data", data);
            (u "extracted_at", PStr extracted_at) ]
  | Failure ticker file_path error =>
    PDict [ (u "ticker", PStr ticker); (u "file_path", PStr file_path);
            (u "success", PBool false); (u "error", PStr (render error)) ]
  end.

(** [[d for d in items if d.get('success', False)]] *)
Fixpoint keep_successful (items : list value) : result (list value) :=
  match items with
  | [] => ret []
  | d :: rest =>
    (s <- get d (u "success") (PBool false) ;;
     kept <- keep_successful rest ;;
     ret (if truthy s then d :: kept else kept))%py
  end.

(** [load_company_data] of run_analysis.py on the decoded file: the
    comprehension runs over a list; over a dictionary or a string it meets
    keys or characters, which have no [get]; other values do not iterate. *)
Definition load_company_data (data : value) : result (list value) :=
  match data with
  | PList items => keep_successful items
  | PDict [] => ret []
  | PStr [] => ret []
  | PDict _ => raise AttributeError
  | PStr _ => raise AttributeError
  | _ => raise TypeError
  end.

Definition is_dict (v : value) : bool :=
  match v with
  | PDict _ => true
  | _ => false
  end.

(** The entries built from a file that maps tickers to companies. *)
Fixpoint entries_of (items : list (str * value)) : list value :=
  match items with
  | [] => []
  | (ticker, company_data) :: rest =>
    if is_dict company_data then
      PDict [ (u "ticker", PStr ticker); (u "data", company_data);
              (u "success", PBool true) ] :: entries_of rest
    else entries_of rest
  end.

(** [d.get('success', True)] on a dictionary, tested. *)
Definition marked_successful (d : value) : bool :=
  match d with
  | PDict fields =>
    match dict_lookup fields (u "success") with
    | Some s => truthy s
    | None => true
    end
  | _ => false
  end.

(** [load_company_data] of regulatory_utils.py; [None] when no file was
    found or reading it raised. *)
Definition load_company_data_utils (file : option value) : list value :=
  match file with
  | None => []
  | Some (PDict items) => entries_of items
  | Some (PList (first :: rest)) =>
    if is_dict first
    then filter (fun d => is_dict d && marked_successful d) (first :: rest)
    else []
  | Some _ => []
  end.

End Loaders.

(** *** The steps of the progress display (dashboard/app.py) *)

Module ProgressDisplay.

Inductive status : Type :=
| active
| completed
| pending.

(** [step in [...]] *)
Definition among (step : value) (names : list string) : bool :=
  match step with
  | PStr s => existsb (fun n => str_eqb s (u n)) names
  | _ => false
  end.

(** [steps_status] of [update_progress_display], for step1 to step4. *)
Definition steps_status (step : value) : status * status * status * status :=
  ( if among step ["validation"; "analyzing"; "completed"]%string then completed
    else if among step ["parsing"]%string then active else pending,
    if among step ["analyzing"; "completed"]%string then completed
    else if among step ["validation"]%string then active else pending,
    if among step ["completed"]%string then completed
    else if among step ["analyzing"]%string then active else pending,
    if among step ["completed"]%string then completed else pending ).

End ProgressDisplay.

(** *** Vocabulary of the further theorems *)

(** The rank of a recommendation and of a sentiment, from the most
    negative to the most positive. *)
Definition recommendation_rank (r : RunAnalysis.recommendation) : nat :=
  match r with
  | RunAnalysis.SELL => 0
  | RunAnalysis.REDUCE => 1
  | RunAnalysis.HOLD => 2
  | RunAnalysis.BUY => 3
  | RunAnalysis.STRONG_BUY => 4
  end.

Definition sentiment_rank (s : DashboardApp.sentiment_label) : nat :=
  match s with
  | DashboardApp.VERY_NEGATIVE => 0
  | DashboardApp.NEGATIVE => 1
  | DashboardApp.NEUTRAL => 2
  | DashboardApp.POSITIVE => 3
  | DashboardApp.VERY_POSITIVE => 4
  end.

(** The seconds that a trace sleeps in all. *)
Fixpoint slept (t : trace) : Q :=
  match t with
  | [] => 0%Q
  | Sleep s :: rest => (s + slept rest)%Q
  | _ :: rest => slept rest
  end.

(** A service that throttles every request. *)
Definition throttled : answers :=
  fun _ => Raises (u "ThrottlingException: Rate exceeded").

(** A gateway in front of the service that answers with an error page. *)
Definition bad_gateway : answers :=
  fun _ => Responds (u "<html>Bad Gateway</html>").

(** A service whose completions are an empty object. *)
Definition empty_object : answers :=
  fun _ => Responds (uq "{'content':[{'type':'text','text':'{}'}]}").

(** A template that [str.format] refuses: the call raises on every text. *)
Definition broken_prompt (_ : str) : result str := raise KeyError.

(** A filing from which no text could be extracted. *)
Definition empty_filing (ticker : string) (sv : answers) : Extract10kV2.task :=
  {| Extract10kV2.html_path :=
       {| Extract10kV2.parent_name := u ticker;
          Extract10kV2.path_str := u "fillings/" ++ u ticker ++ u "/10k.html" |};
     Extract10kV2.extract_text_smart := [];
     Extract10kV2.service := sv;
     Extract10kV2.now_isoformat := u "2025-11-01T10:00:00" |}.

(** The first of the attempts [todo] that does not fail, if there is one. *)
Fixpoint first_success {A} (attempt : nat -> result A) (todo : list nat)
  : option A :=
  match todo with
  | [] => None
  | n :: rest =>
    match attempt n with
    | inr a => Some a
    | inl _ => first_success attempt rest
    end
  end.

(** [None] for nothing, the value otherwise. *)
Definition or_none (v : option value) : value :=
  match v with
  | Some x => x
  | None => PNone
  end.

(** A completion with a second fence right after the opening one. *)
Definition twice_fenced : str := u "```json```" ++ uq "{'a':1}".

(** The analyses that a batch of the dashboard keeps from what its workers
    returned, and the notices of progress of a batch of [total] companies
    that reports to a callback or not. *)
Definition kept_analyses (outcomes : list (result (option DashboardApp.analysis)))
  : list DashboardApp.analysis :=
  flat_map (fun o => match o with
                     | inr (Some a) => [a]
                     | _ => []
                     end) outcomes.

Definition notices (callback : bool) (first total : nat)
  : list DashboardApp.notice :=
  if callback
  then List.map (fun k => DashboardApp.Progress k total)
         (seq first (total + 1 - first))
  else [].

(** The length of sections once joined, counting the separator that one
    more section would need. *)
Definition room (parts : list str) : nat :=
  match parts with
  | [] => 0
  | _ => List.length (join FilingText.SECTION_MARK parts)
         + List.length FilingText.SECTION_MARK
  end.

(** A text of 350001 characters, and a search that finds no heading. *)
Definition long_filing : str := repeat 120%N (350 * 1000 + 1).
Definition no_heading (_ _ : str) : option nat := None.

(** The four steps of the progress display, in order. *)
Definition steps_list
  (s : ProgressDisplay.status * ProgressDisplay.status
       * ProgressDisplay.status * ProgressDisplay.status)
  : list ProgressDisplay.status :=
  let '(s1, s2, s3, s4) := s in [s1; s2; s3; s4].

(** Two regulations of 600 characters that differ after the first 500. *)
Definition regulation_a : str := repeat 97%N 500 ++ repeat 98%N 100.
Definition regulation_b : str := repeat 97%N 500 ++ repeat 99%N 100.

(** Whether an output is a CSV file. *)
Definition is_csv_file {R} (o : output R) : bool :=
  match o with
  | CsvFile _ _ => true
  | _ => false
  end.

(** A number, as [round] returns one. *)
Definition is_number (v : value) : bool :=
  match v with
  | PInt _ | PFloat _ => true
  | _ => false
  end.

(** At most [n] items, of a list or of a string. *)
Definition at_most (n : nat) (v : value) : bool :=
  match v with
  | PList l => List.length l <=? n
  | PStr s => List.length s <=? n
  | _ => false
  end.

(* ================================================================== *)
(** * Part II. Theorems                                                *)
(* ================================================================== *)

(** ** Comparisons of scores *)

Lemma Qle_bool_reflect (a b : Q) : reflect (a <= b)%Q (Qle_bool a b).
Proof.
  destruct (Qle_bool a b) eqn:E; constructor.
  - now apply Qle_bool_iff.
  - intro H. apply Qle_bool_iff in H. congruence.
Qed.

Lemma Qle_bool_true (a b : Q) : (a <= b)%Q -> Qle_bool a b = true.
Proof. intro H. now apply Qle_bool_iff. Qed.

Lemma Qle_bool_false (a b : Q) : (b < a)%Q -> Qle_bool a b = false.
Proof.
  intro H. destruct (Qle_bool_reflect a b) as [L|]; [|reflexivity].
  exfalso. exact (Qlt_not_le _ _ H L).
Qed.

(** Settle every comparison of the goal from the bounds at hand. *)
Ltac settle_comparisons :=
  unfold Qlt_bool;
  repeat match goal with
  | |- context [Qle_bool ?a ?b] =>
    first [ rewrite (@Qle_bool_true a b) by lra
          | rewrite (@Qle_bool_false a b) by lra ]
  end; simpl.

(** Split on the position of [q] with respect to a cut point [c]: below
    it or not ([cut_at]), up to it or not ([cut_after]). *)
Ltac cut_at q c := destruct (Qlt_le_dec q c).
Ltac cut_after q c := destruct (Qlt_le_dec c q).

Ltac by_arith :=
  first [ reflexivity | discriminate | lra
        | match goal with H : _ /\ _ |- _ => destruct H; lra end
        | match goal with H : _ \/ _ |- _ => destruct H; lra end
        | left; lra | right; lra ].

(** ** Score to recommendation (app/run_analysis.py) *)

Section Recommendation.

Import RunAnalysis.

(** C4. [get_overall_recommendation] partitions the real line: for every
    real score the result is SELL exactly when score <= -1.5, REDUCE exactly
    when -1.5 < score <= -0.5, HOLD exactly when -0.5 < score <= 0.5, BUY
    exactly when 0.5 < score <= 1.5 and STRONG_BUY exactly when 1.5 < score.
    The five results are distinct, so every score falls in exactly one
    bucket; the boundary -1.5 falls in SELL and in no other. *)
Theorem get_overall_recommendation_partition (q : Q) :
  (get_overall_recommendation (Fin q) = SELL <-> (q <= -1.5)%Q) /\
  (get_overall_recommendation (Fin q) = REDUCE <-> (-1.5 < q <= -0.5)%Q) /\
  (get_overall_recommendation (Fin q) = HOLD <-> (-0.5 < q <= 0.5)%Q) /\
  (get_overall_recommendation (Fin q) = BUY <-> (0.5 < q <= 1.5)%Q) /\
  (get_overall_recommendation (Fin q) = STRONG_BUY <-> (1.5 < q)%Q) /\
  get_overall_recommendation (Fin (-1.5)) = SELL /\
  get_overall_recommendation (Fin (-1.5)) <> REDUCE.
Proof.
  unfold get_overall_recommendation, le_const.
  cut_after q (-1.5)%Q;
    [cut_after q (-0.5)%Q; [cut_after q 0.5%Q; [cut_after q 1.5%Q|]|]|];
    settle_comparisons; repeat split; intros; by_arith.
Qed.

(** Scores that are no real numbers: every comparison with NaN is false,
    so that NaN falls through to the last branch. *)
Lemma get_overall_recommendation_not_real :
  get_overall_recommendation NaN = STRONG_BUY /\
  get_overall_recommendation PosInf = STRONG_BUY /\
  get_overall_recommendation NegInf = SELL.
Proof. repeat split. Qed.

End Recommendation.

(** ** Score to sentiment (dashboard/app.py) *)

Section Sentiment.

Import DashboardApp.

(** C10. [get_sentiment_from_score] is total and classifies every real
    score: below -1.5 VERY_NEGATIVE, in [-1.5, -0.5) NEGATIVE, in
    [-0.5, 0.5) NEUTRAL, in [0.5, 1.5) POSITIVE, from 1.5 on VERY_POSITIVE.
    The loop over the half-open ranges of [SENTIMENT_CONFIG] ends without
    a result exactly for the scores below -3 and from 3 on; these are
    classified by the trailing test (score >= 1.5 gives VERY_POSITIVE,
    otherwise VERY_NEGATIVE), as 3.0 is. *)
Theorem get_sentiment_from_score_total (q : Q) :
  (get_sentiment_from_score (Fin q) = VERY_NEGATIVE <-> (q < -1.5)%Q) /\
  (get_sentiment_from_score (Fin q) = NEGATIVE <-> (-1.5 <= q < -0.5)%Q) /\
  (get_sentiment_from_score (Fin q) = NEUTRAL <-> (-0.5 <= q < 0.5)%Q) /\
  (get_sentiment_from_score (Fin q) = POSITIVE <-> (0.5 <= q < 1.5)%Q) /\
  (get_sentiment_from_score (Fin q) = VERY_POSITIVE <-> (1.5 <= q)%Q) /\
  (first_range SENTIMENT_CONFIG (Fin q) = None <-> (q < -3 \/ 3 <= q)%Q) /\
  (get_sentiment_from_score (Fin q) =
     match first_range SENTIMENT_CONFIG (Fin q) with
     | Some sentiment => sentiment
     | None => if Qle_bool 1.5 q then VERY_POSITIVE else VERY_NEGATIVE
     end) /\
  first_range SENTIMENT_CONFIG (Fin 3) = None /\
  get_sentiment_from_score (Fin 3) = VERY_POSITIVE.
Proof.
  unfold get_sentiment_from_score, SENTIMENT_CONFIG, first_range,
    ge_const, lt_const.
  cut_at q (-3)%Q;
    [|cut_at q (-1.5)%Q;
      [|cut_at q (-0.5)%Q; [|cut_at q 0.5%Q; [|cut_at q 1.5%Q; [|cut_at q 3%Q]]]]];
    settle_comparisons; repeat split; intros; by_arith.
Qed.

Lemma get_sentiment_from_score_not_real :
  get_sentiment_from_score NaN = VERY_NEGATIVE /\
  get_sentiment_from_score PosInf = VERY_POSITIVE /\
  get_sentiment_from_score NegInf = VERY_NEGATIVE.
Proof. repeat split. Qed.

End Sentiment.

(** ** Strings *)

Lemma char_eqb_refl (c : char) : char_eqb c c = true.
Proof. apply N.eqb_refl. Qed.

Lemma startswith_app (p s : str) : startswith (p ++ s) p = true.
Proof.
  induction p as [|c p IH]; simpl; [now destruct s|].
  now rewrite char_eqb_refl, IH.
Qed.

Lemma endswith_app (s p : str) : endswith (s ++ p) p = true.
Proof. unfold endswith. rewrite rev_app_distr. apply startswith_app. Qed.

Lemma slice_from_app (p s : str) : slice_from (List.length p) (p ++ s) = s.
Proof.
  unfold slice_from. rewrite skipn_app, skipn_all, Nat.sub_diag. reflexivity.
Qed.

Lemma slice_to_neg_app (s p : str) :
  slice_to_neg (List.length p) (s ++ p) = s.
Proof.
  unfold slice_to_neg. rewrite length_app, Nat.add_sub.
  rewrite firstn_app, firstn_all, Nat.sub_diag. simpl. apply app_nil_r.
Qed.

Lemma lstrip_keeps (c : char) (s : str) :
  is_space c = false -> lstrip (c :: s) = c :: s.
Proof. intro H. simpl. now rewrite H. Qed.

Lemma rstrip_keeps (s : str) (c : char) :
  is_space c = false -> rstrip (s ++ [c]) = s ++ [c].
Proof.
  intro H. unfold rstrip. rewrite rev_app_distr. simpl.
  rewrite H. simpl. now rewrite rev_involutive.
Qed.

Lemma strip_keeps (c : char) (s : str) (d : char) :
  is_space c = false -> is_space d = false ->
  strip (c :: s ++ [d]) = c :: s ++ [d].
Proof.
  intros Hc Hd. unfold strip. rewrite lstrip_keeps by assumption.
  change (c :: s ++ [d]) with ((c :: s) ++ [d]). now apply rstrip_keeps.
Qed.

Lemma strip_between (c : char) (p s q : str) (d : char) :
  is_space c = false -> is_space d = false ->
  strip ((c :: p) ++ s ++ (q ++ [d])) = (c :: p) ++ s ++ (q ++ [d]).
Proof.
  intros Hc Hd.
  replace ((c :: p) ++ s ++ (q ++ [d])) with (c :: (p ++ s ++ q) ++ [d])
    by (simpl; now rewrite <- !app_assoc).
  now apply strip_keeps.
Qed.

Lemma lstrip_head (s : str) (c : char) (r : str) :
  lstrip s = c :: r -> is_space c = false.
Proof.
  induction s as [|x s IH]; simpl; [discriminate|].
  destruct (is_space x) eqn:E; [exact IH|].
  intro H. injection H as -> _. exact E.
Qed.

Lemma lstrip_idempotent (s : str) : lstrip (lstrip s) = lstrip s.
Proof.
  destruct (lstrip s) as [|c r] eqn:E; [reflexivity|].
  apply lstrip_keeps. exact (@lstrip_head s c r E).
Qed.

Lemma rstrip_idempotent (s : str) : rstrip (rstrip s) = rstrip s.
Proof.
  unfold rstrip. now rewrite rev_involutive, lstrip_idempotent.
Qed.

Lemma lstrip_snoc (s : str) (c : char) :
  is_space c = false -> lstrip (s ++ [c]) = lstrip s ++ [c].
Proof.
  intro H. induction s as [|x s IH]; simpl.
  - now rewrite H.
  - destruct (is_space x); [exact IH | reflexivity].
Qed.

Lemma rstrip_cons (c : char) (s : str) :
  is_space c = false -> rstrip (c :: s) = c :: rstrip s.
Proof.
  intro H. unfold rstrip. simpl rev.
  now rewrite lstrip_snoc, rev_app_distr.
Qed.

Lemma strip_idempotent (s : str) : strip (strip s) = strip s.
Proof.
  unfold strip. destruct (lstrip s) as [|c r] eqn:E; [reflexivity|].
  pose proof (@lstrip_head s c r E) as H.
  rewrite (@rstrip_cons c r H), (@lstrip_keeps c (rstrip r) H),
    (@rstrip_cons c (rstrip r) H).
  now rewrite rstrip_idempotent.
Qed.

Lemma startswith_prefix (p q s : str) :
  startswith s (p ++ q) = true -> startswith s p = true.
Proof.
  revert s. induction p as [|x p IH]; intros s; [now destruct s|].
  destruct s as [|y s]; cbn [app startswith]; [discriminate|].
  intro H. apply andb_prop in H. destruct H as [H1 H2].
  now rewrite H1, (IH s H2).
Qed.

Lemma startswith_fence_json (s : str) :
  startswith s (u "```json") = true -> startswith s (u "```") = true.
Proof. exact (@startswith_prefix (u "```") (u "json") s). Qed.

Lemma startswith_app_cancel (p s q : str) :
  startswith (p ++ s) (p ++ q) = startswith s q.
Proof.
  induction p as [|c p IH]; [reflexivity|].
  cbn [app startswith]. now rewrite char_eqb_refl, IH.
Qed.

Lemma startswith_json_fence (b : str) :
  startswith (b ++ u "```") (u "json") = startswith b (u "json").
Proof.
  change (u "json") with [106; 115; 111; 110]%N.
  change (u "```") with [96; 96; 96]%N.
  destruct b as [|c1 [|c2 [|c3 [|c4 b]]]]; cbn [app startswith];
    try reflexivity;
    repeat match goal with
           | |- context [char_eqb ?x ?y && _] =>
             is_var y; destruct (char_eqb x y); cbn [andb]; try reflexivity
           end.
  now destruct b.
Qed.

Lemma starts_no_json (s : str) :
  startswith s (u "```") = false -> startswith s (u "```json") = false.
Proof.
  intro H. destruct (startswith s (u "```json")) eqn:E; [|reflexivity].
  now rewrite (startswith_fence_json s E) in H.
Qed.

(** ** Cleaning and decoding a completion *)

(** The floats of [json.loads] are those of binary64. *)
Lemma loads_rounds_floats :
  option_map truthy (Json.loads (u "1e-400")) = Some false /\
  Json.loads (u "1e400") = Some (PFloat PosInf) /\
  Json.loads (u "-1e400") = Some (PFloat NegInf) /\
  Json.loads (u "1.5") = Some (PFloat (Fin 1.5)) /\
  Json.loads (u "0.1")
    = Some (PFloat (Fin (7205759403792794 # 72057594037927936))).
Proof. repeat split; vm_compute; reflexivity. Qed.


Section ResponseParser.

Import Extract10kV2.

Lemma fence_json : u "```json" = [96; 96; 96; 106; 115; 111; 110]%N.
Proof. reflexivity. Qed.

Lemma fence : u "```" = [96; 96; 96]%N.
Proof. reflexivity. Qed.

Lemma clean_json_response_fenced (body : str) :
  clean_json_response (u "```json" ++ body ++ u "```") = strip body.
Proof.
  unfold clean_json_response.
  assert (E : strip (u "```json" ++ body ++ u "```")
              = u "```json" ++ body ++ u "```").
  { exact (@strip_between 96%N [96; 96; 106; 115; 111; 110]%N body
             [96; 96]%N 96%N eq_refl eq_refl). }
  rewrite E, startswith_app.
  change 7 with (List.length (u "```json")).
  rewrite slice_from_app, endswith_app.
  change 3 with (List.length (u "```")).
  now rewrite slice_to_neg_app.
Qed.

(** The tests of the two cleanings on a text of a known shape. *)

Lemma starts_json_fenced (body : str) :
  startswith (u "```json" ++ body) (u "```json") = true.
Proof. apply startswith_app. Qed.

Lemma starts_bare_fenced (body : str) :
  startswith (u "```" ++ body) (u "```") = true.
Proof. apply startswith_app. Qed.

Lemma starts_not_json (body : str) :
  startswith body (u "json") = false ->
  startswith (u "```" ++ body) (u "```json") = false.
Proof.
  intro H. change (u "```json") with (u "```" ++ u "json").
  now rewrite startswith_app_cancel.
Qed.

Lemma starts_not_json_closed (body : str) :
  startswith body (u "json") = false ->
  startswith (u "```" ++ body ++ u "```") (u "```json") = false.
Proof.
  intro H. apply starts_not_json. now rewrite startswith_json_fence.
Qed.

Lemma after_json (body : str) : slice_from 7 (u "```json" ++ body) = body.
Proof. exact (slice_from_app (u "```json") body). Qed.

Lemma after_fence (body : str) : slice_from 3 (u "```" ++ body) = body.
Proof. exact (slice_from_app (u "```") body). Qed.

Lemma before_fence (body : str) : slice_to_neg 3 (body ++ u "```") = body.
Proof. exact (slice_to_neg_app body (u "```")). Qed.

Ltac fences :=
  repeat first
    [ rewrite starts_json_fenced | rewrite starts_bare_fenced
    | rewrite after_json | rewrite after_fence
    | rewrite endswith_app | rewrite before_fence ].

(** [clean_json_response], by the fences of the stripped text. *)

Lemma clean_json_response_json_closed (t body : str) :
  strip t = u "```json" ++ body ++ u "```" ->
  clean_json_response t = strip body.
Proof. intro H. unfold clean_json_response. rewrite H. now fences. Qed.

Lemma clean_json_response_json_open (t body : str) :
  strip t = u "```json" ++ body -> endswith body (u "```") = false ->
  clean_json_response t = strip body.
Proof.
  intros H E. unfold clean_json_response. rewrite H. fences. now rewrite E.
Qed.

Lemma clean_json_response_bare_closed (t body : str) :
  strip t = u "```" ++ body ++ u "```" ->
  startswith body (u "json") = false ->
  clean_json_response t = strip body.
Proof.
  intros H J. unfold clean_json_response. rewrite H.
  rewrite (starts_not_json_closed body J). now fences.
Qed.

Lemma clean_json_response_bare_open (t body : str) :
  strip t = u "```" ++ body ->
  startswith body (u "json") = false -> endswith body (u "```") = false ->
  clean_json_response t = strip body.
Proof.
  intros H J E. unfold clean_json_response. rewrite H.
  rewrite (starts_not_json body J). fences. now rewrite E.
Qed.

Lemma clean_json_response_end_only (t body : str) :
  strip t = body ++ u "```" -> startswith (strip t) (u "```") = false ->
  clean_json_response t = strip body.
Proof.
  intros H S. unfold clean_json_response.
  rewrite (starts_no_json (strip t) S), S, H. now fences.
Qed.

Lemma clean_json_response_no_fence (t : str) :
  startswith (strip t) (u "```") = false ->
  endswith (strip t) (u "```") = false ->
  clean_json_response t = strip t.
Proof.
  intros S E. unfold clean_json_response.
  rewrite (starts_no_json (strip t) S), S, E. apply strip_idempotent.
Qed.

(** The block of run_analysis.py, by the fences of the stripped text. *)

Lemma clean_markdown_json_closed (t body : str) :
  strip t = u "```json" ++ body ++ u "```" ->
  startswith (body ++ u "```") (u "```") = false ->
  strip (RunAnalysis.clean_markdown t) = strip body.
Proof.
  intros H S. unfold RunAnalysis.clean_markdown. rewrite H. fences.
  rewrite S. now fences.
Qed.

Lemma clean_markdown_json_open (t body : str) :
  strip t = u "```json" ++ body ->
  startswith body (u "```") = false -> endswith body (u "```") = false ->
  strip (RunAnalysis.clean_markdown t) = strip body.
Proof.
  intros H S E. unfold RunAnalysis.clean_markdown. rewrite H. fences.
  now rewrite S, E.
Qed.

Lemma clean_markdown_twice_closed (t body : str) :
  strip t = u "```json" ++ u "```" ++ body ++ u "```" ->
  strip (RunAnalysis.clean_markdown t) = strip body.
Proof.
  intros H. unfold RunAnalysis.clean_markdown. rewrite H. now fences.
Qed.

Lemma clean_markdown_twice_open (t body : str) :
  strip t = u "```json" ++ u "```" ++ body ->
  endswith body (u "```") = false ->
  strip (RunAnalysis.clean_markdown t) = strip body.
Proof.
  intros H E. unfold RunAnalysis.clean_markdown. rewrite H. fences.
  now rewrite E.
Qed.

Lemma clean_markdown_bare_closed (t body : str) :
  strip t = u "```" ++ body ++ u "```" ->
  startswith body (u "json") = false ->
  strip (RunAnalysis.clean_markdown t) = strip body.
Proof.
  intros H J. unfold RunAnalysis.clean_markdown. rewrite H.
  rewrite (starts_not_json_closed body J). now fences.
Qed.

Lemma clean_markdown_bare_open (t body : str) :
  strip t = u "```" ++ body ->
  startswith body (u "json") = false -> endswith body (u "```") = false ->
  strip (RunAnalysis.clean_markdown t) = strip body.
Proof.
  intros H J E. unfold RunAnalysis.clean_markdown. rewrite H.
  rewrite (starts_not_json body J). fences. now rewrite E.
Qed.

Lemma clean_markdown_end_only (t body : str) :
  strip t = body ++ u "```" -> startswith (strip t) (u "```") = false ->
  strip (RunAnalysis.clean_markdown t) = strip body.
Proof.
  intros H S. unfold RunAnalysis.clean_markdown.
  rewrite (starts_no_json (strip t) S), S, H. now fences.
Qed.

Lemma clean_markdown_no_fence (t : str) :
  startswith (strip t) (u "```") = false ->
  endswith (strip t) (u "```") = false ->
  strip (RunAnalysis.clean_markdown t) = strip t.
Proof.
  intros S E. unfold RunAnalysis.clean_markdown.
  rewrite (starts_no_json (strip t) S), S, E. apply strip_idempotent.
Qed.

(** C5. Cleaning trims the text, strips a leading [```json] or [```]
    fence and a trailing [```] fence where present, and trims again;
    decoding is the strict JSON decoding of the cleaned text and nothing
    else, so that a text which is not JSON once cleaned is a
    [JSONDecodeError].  The cleaning is given for every text by the fences
    of the stripped text: a [```json] fence or a bare [```] fence, closed
    or not, a closing fence alone, and no fence, for [clean_json_response]
    of extract_10k_v2.py and for the cleaning block of [call_bedrock] in
    run_analysis.py, whose second test also removes a fence that follows
    [```json].  The fenced sample decodes to the object with the one key a,
    of value 1, the bare object decodes to the same, and "not json"
    fails. *)
Theorem cleaning_and_decoding :
  (forall body,
     clean_json_response (u "```json" ++ body ++ u "```") = strip body) /\
  (forall loads t,
     decode_completion loads (PStr t) =
     match loads (clean_json_response t) with
     | Some data => ret data
     | None => raise JSONDecodeError
     end) /\
  (forall loads t,
     RunAnalysis.decode_completion loads (PStr t) =
     match loads (strip (RunAnalysis.clean_markdown t)) with
     | Some data => ret data
     | None => raise JSONDecodeError
     end) /\
  clean_json_response fenced = bare /\
  strip (RunAnalysis.clean_markdown fenced) = bare /\
  clean_json_response plain_fenced = bare /\
  strip (RunAnalysis.clean_markdown plain_fenced) = bare /\
  clean_json_response bare = bare /\
  strip (RunAnalysis.clean_markdown bare) = bare /\
  clean_json_response not_json = not_json /\
  strip (RunAnalysis.clean_markdown not_json) = not_json /\
  decode_completion Json.loads (PStr fenced) = ret (PDict [(u "a", PInt 1)]) /\
  decode_completion Json.loads (PStr bare) = ret (PDict [(u "a", PInt 1)]) /\
  decode_completion Json.loads (PStr not_json) = raise JSONDecodeError /\
  RunAnalysis.decode_completion Json.loads (PStr fenced)
    = ret (PDict [(u "a", PInt 1)]) /\
  RunAnalysis.decode_completion Json.loads (PStr bare)
    = ret (PDict [(u "a", PInt 1)]) /\
  RunAnalysis.decode_completion Json.loads (PStr not_json)
    = raise JSONDecodeError /\
  (* clean_json_response on every text *)
  (forall t body,
     strip t = u "```json" ++ body ++ u "```" ->
     clean_json_response t = strip body) /\
  (forall t body,
     strip t = u "```json" ++ body -> endswith body (u "```") = false ->
     clean_json_response t = strip body) /\
  (forall t body,
     strip t = u "```" ++ body ++ u "```" ->
     startswith body (u "json") = false ->
     clean_json_response t = strip body) /\
  (forall t body,
     strip t = u "```" ++ body ->
     startswith body (u "json") = false ->
     endswith body (u "```") = false ->
     clean_json_response t = strip body) /\
  (forall t body,
     strip t = body ++ u "```" ->
     startswith (strip t) (u "```") = false ->
     clean_json_response t = strip body) /\
  (forall t,
     startswith (strip t) (u "```") = false ->
     endswith (strip t) (u "```") = false ->
     clean_json_response t = strip t) /\
  (* the block of run_analysis.py on every text *)
  (forall t body,
     strip t = u "```json" ++ body ++ u "```" ->
     startswith (body ++ u "```") (u "```") = false ->
     strip (RunAnalysis.clean_markdown t) = strip body) /\
  (forall t body,
     strip t = u "```json" ++ body ->
     startswith body (u "```") = false ->
     endswith body (u "```") = false ->
     strip (RunAnalysis.clean_markdown t) = strip body) /\
  (forall t body,
     strip t = u "```json" ++ u "```" ++ body ++ u "```" ->
     strip (RunAnalysis.clean_markdown t) = strip body) /\
  (forall t body,
     strip t = u "```json" ++ u "```" ++ body ->
     endswith body (u "```") = false ->
     strip (RunAnalysis.clean_markdown t) = strip body) /\
  (forall t body,
     strip t = u "```" ++ body ++ u "```" ->
     startswith body (u "json") = false ->
     strip (RunAnalysis.clean_markdown t) = strip body) /\
  (forall t body,
     strip t = u "```" ++ body ->
     startswith body (u "json") = false ->
     endswith body (u "```") = false ->
     strip (RunAnalysis.clean_markdown t) = strip body) /\
  (forall t body,
     strip t = body ++ u "```" ->
     startswith (strip t) (u "```") = false ->
     strip (RunAnalysis.clean_markdown t) = strip body) /\
  (forall t,
     startswith (strip t) (u "```") = false ->
     endswith (strip t) (u "```") = false ->
     strip (RunAnalysis.clean_markdown t) = strip t).
Proof.
  split; [exact clean_json_response_fenced|].
  split; [reflexivity|].
  split; [reflexivity|].
  do 14 (split; [vm_compute; reflexivity|]).
  split; [exact clean_json_response_json_closed|].
  split; [exact clean_json_response_json_open|].
  split; [exact clean_json_response_bare_closed|].
  split; [exact clean_json_response_bare_open|].
  split; [exact clean_json_response_end_only|].
  split; [exact clean_json_response_no_fence|].
  split; [exact clean_markdown_json_closed|].
  split; [exact clean_markdown_json_open|].
  split; [exact clean_markdown_twice_closed|].
  split; [exact clean_markdown_twice_open|].
  split; [exact clean_markdown_bare_closed|].
  split; [exact clean_markdown_bare_open|].
  split; [exact clean_markdown_end_only|].
  exact clean_markdown_no_fence.
Qed.

(** A bare fence between blanks, and a text with no fence. *)
Lemma cleaning_and_decoding_witness :
  strip (u "  " ++ plain_fenced ++ [nl])
    = u "```" ++ ([nl] ++ bare ++ [nl]) ++ u "```" /\
  startswith ([nl] ++ bare ++ [nl]) (u "json") = false /\
  clean_json_response (u "  " ++ plain_fenced ++ [nl])
    = strip ([nl] ++ bare ++ [nl]) /\
  strip (RunAnalysis.clean_markdown (u "  " ++ plain_fenced ++ [nl]))
    = strip ([nl] ++ bare ++ [nl]) /\
  strip ([nl] ++ bare ++ [nl]) = bare /\
  startswith (strip (u " not json ")) (u "```") = false /\
  endswith (strip (u " not json ")) (u "```") = false /\
  clean_json_response (u " not json ") = not_json /\
  strip (RunAnalysis.clean_markdown (u " not json ")) = not_json.
Proof.
  destruct cleaning_and_decoding
    as (_ & _ & _ & _ & _ & _ & _ & _ & _ & _ & _ & _ & _ & _ & _ & _ & _ &
        _ & _ & V2 & _ & _ & V2' & _ & _ & _ & _ & V1 & _ & _ & V1').
  split; [reflexivity|].
  split; [reflexivity|].
  split; [exact (V2 (u "  " ++ plain_fenced ++ [nl]) ([nl] ++ bare ++ [nl])
                    eq_refl eq_refl)|].
  split; [exact (V1 (u "  " ++ plain_fenced ++ [nl]) ([nl] ++ bare ++ [nl])
                    eq_refl eq_refl)|].
  split; [reflexivity|].
  split; [reflexivity|].
  split; [reflexivity|].
  split; [exact (V2' (u " not json ") eq_refl eq_refl)|].
  exact (V1' (u " not json ") eq_refl eq_refl).
Defined.

End ResponseParser.

(** ** Traces *)

Lemma invocations_app (t1 t2 : trace) :
  invocations (t1 ++ t2) = invocations t1 + invocations t2.
Proof. unfold invocations. now rewrite filter_app, length_app. Qed.

Lemma invocations_cons (e : event) (t : trace) :
  invocations (e :: t) = (if is_invoke e then 1 else 0) + invocations t.
Proof. unfold invocations. simpl. now destruct (is_invoke e). Qed.

Lemma invocations_nil : invocations [] = 0.
Proof. reflexivity. Qed.

Lemma attempts_needed_all_fail (failed : nat -> bool) (m k : nat) :
  all_fail failed k m -> attempts_needed failed (seq k m) = m.
Proof.
  revert k. induction m as [|m IH]; intros k H; simpl; [reflexivity|].
  rewrite (H k) by lia. f_equal. apply IH. intros n Hn. apply H. lia.
Qed.

Lemma attempts_needed_le (failed : nat -> bool) (todo : list nat) :
  attempts_needed failed todo <= List.length todo.
Proof.
  induction todo as [|n rest IH]; simpl; [lia|].
  destruct (failed n); lia.
Qed.

Section RunAnalysisGateway.

Import RunAnalysis.

Variable loads : str -> option value.
Variable sv : answers.
Variable prompt : str.

Local Abbreviation failed := (fun n => is_raised (attempt loads (sv n))).

Lemma run_analysis_loop (m k : nat) :
  k + m = MAX_RETRIES ->
  invocations (fst (call_bedrock_loop loads sv prompt (seq k m)))
    = attempts_needed failed (seq k m) /\
  (all_fail failed k m ->
   snd (call_bedrock_loop loads sv prompt (seq k m)) = PNone).
Proof.
  revert k. induction m as [|m IH]; intros k Hk;
    cbn -[MAX_RETRIES Nat.ltb Nat.sub].
  - split; reflexivity.
  - destruct (attempt loads (sv k)) as [e|v] eqn:E;
      cbn -[MAX_RETRIES Nat.ltb Nat.sub].
    + destruct (Nat.ltb_spec k (MAX_RETRIES - 1)) as [L|L].
      * destruct (IH (S k)) as [IH1 IH2]; [lia|].
        destruct (call_bedrock_loop loads sv prompt (seq (S k) m)) as [t r].
        cbn [fst snd] in *. split.
        -- change (invocations (Invoke prompt :: Sleep 1 :: t))
             with (S (invocations t)).
           now rewrite IH1.
        -- intro H. apply IH2. intros n Hn. apply H. lia.
      * assert (m = 0) by lia. subst m. simpl. split; reflexivity.
    + split; [reflexivity|].
      intro H. specialize (H k). cbv beta in H. rewrite E in H.
      simpl in H. discriminate H. lia.
Qed.

End RunAnalysisGateway.

Section Extract10kV2Gateway.

Import Extract10kV2.

Variable loads : str -> option value.
Variable lower : str -> str.
Variable sv : answers.
Variable prompt : str.

Local Abbreviation failed := (fun n => is_raised (attempt loads (sv n))).

Lemma invocations_backoff (retry : nat) : invocations (backoff retry) = 0.
Proof. unfold backoff. now destruct (0 <? retry). Qed.

(** Count the requests of a trace built from known events. *)
Ltac count_invocations :=
  rewrite ?invocations_app, ?invocations_backoff, ?invocations_cons,
    ?invocations_nil;
  cbn [is_invoke Nat.add].

Lemma v2_loop (m k : nat) :
  k + m = MAX_RETRIES ->
  invocations (fst (call_bedrock_loop loads lower sv prompt (seq k m)))
    = attempts_needed failed (seq k m) /\
  (all_fail failed k m ->
   snd (call_bedrock_loop loads lower sv prompt (seq k m)) = PNone).
Proof.
  revert k. induction m as [|m IH]; intros k Hk;
    cbn -[MAX_RETRIES Nat.ltb Nat.sub backoff invocations].
  - split; reflexivity.
  - destruct (IH (S k)) as [IH1 IH2]; [lia|].
    assert (IH2' : all_fail failed k (S m) ->
                   snd (call_bedrock_loop loads lower sv prompt (seq (S k) m))
                   = PNone)
      by (intro H; apply IH2; intros n Hn; apply H; lia).
    destruct (call_bedrock_loop loads lower sv prompt (seq (S k) m)) as [t r].
    cbn [fst snd] in *.
    assert (Last : ~ k < MAX_RETRIES - 1 -> m = 0) by lia.
    destruct (attempt loads (sv k)) as [e|v] eqn:E;
      cbn -[MAX_RETRIES Nat.ltb Nat.sub backoff invocations].
    + destruct e; try destruct (mentions_throttling lower _);
        destruct (Nat.ltb_spec k (MAX_RETRIES - 1)) as [L|L];
        cbn [fst snd]; count_invocations;
        try (split; [now rewrite IH1 | exact IH2']).
      all: rewrite (Last ltac:(lia)); split; reflexivity.
    + split.
      * count_invocations. reflexivity.
      * intro H. specialize (H k). cbv beta in H. rewrite E in H.
        simpl in H. discriminate H. lia.
Qed.

End Extract10kV2Gateway.

(** ** The retry loop of the gateway *)

Lemma run_analysis_attempt_fails loads o :
  transport_error o \/ parse_failure loads clean_v1 o ->
  is_raised (RunAnalysis.attempt loads o) = true.
Proof.
  intros [[msg ->]|[t [[body [-> C]] L]]]; [reflexivity|].
  unfold RunAnalysis.attempt. rewrite C. unfold clean_v1 in L. simpl.
  now rewrite L.
Qed.

Lemma v2_attempt_fails loads o :
  transport_error o \/ parse_failure loads Extract10kV2.clean_json_response o ->
  is_raised (Extract10kV2.attempt loads o) = true.
Proof.
  intros [[msg ->]|[t [[body [-> C]] L]]]; [reflexivity|].
  unfold Extract10kV2.attempt. rewrite C. simpl. now rewrite L.
Qed.

Lemma run_analysis_gives_up loads sv prompt :
  gateway_down loads clean_v1 sv RunAnalysis.MAX_RETRIES ->
  snd (RunAnalysis.call_bedrock loads sv prompt) = PNone /\
  invocations (fst (RunAnalysis.call_bedrock loads sv prompt))
    = RunAnalysis.MAX_RETRIES.
Proof.
  intro H. unfold RunAnalysis.call_bedrock.
  assert (F : all_fail (fun n => is_raised (RunAnalysis.attempt loads (sv n)))
                0 RunAnalysis.MAX_RETRIES)
    by (intros n Hn; apply run_analysis_attempt_fails, H; lia).
  destruct (run_analysis_loop loads sv prompt RunAnalysis.MAX_RETRIES 0 eq_refl)
    as [N R].
  split; [now apply R|].
  rewrite N. now apply attempts_needed_all_fail.
Qed.

Lemma v2_gives_up loads lower sv prompt :
  gateway_down loads Extract10kV2.clean_json_response sv Extract10kV2.MAX_RETRIES ->
  snd (Extract10kV2.call_bedrock loads lower sv prompt) = PNone /\
  invocations (fst (Extract10kV2.call_bedrock loads lower sv prompt))
    = Extract10kV2.MAX_RETRIES.
Proof.
  intro H. unfold Extract10kV2.call_bedrock.
  assert (F : all_fail (fun n => is_raised (Extract10kV2.attempt loads (sv n)))
                0 Extract10kV2.MAX_RETRIES)
    by (intros n Hn; apply v2_attempt_fails, H; lia).
  destruct (v2_loop loads lower sv prompt Extract10kV2.MAX_RETRIES 0 eq_refl)
    as [N R].
  split; [now apply R|].
  rewrite N. now apply attempts_needed_all_fail.
Qed.

(** C3. [call_bedrock] makes at most MAX_RETRIES attempts, as many as
    the failures before the first success require, whatever the failures
    are: an attempt whose completion is not JSON once the fences are
    stripped fails like an attempt that the client aborts.  When every
    attempt fails in one of these two ways, [call_bedrock] has made
    MAX_RETRIES attempts and returns [None]; it does not raise.  This holds
    for [call_bedrock] of run_analysis.py (two attempts) and of
    extract_10k_v2.py (three attempts). *)
Theorem call_bedrock_bounded_retries
  (loads : str -> option value) (lower : str -> str) (sv : answers)
  (prompt : str) :
  invocations (fst (RunAnalysis.call_bedrock loads sv prompt))
    <= RunAnalysis.MAX_RETRIES /\
  invocations (fst (RunAnalysis.call_bedrock loads sv prompt))
    = attempts_needed (fun n => is_raised (RunAnalysis.attempt loads (sv n)))
        (seq 0 RunAnalysis.MAX_RETRIES) /\
  invocations (fst (Extract10kV2.call_bedrock loads lower sv prompt))
    <= Extract10kV2.MAX_RETRIES /\
  invocations (fst (Extract10kV2.call_bedrock loads lower sv prompt))
    = attempts_needed (fun n => is_raised (Extract10kV2.attempt loads (sv n)))
        (seq 0 Extract10kV2.MAX_RETRIES) /\
  (forall o,
     transport_error o \/ parse_failure loads clean_v1 o ->
     is_raised (RunAnalysis.attempt loads o) = true) /\
  (forall o,
     transport_error o \/ parse_failure loads Extract10kV2.clean_json_response o ->
     is_raised (Extract10kV2.attempt loads o) = true) /\
  (gateway_down loads clean_v1 sv RunAnalysis.MAX_RETRIES ->
   snd (RunAnalysis.call_bedrock loads sv prompt) = PNone /\
   invocations (fst (RunAnalysis.call_bedrock loads sv prompt))
     = RunAnalysis.MAX_RETRIES) /\
  (gateway_down loads Extract10kV2.clean_json_response sv
     Extract10kV2.MAX_RETRIES ->
   snd (Extract10kV2.call_bedrock loads lower sv prompt) = PNone /\
   invocations (fst (Extract10kV2.call_bedrock loads lower sv prompt))
     = Extract10kV2.MAX_RETRIES).
Proof.
  pose proof (run_analysis_loop loads sv prompt RunAnalysis.MAX_RETRIES 0 eq_refl)
    as [N1 _].
  pose proof (v2_loop loads lower sv prompt Extract10kV2.MAX_RETRIES 0 eq_refl)
    as [N2 _].
  unfold RunAnalysis.call_bedrock, Extract10kV2.call_bedrock.
  repeat split.
  - rewrite N1.
    exact (attempts_needed_le _ (seq 0 RunAnalysis.MAX_RETRIES)).
  - exact N1.
  - rewrite N2.
    exact (attempts_needed_le _ (seq 0 Extract10kV2.MAX_RETRIES)).
  - exact N2.
  - apply run_analysis_attempt_fails.
  - apply v2_attempt_fails.
  - now apply run_analysis_gives_up.
  - now apply run_analysis_gives_up.
  - now apply v2_gives_up.
  - now apply v2_gives_up.
Qed.

Lemma service_down_v1 :
  gateway_down Json.loads clean_v1 service_down RunAnalysis.MAX_RETRIES.
Proof.
  intros n Hn.
  destruct n as [|n]; [left; now eexists|].
  right. exists (u "not json"). split; [eexists; split; reflexivity|].
  reflexivity.
Qed.

Lemma service_down_v2 :
  gateway_down Json.loads Extract10kV2.clean_json_response service_down
    Extract10kV2.MAX_RETRIES.
Proof.
  intros n Hn.
  destruct n as [|n]; [left; now eexists|].
  right. exists (u "not json"). split; [eexists; split; reflexivity|].
  reflexivity.
Qed.

Lemma call_bedrock_bounded_retries_witness :
  gateway_down Json.loads clean_v1 service_down RunAnalysis.MAX_RETRIES /\
  gateway_down Json.loads Extract10kV2.clean_json_response service_down
    Extract10kV2.MAX_RETRIES /\
  (snd (RunAnalysis.call_bedrock Json.loads service_down (u "prompt")) = PNone /\
   invocations (fst (RunAnalysis.call_bedrock Json.loads service_down (u "prompt")))
     = RunAnalysis.MAX_RETRIES) /\
  (snd (Extract10kV2.call_bedrock Json.loads ascii_lower service_down (u "prompt"))
     = PNone /\
   invocations
     (fst (Extract10kV2.call_bedrock Json.loads ascii_lower service_down
             (u "prompt")))
     = Extract10kV2.MAX_RETRIES).
Proof.
  split; [exact service_down_v1|].
  split; [exact service_down_v2|].
  pose proof (call_bedrock_bounded_retries Json.loads ascii_lower service_down
                (u "prompt")) as (_ & _ & _ & _ & _ & _ & H1 & H2).
  split; [exact (H1 service_down_v1) | exact (H2 service_down_v2)].
Defined.
(** ** The pool of extract_10k_v2.py *)

Section V2Pool.

Import Extract10kV2.

Variable loads : str -> option value.
Variable lower : str -> str.
Variable format_prompt : str -> result str.

Local Abbreviation worker := (process_single_10k loads lower format_prompt).
Local Abbreviation pool := (as_completed loads lower format_prompt).

(** What a worker returns does not depend on the counters it is given, and
    it counts once: a success for a record of success, a failure
    otherwise. *)
Lemma worker_counts_once (t : task) (p : progress) :
  fst (fst (worker t p))
    = fst (fst (worker t {| success := 0; failed := 0 |})) /\
  snd (fst (worker t p))
    = if success_of (fst (fst (worker t p)))
      then count_success p else count_failed p.
Proof.
  unfold process_single_10k.
  destruct (extract_text_smart t) as [|c text]; [split; reflexivity|].
  destruct (format_prompt (c :: text)) as [e|prompt]; [split; reflexivity|].
  simpl.
  destruct (call_bedrock loads lower (service t) prompt) as [tr data].
  destruct (truthy data); split; reflexivity.
Qed.

Local Abbreviation record := (record_of loads lower format_prompt).

Lemma pool_collects (completed : list task) (p : progress)
  (results : list extraction) :
  pool completed p results
    = (results ++ List.map record completed,
       fold_left (fun p t => count (record t) p) completed p).
Proof.
  revert p results.
  induction completed as [|t rest IH]; intros p results; simpl.
  - now rewrite app_nil_r.
  - destruct (worker_counts_once t p) as [R C].
    destruct (worker t p) as [[r p'] tr]. simpl in R, C.
    change (r = record t) in R. subst r p'.
    rewrite IH, <- app_assoc. reflexivity.
Qed.

Lemma count_totals (completed : list task) (p : progress) :
  let p' := fold_left (fun p t => count (record t) p) completed p in
  success p' = success p
               + List.length (filter success_of (List.map record completed)) /\
  failed p' = failed p
              + List.length (filter (fun r => negb (success_of r))
                                    (List.map record completed)).
Proof.
  revert p. induction completed as [|t rest IH]; intro p; simpl.
  - split; lia.
  - specialize (IH (count (record t) p)). simpl in IH.
    destruct IH as [S F]. rewrite S, F. unfold count.
    destruct (success_of (record t)); simpl; split; lia.
Qed.

(** A task whose attempts all fail yields the record of failure. *)
Lemma worker_gateway_down (t : task) (p : progress) :
  gateway_down loads clean_json_response (service t) MAX_RETRIES ->
  success_of (fst (fst (worker t p))) = false /\
  snd (fst (worker t p)) = count_failed p /\
  ticker_of (fst (fst (worker t p))) = parent_name (html_path t).
Proof.
  intro H. unfold process_single_10k.
  destruct (extract_text_smart t) as [|c text]; [repeat split|].
  destruct (format_prompt (c :: text)) as [e|prompt]; [repeat split|].
  simpl.
  destruct (@v2_gives_up loads lower (service t) prompt H) as [R _].
  destruct (call_bedrock loads lower (service t) prompt) as [tr data].
  simpl in R. subst data. repeat split.
Qed.

End V2Pool.

(** ** The pool of dashboard/app.py *)

Section DashboardPool.

Import RegulatoryUtils DashboardApp.

Variable loads : str -> option value.
Variable format_value : value -> str.
Variable format_billions : value -> str.
Variable round_2 : number -> number.
Variable format_prompt : str -> str -> company_profile -> str.
Variable BEDROCK_AVAILABLE : bool.

Local Abbreviation call := (call_bedrock loads BEDROCK_AVAILABLE).
Local Abbreviation worker :=
  (analyze_company_regulation_pair loads format_value format_billions round_2
     format_prompt BEDROCK_AVAILABLE).
Local Abbreviation pool :=
  (as_completed loads format_value format_billions round_2 format_prompt
     BEDROCK_AVAILABLE).
Local Abbreviation batch :=
  (analyze_regulation_with_bedrock loads format_value format_billions round_2
     format_prompt BEDROCK_AVAILABLE).

Lemma dashboard_loop_down (sv : answers) (prompt : str) (m k : nat)
  (bound : option value) :
  k + m = 2 ->
  (forall n, k <= n < 2 ->
     transport_error (sv n) \/ parse_failure loads clean_v1 (sv n)) ->
  snd (call_bedrock_loop loads sv prompt bound (seq k m)) = ret PNone.
Proof.
  revert k bound. induction m as [|m IH]; intros k bound Hk H;
    cbn [call_bedrock_loop seq]; [reflexivity|].
  assert (Next : forall b,
             (k <? 1) = true ->
             snd (call_bedrock_loop loads sv prompt b (seq (S k) m)) = ret PNone)
    by (intros b L; apply IH; [lia | intros n Hn; apply H; lia]).
  destruct (H k ltac:(lia)) as [[msg E]|[t [[body [E C]] L]]]; rewrite E.
  - destruct (k <? 1) eqn:K; [|reflexivity].
    specialize (Next bound eq_refl).
    destruct (call_bedrock_loop loads sv prompt bound (seq (S k) m)).
    exact Next.
  - unfold completion_text in C.
    destruct (loads body) as [response_body|]; [|discriminate C].
    rewrite C. unfold ret at 1. cbv beta iota.
    unfold clean_v1 in L. rewrite L. cbn [slice_value]. unfold ret at 1.
    cbv beta iota.
    destruct (k <? 1) eqn:K; [|reflexivity].
    specialize (Next (Some (PStr (RunAnalysis.clean_markdown t))) eq_refl).
    destruct (call_bedrock_loop loads sv prompt _ (seq (S k) m)).
    exact Next.
Qed.

Lemma dashboard_call_down (sv : answers) (prompt : str) :
  gateway_down loads clean_v1 sv 2 -> snd (call sv prompt) = ret PNone.
Proof.
  intro H. unfold call_bedrock.
  destruct BEDROCK_AVAILABLE; [|reflexivity].
  apply dashboard_loop_down; [reflexivity|].
  intros n Hn. apply H. lia.
Qed.

(** Formatting the company ends well only on a dictionary, which has a
    ticker or the default one. *)
Lemma formatted_has_ticker (company : value) (info : company_profile) :
  format_company_profile format_value format_billions company = ret info ->
  exists ticker, get company (u "ticker") (PStr (u "UNK")) = ret ticker.
Proof.
  unfold format_company_profile, bind.
  destruct (get company (u "ticker") (PStr (u "UNK"))) as [e|ticker];
    [discriminate|].
  intros _. now exists ticker.
Qed.

Lemma dashboard_worker_down (t : task) (reg : regulation) :
  is_raised (format_company_profile format_value format_billions
               (company_data t)) = false ->
  gateway_down loads clean_v1 (service t) 2 ->
  snd (worker t reg) = ret None.
Proof.
  intros F H. unfold analyze_company_regulation_pair.
  destruct (format_company_profile format_value format_billions
              (company_data t)) as [e|info] eqn:F'; [discriminate F|].
  clear F. rename F' into F.
  destruct (@formatted_has_ticker _ _ F) as [ticker ->].
  cbn [ret].
  pose proof (@dashboard_call_down (service t)
                (format_prompt (title reg) (requirements reg) info) H) as D.
  destruct (call (service t) _) as [tr called].
  simpl in D. subst called. reflexivity.
Qed.

(** The results of the loop do not depend on the progress counters. *)
Lemma pool_results_irrelevant (reg : regulation) (cb cb' : bool)
  (total total' : nat) (todo : list task) (n n' : nat) (acc : list analysis) :
  snd (pool reg cb total todo n acc) = snd (pool reg cb' total' todo n' acc).
Proof.
  revert n n' acc. induction todo as [|t rest IH]; intros n n' acc; simpl;
    [reflexivity|].
  destruct (snd (worker t reg)) as [e|r]; [reflexivity|].
  specialize (IH (n + 1) (n' + 1)
                 (match r with Some r0 => acc ++ [r0] | None => acc end)).
  destruct (pool reg cb total rest (n + 1) _).
  destruct (pool reg cb' total' rest (n' + 1) _).
  exact IH.
Qed.

Lemma pool_skips (reg : regulation) (cb : bool) (total total' : nat)
  (before after : list task) (t : task) (n : nat) (acc : list analysis) :
  snd (worker t reg) = ret None ->
  snd (pool reg cb total (before ++ t :: after) n acc)
    = snd (pool reg cb total' (before ++ after) n acc).
Proof.
  intro W. revert n acc.
  induction before as [|b before IH]; intros n acc; simpl.
  - rewrite W. cbn [ret].
    pose proof (pool_results_irrelevant reg cb cb total total' after
                  (n + 1) n acc) as E.
    destruct (pool reg cb total after (n + 1) acc). exact E.
  - destruct (snd (worker b reg)) as [e|r]; [reflexivity|].
    specialize (IH (n + 1)
                   (match r with Some r0 => acc ++ [r0] | None => acc end)).
    destruct (pool reg cb total (before ++ t :: after) (n + 1) _).
    destruct (pool reg cb total' (before ++ after) (n + 1) _).
    exact IH.
Qed.

Lemma batch_skips (text filename : str) (cb : bool)
  (before after : list task) (t : task) :
  snd (worker t (make_regulation text filename)) = ret None ->
  snd (batch text filename cb (before ++ t :: after))
    = snd (batch text filename cb (before ++ after)).
Proof.
  intro W. unfold analyze_regulation_with_bedrock.
  destruct (before ++ t :: after) as [|x l] eqn:E1;
    [now destruct before|]. rewrite <- E1.
  rewrite (@pool_skips _ cb _ (List.length (before ++ after))
             before after t 0 [] W).
  now destruct (before ++ after).
Qed.

End DashboardPool.

(** ** The end of a batch *)

(** In extract_10k.py the end of the batch prints the counts of successes
    and of failures and the time, and writes every result to the JSON file,
    whenever there is a result and the clock has moved. *)
Lemma extract_10k_statistics_and_save (OUTPUT_FILE ERROR_LOG_FILE CSV_FILE : str)
  (results : list Extract10kV2.extraction) (elapsed_time : Q) :
  results <> [] ->
  Qeq_bool elapsed_time 0 = false ->
  let out := fst (Extract10k.statistics_and_save OUTPUT_FILE ERROR_LOG_FILE
                    CSV_FILE results elapsed_time) in
  let n := List.length results in
  let successful := List.length (filter Extract10kV2.success_of results) in
  In (Console [Lit (u "✅ Succès: "); Int (Z.of_nat successful);
               Lit (u "/"); Int (Z.of_nat n); Lit (u " (");
               Float1 (inject_Z (Z.of_nat successful)
                       / inject_Z (Z.of_nat n) * 100)%Q;
               Lit (u "%)")]) out /\
  In (Console [Lit (u "❌ Échecs: "); Int (Z.of_nat (n - successful))]) out /\
  In (Console [Lit (u "⏱️  Temps total: "); Float1 (elapsed_time / 60)%Q;
               Lit (u " minutes")]) out /\
  In (JsonFile OUTPUT_FILE results) out.
Proof.
  intros NE T. unfold Extract10k.statistics_and_save.
  destruct results as [|r results]; [contradiction|].
  cbn [List.length Nat.eqb]. rewrite T.
  set (rows := Extract10k.summary_rows _).
  destruct rows; cbn [fst]; repeat split;
    repeat (apply in_or_app; first [ right; simpl; tauto | left ]).
Qed.

(** C2, on the code.  In run_analysis.py the end of [run_full_analysis]
    reads the name [tasks], which nothing binds: after the four lines of
    the heading it raises [NameError], whatever the results and the time.
    No summary line is printed and no JSON file is written. *)
Theorem run_full_analysis_summary_raises (results : list value)
  (elapsed_time : Q) :
  RunAnalysis.statistics_and_save results elapsed_time
    = ([ Console []; Console [Lit rule];
         Console [Lit (u "📊 STATISTIQUES")]; Console [Lit rule] ],
       raise (NameError (u "tasks"))) /\
  existsb is_json_file
    (fst (RunAnalysis.statistics_and_save results elapsed_time)) = false.
Proof. split; reflexivity. Qed.

(** ** The normalizer *)
Section Normalizer.

Import Extract10kV2.

Lemma get_dict (d : dict) (k : str) (default : value) :
  get (PDict d) k default = ret (get_or d k default).
Proof. unfold get, get_or. now destruct (dict_lookup d k). Qed.

Lemma get_or_object (d : dict) (k : str) :
  section_is_object d k -> get_or d k (PDict []) = PDict (section_of d k).
Proof.
  unfold section_is_object, get_or, section_of.
  destruct (dict_lookup d k) as [[]|]; intro H; try reflexivity; contradiction.
Qed.

Lemma get_in_object (d : dict) (s k : str) (default : value) :
  section_is_object d s ->
  get_in (PDict d) s k default = ret (get_or (section_of d s) k default).
Proof.
  intro H. unfold get_in. rewrite get_dict. cbn [bind ret].
  rewrite (get_or_object _ _ H). apply get_dict.
Qed.

Lemma normalize_structure_object (d : dict) :
  sections_are_objects d ->
  normalize_structure (PDict d) = ret (PDict (normalized d)).
Proof.
  intros (Hc & Hg & Hk & Hs). unfold normalize_structure.
  repeat (first [ rewrite get_dict
                | rewrite get_in_object by assumption ];
          cbn [bind ret]).
  unfold normalized.
  rewrite (get_or_object _ _ Hg). cbn [join_keys bind ret].
  reflexivity.
Qed.

End Normalizer.

Section NormalizerClaims.

Import Extract10kV2 RegulatoryUtils.

(** A read of the input along [section; key] finds nothing. *)
Lemma absent_field (d : dict) (s k : str) (default : value) :
  section_is_object d s ->
  lookup_path (PDict d) [s; k] = None ->
  get_or (section_of d s) k default = default.
Proof.
  unfold section_is_object, section_of, get_or. simpl.
  destruct (dict_lookup d s) as [[]|]; intros H A; try contradiction;
    try reflexivity.
  now destruct (dict_lookup fields k).
Qed.

Lemma scalar_legacy_null (d : dict) (legacy alias : list str) :
  sections_are_objects d ->
  In (legacy, alias) SCALAR_LEGACY_FIELDS ->
  lookup_path (PDict d) alias = None ->
  lookup_path (PDict (normalized d)) legacy = Some PNone.
Proof.
  intros (Hc & Hg & Hk & Hs) I A.
  repeat (destruct I as [I|I]; [injection I as <- <-|]); try contradiction.
  all: lazy -[get_or section_of]; f_equal; apply absent_field; assumption.
Qed.

Lemma list_legacy_empty (d : dict) (legacy alias : list str) :
  sections_are_objects d ->
  In (legacy, alias) LIST_LEGACY_FIELDS ->
  lookup_path (PDict d) alias = None ->
  lookup_path (PDict (normalized d)) legacy = Some (PList []).
Proof.
  intros (Hc & Hg & Hk & Hs) I A.
  repeat (destruct I as [I|I]; [injection I as <- <-|]); try contradiction.
  all: lazy -[get_or section_of]; f_equal; apply absent_field; assumption.
Qed.

Lemma get_or_found (d : dict) (k : str) (default g : value) :
  dict_lookup d k = Some g -> get_or d k default = g.
Proof. unfold get_or. now intros ->. Qed.

Lemma geographic_revenue_verbatim (d : dict) (g : value) :
  dict_lookup d (u "geographic_revenue") = Some g ->
  lookup_path (PDict (normalized d)) [u "geographic_revenue"] = Some g /\
  lookup_path (PDict (normalized d)) [u "geographic_exposure"; u "regions"]
    = Some g.
Proof.
  intro G. split; lazy -[get_or section_of]; f_equal;
    apply get_or_found; exact G.
Qed.

Lemma region_shares_absent (d : dict) (format_value : value -> str) :
  exists geo,
    lookup_path (PDict (normalized d)) [u "geographic_exposure"] = Some geo /\
    (forall region key, In (region, key) REGION_KEYS ->
       lookup_path geo [key] = None) /\
    geography_loop format_value geo REGION_KEYS [] = ret [].
Proof.
  eexists. split; [lazy -[get_or section_of join keys]; reflexivity|].
  split.
  - intros region key I.
    repeat (destruct I as [I|I]; [injection I as <- <-|]); try contradiction.
    all: reflexivity.
  - reflexivity.
Qed.

End NormalizerClaims.

(** C7 as the specification words it fails on the empty record: the
    legacy list of supplier industries has no source there, and it is the
    empty list, not null. *)
Lemma normalize_structure_list_field_is_not_null :
  exists profile,
    Extract10kV2.normalize_structure (PDict []) = ret profile /\
    lookup_path (PDict [])
      [u "supply_chain"; u "major_suppliers_industries"] = None /\
    lookup_path profile
      [u "supply_chain_and_commitments"; u "suppliers_sector_industries"]
      = Some (PList []) /\
    PList [] <> PNone.
Proof.
  eexists. split; [reflexivity|].
  split; [reflexivity|]. split; [reflexivity|]. discriminate.
Qed.

(** C7, amended.  For every decoded record whose sections company_info,
    geographic_revenue, key_financials and supply_chain are objects where
    present, [normalize_structure] returns a profile that holds the
    geographic_revenue of the record as it is, under geographic_revenue and
    under the regions of geographic_exposure; a legacy field whose source
    is absent from the record is null when it is a scalar field and the
    empty list when it is one of the two list fields; and the legacy
    revenue shares by fixed region are not in the profile, so that the loop
    of [format_company_profile] over them finds nothing to report. *)
Theorem normalize_structure_keeps_and_defaults (d : dict)
  (H : sections_are_objects d) :
  exists profile,
    Extract10kV2.normalize_structure (PDict d) = ret profile /\
    (forall g,
       dict_lookup d (u "geographic_revenue") = Some g ->
       lookup_path profile [u "geographic_revenue"] = Some g /\
       lookup_path profile [u "geographic_exposure"; u "regions"] = Some g) /\
    (forall legacy alias,
       In (legacy, alias) SCALAR_LEGACY_FIELDS ->
       lookup_path (PDict d) alias = None ->
       lookup_path profile legacy = Some PNone) /\
    (forall legacy alias,
       In (legacy, alias) LIST_LEGACY_FIELDS ->
       lookup_path (PDict d) alias = None ->
       lookup_path profile legacy = Some (PList [])) /\
    (forall format_value : value -> str,
       exists geo,
         lookup_path profile [u "geographic_exposure"] = Some geo /\
         (forall region key,
            In (region, key) RegulatoryUtils.REGION_KEYS ->
            lookup_path geo [key] = None) /\
         RegulatoryUtils.geography_loop format_value geo
           RegulatoryUtils.REGION_KEYS [] = ret [] /\
         RegulatoryUtils.or_not_disclosed [] = u "Not disclosed").
Proof.
  exists (PDict (normalized d)).
  split; [now apply normalize_structure_object|].
  split; [intros g G; now apply geographic_revenue_verbatim|].
  split; [intros legacy alias; now apply scalar_legacy_null|].
  split; [intros legacy alias; now apply list_legacy_empty|].
  intro format_value.
  destruct (region_shares_absent d format_value) as (geo & G1 & G2 & G3).
  exists geo. repeat split; assumption.
Qed.

Lemma emea_apac_sections : sections_are_objects emea_apac.
Proof. repeat split. Qed.

Lemma normalize_structure_keeps_and_defaults_witness :
  sections_are_objects emea_apac /\
  exists profile,
    Extract10kV2.normalize_structure (PDict emea_apac) = ret profile /\
    lookup_path profile [u "geographic_revenue"]
      = Some (PDict [(u "EMEA", PInt 40); (u "APAC", PInt 60)]) /\
    lookup_path profile [u "geographic_exposure"; u "regions"]
      = Some (PDict [(u "EMEA", PInt 40); (u "APAC", PInt 60)]) /\
    lookup_path profile [u "identity_and_jurisdiction"; u "company_name"]
      = Some PNone /\
    lookup_path profile
      [u "supply_chain_and_commitments"; u "key_countries"] = Some (PList []).
Proof.
  split; [exact emea_apac_sections|].
  destruct (@normalize_structure_keeps_and_defaults emea_apac
              emea_apac_sections)
    as (profile & N & G & S & L & _).
  exists profile. split; [exact N|].
  destruct (G _ eq_refl) as [G1 G2].
  split; [exact G1|]. split; [exact G2|].
  split.
  - apply (S _ [u "company_info"; u "name"]); [left; reflexivity|reflexivity].
  - apply (L _ [u "supply_chain"; u "key_supplier_countries"]);
      [right; left; reflexivity|reflexivity].
Defined.

(** ** The validation gate *)
Section Validation.

Import DashboardConfig RegulatoryUtils.

Lemma filter_length_pos {A} (f : A -> bool) (l : list A) (x : A) :
  In x l -> f x = true -> 1 <= List.length (filter f l).
Proof.
  intros I F. assert (In x (filter f l)) as J by (apply filter_In; now split).
  destruct (filter f l); [contradiction|simpl; lia].
Qed.

Lemma validate_rejects_short (lower : str -> str) (text : str) :
  List.length text < MIN_DOCUMENT_LENGTH ->
  fst (validate_regulatory_document lower text) = false.
Proof.
  intro H. unfold validate_regulatory_document.
  destruct (Nat.ltb_spec (List.length text) MIN_DOCUMENT_LENGTH); [|lia].
  now rewrite orb_true_r.
Qed.

Lemma validate_accepts (lower : str -> str) (text keyword : str) :
  MIN_DOCUMENT_LENGTH <= List.length text ->
  In keyword REGULATORY_KEYWORDS ->
  contains (lower text) keyword = true ->
  validate_regulatory_document lower text = (true, u "Document validé").
Proof.
  intros H I C. unfold validate_regulatory_document.
  destruct text as [|c text]; [simpl in H; unfold MIN_DOCUMENT_LENGTH in H; lia|].
  destruct (Nat.ltb_spec (List.length (c :: text)) MIN_DOCUMENT_LENGTH); [lia|].
  cbn [orb].
  pose proof (filter_length_pos
                (fun keyword => contains (lower (c :: text)) keyword)
                REGULATORY_KEYWORDS keyword I C) as P.
  destruct (Nat.ltb_spec
              (List.length
                 (filter (fun keyword => contains (lower (c :: text)) keyword)
                         REGULATORY_KEYWORDS))
              MIN_KEYWORD_MATCHES) as [L|L];
    [unfold MIN_KEYWORD_MATCHES in L; lia | reflexivity].
Qed.

End Validation.


(** C8. [validate_regulatory_document] rejects every text shorter than
    MIN_DOCUMENT_LENGTH (50) whatever keywords it holds, and accepts every
    text of that length or more in which a keyword of REGULATORY_KEYWORDS
    occurs once the text is in lower case (MIN_KEYWORD_MATCHES is 1): a
    text of 40 characters that holds three keywords is rejected, and a text
    of 200 characters that holds "Directive" once is accepted. *)
Theorem validation_gate (lower : str -> str) :
  DashboardConfig.MIN_DOCUMENT_LENGTH = 50 /\
  DashboardConfig.MIN_KEYWORD_MATCHES = 1 /\
  (forall text,
     List.length text < DashboardConfig.MIN_DOCUMENT_LENGTH ->
     fst (RegulatoryUtils.validate_regulatory_document lower text) = false) /\
  (forall text keyword,
     DashboardConfig.MIN_DOCUMENT_LENGTH <= List.length text ->
     In keyword DashboardConfig.REGULATORY_KEYWORDS ->
     contains (lower text) keyword = true ->
     RegulatoryUtils.validate_regulatory_document lower text
       = (true, u "Document validé")) /\
  List.length short_text = 40 /\
  contains (ascii_lower short_text) (u "directive") = true /\
  fst (RegulatoryUtils.validate_regulatory_document ascii_lower short_text)
    = false /\
  List.length long_text = 200 /\
  List.length
    (filter (fun keyword => contains (ascii_lower long_text) keyword)
            DashboardConfig.REGULATORY_KEYWORDS) = 1 /\
  RegulatoryUtils.validate_regulatory_document ascii_lower long_text
    = (true, u "Document validé") /\
  DashboardApp.validate_regulatory_document ascii_lower long_text = true.
Proof.
  split; [reflexivity|]. split; [reflexivity|].
  split; [intros text; apply validate_rejects_short|].
  split; [intros text keyword; apply validate_accepts|].
  repeat split; vm_compute; reflexivity.
Qed.

Lemma validation_gate_witness :
  (List.length short_text < DashboardConfig.MIN_DOCUMENT_LENGTH /\
   fst (RegulatoryUtils.validate_regulatory_document ascii_lower short_text)
     = false) /\
  (DashboardConfig.MIN_DOCUMENT_LENGTH <= List.length long_text /\
   In (u "directive") DashboardConfig.REGULATORY_KEYWORDS /\
   contains (ascii_lower long_text) (u "directive") = true /\
   RegulatoryUtils.validate_regulatory_document ascii_lower long_text
     = (true, u "Document validé")).
Proof.
  destruct (validation_gate ascii_lower) as (_ & _ & R & A & _).
  assert (S : List.length short_text < DashboardConfig.MIN_DOCUMENT_LENGTH)
    by (vm_compute; lia).
  assert (L : DashboardConfig.MIN_DOCUMENT_LENGTH <= List.length long_text)
    by (vm_compute; lia).
  assert (I : In (u "directive") DashboardConfig.REGULATORY_KEYWORDS)
    by (do 4 right; left; reflexivity).
  assert (C : contains (ascii_lower long_text) (u "directive") = true)
    by (vm_compute; reflexivity).
  split; [split; [exact S | exact (R _ S)]|].
  split; [exact L|]. split; [exact I|]. split; [exact C|].
  exact (A _ _ L I C).
Defined.

(** ** The ingestion of an upload *)
Section Ingestion.

Import DashboardConfig RegulatoryUtils.

Variable lower : str -> str.
Variable parse_pdf_document : list N -> result str.
Variable parse_xml_document : str -> result str.
Variable parse_html_document : str -> result str.

Local Abbreviation parse :=
  (parse_any_format lower parse_pdf_document parse_xml_document
     parse_html_document).

Lemma parse_malformed_upload (contents filename : str) :
  is_raised (payload contents) = true ->
  parse contents filename = [].
Proof.
  unfold parse_any_format, payload.
  destruct (item_1 (split 44%N contents)) as [e|content_string];
    [reflexivity|]. cbn [bind].
  destruct (Base64.b64decode content_string) as [e|decoded]; [reflexivity|].
  discriminate.
Qed.

Lemma parse_other_extension (contents filename : str) (decoded : list N) :
  payload contents = ret decoded ->
  dispatched (extension lower filename) = false ->
  parse contents filename = decode_text decoded.
Proof.
  intros P D. unfold parse_any_format. unfold payload in P.
  destruct (item_1 (split 44%N contents)) as [e|content_string];
    [discriminate P|]. cbn [bind] in *.
  rewrite P. cbn [bind ret].
  unfold dispatched, extension in D.
  apply orb_false_elim in D as [D Hhtm].
  apply orb_false_elim in D as [D Hhtml].
  apply orb_false_elim in D as [Hpdf Hxml].
  now rewrite Hpdf, Hxml, Hhtml, Hhtm.
Qed.

Lemma validate_rejects_empty :
  fst (validate_regulatory_document lower []) = false.
Proof. reflexivity. Qed.

End Ingestion.


(** C9 as the specification words it fails: a file with an extension that
    is not dispatched is read as plain text, and bytes that are not UTF-8
    are read as Latin-1; neither gives the empty text.  Here "aGVsbG8=" is
    "hello" and "/w==" is the byte 255. *)
Lemma parse_any_format_unknown_is_plain_text :
  dispatched (extension ascii_lower (u "notes.md")) = false /\
  RegulatoryUtils.parse_any_format ascii_lower (@no_text _) (@no_text _)
    (@no_text _) (u "data:text/plain;base64,aGVsbG8=") (u "notes.md")
    = u "hello" /\
  payload (u "data:application/octet-stream;base64,/w==") = ret [255%N] /\
  utf8_decode [255%N] = None /\
  RegulatoryUtils.parse_any_format ascii_lower (@no_text _) (@no_text _)
    (@no_text _) (u "data:application/octet-stream;base64,/w==")
    (u "upload.txt") = [255%N].
Proof. repeat split; vm_compute; reflexivity. Qed.

(** C9, amended.  [parse_any_format] yields the empty text when the upload
    has no payload after a comma or the payload is not base64, and the
    validation gate rejects the empty text.  When the payload decodes and
    the extension of the file name is none of pdf, xml, html and htm, it
    yields the payload decoded as UTF-8, or as Latin-1 when it is not
    UTF-8: the text of the file and not the empty text. *)
Theorem parse_any_format_fallbacks (lower : str -> str)
  (parse_pdf_document : list N -> result str)
  (parse_xml_document parse_html_document : str -> result str) :
  (forall contents filename,
     is_raised (payload contents) = true ->
     RegulatoryUtils.parse_any_format lower parse_pdf_document
       parse_xml_document parse_html_document contents filename = []) /\
  (forall contents filename decoded,
     payload contents = ret decoded ->
     dispatched (extension lower filename) = false ->
     RegulatoryUtils.parse_any_format lower parse_pdf_document
       parse_xml_document parse_html_document contents filename
       = RegulatoryUtils.decode_text decoded) /\
  (forall decoded,
     RegulatoryUtils.decode_text decoded
       = match utf8_decode decoded with
         | Some text => text
         | None => latin1_decode decoded
         end) /\
  fst (RegulatoryUtils.validate_regulatory_document lower []) = false /\
  DashboardApp.validate_regulatory_document lower [] = false.
Proof.
  split; [intros contents filename; apply parse_malformed_upload|].
  split; [intros contents filename decoded; apply parse_other_extension|].
  repeat split.
Qed.

Lemma parse_any_format_fallbacks_witness :
  (is_raised (payload (u "no comma")) = true /\
   RegulatoryUtils.parse_any_format ascii_lower (@no_text _) (@no_text _)
     (@no_text _) (u "no comma") (u "upload.txt") = []) /\
  (payload (u "data:text/plain;base64,aGVsbG8=") = ret (bytes_of_string "hello") /\
   dispatched (extension ascii_lower (u "notes.md")) = false /\
   RegulatoryUtils.parse_any_format ascii_lower (@no_text _) (@no_text _)
     (@no_text _) (u "data:text/plain;base64,aGVsbG8=") (u "notes.md")
     = RegulatoryUtils.decode_text (bytes_of_string "hello")).
Proof.
  destruct (parse_any_format_fallbacks ascii_lower (@no_text _) (@no_text _)
              (@no_text _)) as (M & O & _).
  assert (P1 : is_raised (payload (u "no comma")) = true) by reflexivity.
  assert (P2 : payload (u "data:text/plain;base64,aGVsbG8=")
               = ret (bytes_of_string "hello")) by reflexivity.
  assert (D : dispatched (extension ascii_lower (u "notes.md")) = false)
    by reflexivity.
  split; [split; [exact P1 | exact (M _ (u "upload.txt") P1)]|].
  split; [exact P2|]. split; [exact D|].
  exact (O _ _ _ P2 D).
Defined.

(** ** The two scales of a score (app/run_analysis.py, dashboard/app.py) *)

Section Scales.

Import RunAnalysis DashboardApp.

(** Split on the position of [q] among the four cut points. *)
Ltac five_after q :=
  cut_after q (-1.5)%Q;
  [ cut_after q (-0.5)%Q;
    [ cut_after q (0.5)%Q; [ cut_after q (1.5)%Q | ] | ] | ].
Ltac five_at q :=
  cut_at q (-1.5)%Q;
  [ | cut_at q (-0.5)%Q;
      [ | cut_at q (0.5)%Q; [ | cut_at q (1.5)%Q ] ] ].

(** X1. [get_overall_recommendation] is monotone: a higher score never
    gets a lower recommendation on the scale SELL, REDUCE, HOLD, BUY,
    STRONG_BUY. *)
Theorem get_overall_recommendation_monotone (a b : Q) (H : (a <= b)%Q) :
  recommendation_rank (get_overall_recommendation (Fin a))
    <= recommendation_rank (get_overall_recommendation (Fin b)).
Proof.
  unfold get_overall_recommendation, le_const.
  five_after a; five_after b; try (exfalso; lra);
    settle_comparisons; lia.
Qed.

Lemma get_overall_recommendation_monotone_witness :
  (-2 <= 1)%Q /\
  recommendation_rank (get_overall_recommendation (Fin (-2)))
    <= recommendation_rank (get_overall_recommendation (Fin 1)).
Proof.
  split; [lra | apply (@get_overall_recommendation_monotone (-2) 1); lra].
Defined.

(** X2. [get_sentiment_from_score] is monotone: a higher score never gets
    a lower sentiment on the scale VERY_NEGATIVE, NEGATIVE, NEUTRAL,
    POSITIVE, VERY_POSITIVE, also outside the ranges of
    [SENTIMENT_CONFIG]. *)
Theorem get_sentiment_from_score_monotone (a b : Q) (H : (a <= b)%Q) :
  sentiment_rank (get_sentiment_from_score (Fin a))
    <= sentiment_rank (get_sentiment_from_score (Fin b)).
Proof.
  unfold get_sentiment_from_score, SENTIMENT_CONFIG, first_range, ge_const,
    lt_const.
  assert (Ca : (a < -3 \/ -3 <= a < 3 \/ 3 <= a)%Q)
    by (destruct (Qlt_le_dec a (-3)); destruct (Qlt_le_dec a 3); lra).
  assert (Cb : (b < -3 \/ -3 <= b < 3 \/ 3 <= b)%Q)
    by (destruct (Qlt_le_dec b (-3)); destruct (Qlt_le_dec b 3); lra).
  five_at a; five_at b; try (exfalso; lra);
    destruct Ca as [Ca|[Ca|Ca]]; try (exfalso; lra);
    destruct Cb as [Cb|[Cb|Cb]]; try (exfalso; lra);
    settle_comparisons; lia.
Qed.

Lemma get_sentiment_from_score_monotone_witness :
  (-2 <= 1)%Q /\
  sentiment_rank (get_sentiment_from_score (Fin (-2)))
    <= sentiment_rank (get_sentiment_from_score (Fin 1)).
Proof.
  split; [lra | apply (@get_sentiment_from_score_monotone (-2) 1); lra].
Defined.

(** X3. The recommendation of run_analysis.py and the sentiment of the
    dashboard place a score at the same rank of their five-step scales,
    except at the four cut points -1.5, -0.5, 0.5 and 1.5, where the
    sentiment is one step higher than the recommendation. *)
Theorem recommendation_and_sentiment_scales (q : Q) :
  (sentiment_rank (get_sentiment_from_score (Fin q))
     = recommendation_rank (get_overall_recommendation (Fin q))
   <-> ~ (q == -1.5 \/ q == -0.5 \/ q == 0.5 \/ q == 1.5)%Q) /\
  (sentiment_rank (get_sentiment_from_score (Fin q))
     = S (recommendation_rank (get_overall_recommendation (Fin q)))
   <-> (q == -1.5 \/ q == -0.5 \/ q == 0.5 \/ q == 1.5)%Q).
Proof.
  unfold get_sentiment_from_score, SENTIMENT_CONFIG, first_range, ge_const,
    lt_const, get_overall_recommendation, le_const.
  assert (C : (q < -3 \/ -3 <= q < 3 \/ 3 <= q)%Q)
    by (destruct (Qlt_le_dec q (-3)); destruct (Qlt_le_dec q 3); lra).
  five_at q; five_after q; try (exfalso; lra);
    destruct C as [C|[C|C]]; try (exfalso; lra);
    settle_comparisons;
    (split; split; intro K;
     first [ discriminate K | reflexivity | lra
           | intro J; lra | exfalso; apply K; lra | idtac ]).
Qed.

End Scales.

(** ** What the cleaning of a completion leaves (extract_10k_v2.py,
       run_analysis.py) *)

Section Cleaning.

Import Extract10kV2.

(** X4. The text that [clean_json_response] returns has no white space
    left at either end, and a text without a fence at its start and at its
    end is only stripped. *)
Theorem clean_json_response_stripped (t : str) :
  strip (clean_json_response t) = clean_json_response t /\
  (startswith (strip t) (u "```") = false ->
   endswith (strip t) (u "```") = false ->
   clean_json_response t = strip t).
Proof.
  split.
  - unfold clean_json_response. apply strip_idempotent.
  - intros S E. unfold clean_json_response.
    destruct (startswith (strip t) (u "```json")) eqn:J.
    + apply startswith_fence_json in J. congruence.
    + rewrite S, E. apply strip_idempotent.
Qed.

Lemma clean_json_response_stripped_witness :
  startswith (strip bare) (u "```") = false /\
  endswith (strip bare) (u "```") = false /\
  clean_json_response bare = strip bare.
Proof.
  assert (S : startswith (strip bare) (u "```") = false) by reflexivity.
  assert (E : endswith (strip bare) (u "```") = false) by reflexivity.
  exact (conj S (conj E (proj2 (clean_json_response_stripped bare) S E))).
Defined.

(** X5. The cleaning of run_analysis.py, extract_10k.py and the
    dashboard (three independent tests) and the cleaning of
    extract_10k_v2.py (the second test only when the first fails) give the
    same text, unless the text goes on with a second fence right after
    the opening [```json]; there they can differ: on [twice_fenced] the
    first leaves the object, the second leaves a fence before it. *)
Theorem cleanings_agree (t : str) :
  (startswith (strip t) (u "```json") = false \/
   startswith (slice_from 7 (strip t)) (u "```") = false ->
   clean_v1 t = clean_json_response t) /\
  clean_v1 twice_fenced = bare /\
  clean_json_response twice_fenced = u "```" ++ bare.
Proof.
  split; [|split; reflexivity].
  unfold clean_v1, RunAnalysis.clean_markdown, clean_json_response.
  intro H. destruct (startswith (strip t) (u "```json")) eqn:J.
  - destruct H as [H|H]; [discriminate|]. now rewrite H.
  - reflexivity.
Qed.

Lemma cleanings_agree_witness :
  (startswith (strip fenced) (u "```json") = false \/
   startswith (slice_from 7 (strip fenced)) (u "```") = false) /\
  clean_v1 fenced = clean_json_response fenced.
Proof.
  assert (H : startswith (strip fenced) (u "```json") = false \/
              startswith (slice_from 7 (strip fenced)) (u "```") = false)
    by (right; reflexivity).
  exact (conj H (proj1 (cleanings_agree fenced) H)).
Defined.

End Cleaning.

(** ** When the normalizer raises, and what it does to its own result
       (extract_10k_v2.py) *)

Section NormalizerEdges.

Import Extract10kV2 RegulatoryUtils.

Lemma section_cases (d : dict) (k : str) :
  section_is_object d k \/
  exists x, dict_lookup d k = Some x /\ Loaders.is_dict x = false.
Proof.
  unfold section_is_object.
  destruct (dict_lookup d k) as [x|]; [|now left].
  destruct x; try (now left); right; eexists; split; reflexivity.
Qed.

Lemma section_not_object (d : dict) (k : str) (x : value) :
  dict_lookup d k = Some x -> Loaders.is_dict x = false ->
  ~ section_is_object d k.
Proof.
  unfold section_is_object. intros -> H. now destruct x.
Qed.

Lemma get_in_not_object (d : dict) (s k : str) (default x : value) :
  dict_lookup d s = Some x -> Loaders.is_dict x = false ->
  get_in (PDict d) s k default = raise AttributeError.
Proof.
  intros L H. unfold get_in. rewrite get_dict. unfold get_or. rewrite L.
  now destruct x.
Qed.

Lemma normalize_structure_not_object (d : dict) :
  ~ sections_are_objects d ->
  normalize_structure (PDict d) = raise AttributeError.
Proof.
  intro N. unfold normalize_structure.
  destruct (section_cases d (u "company_info")) as [Hc|(x & L & H)].
  2: { rewrite !get_dict. cbn [bind ret].
       now rewrite (@get_in_not_object d _ _ _ x L H). }
  destruct (section_cases d (u "geographic_revenue")) as [Hg|(x & L & H)].
  2: { repeat (first [ rewrite get_dict
                     | rewrite get_in_object by assumption ];
               cbn [bind ret]).
       assert (G : get_or d (u "geographic_revenue") (PDict []) = x)
         by (unfold get_or; now rewrite L).
       rewrite G. destruct x; try discriminate H; reflexivity. }
  destruct (section_cases d (u "supply_chain")) as [Hs|(x & L & H)].
  2: { repeat (first [ rewrite get_dict
                     | rewrite get_in_object by assumption ];
               cbn [bind ret]).
       rewrite (get_or_object _ _ Hg). cbn [join_keys bind ret].
       now rewrite (@get_in_not_object d _ _ _ x L H). }
  destruct (section_cases d (u "key_financials")) as [Hk|(x & L & H)].
  2: { repeat (first [ rewrite get_dict
                     | rewrite get_in_object by assumption ];
               cbn [bind ret]).
       rewrite (get_or_object _ _ Hg). cbn [join_keys bind ret].
       now rewrite (@get_in_not_object d _ _ _ x L H). }
  exfalso. apply N. repeat split; assumption.
Qed.

Lemma normalize_structure_cases (v : value) :
  (exists d, v = PDict d /\ sections_are_objects d /\
             normalize_structure v = ret (PDict (normalized d))) \/
  (normalize_structure v = raise AttributeError /\
   ~ exists d, v = PDict d /\ sections_are_objects d).
Proof.
  destruct v as [| | | | |l|d];
    try (right; split; [reflexivity | intros (d & E & _); discriminate]).
  destruct (section_cases d (u "company_info")) as [Hc|(x & L & H)];
    [destruct (section_cases d (u "geographic_revenue")) as [Hg|(x & L & H)];
     [destruct (section_cases d (u "key_financials")) as [Hk|(x & L & H)];
      [destruct (section_cases d (u "supply_chain")) as [Hs|(x & L & H)]|]|]|].
  1: { left. exists d. split; [reflexivity|].
       assert (S : sections_are_objects d) by (repeat split; assumption).
       split; [exact S | exact (normalize_structure_object S)]. }
  all: right; pose proof (@section_not_object d _ x L H) as N;
    assert (N' : ~ sections_are_objects d)
      by (intros (? & ? & ? & ?); contradiction);
    split; [exact (normalize_structure_not_object N')|];
    intros (d' & E & S); injection E as <-; contradiction.
Qed.

(** X6. [normalize_structure] returns exactly on an object whose sections
    company_info, geographic_revenue, key_financials and supply_chain are
    objects where they are present; on every other value it raises
    AttributeError. *)
Theorem normalize_structure_raises_exactly (v : value) :
  (is_raised (normalize_structure v) = false <->
   exists d, v = PDict d /\ sections_are_objects d) /\
  (is_raised (normalize_structure v) = true ->
   normalize_structure v = raise AttributeError).
Proof.
  destruct (normalize_structure_cases v) as [(d & E & S & R)|(R & N)];
    rewrite R; simpl.
  - split; [split; [|reflexivity] | discriminate].
    intros _. now exists d.
  - split; [split; [discriminate|] | reflexivity].
    intro K. contradiction.
Qed.

Lemma normalized_sections (d : dict) :
  sections_are_objects d -> sections_are_objects (normalized d).
Proof.
  intros (Hc & Hg & Hk & Hs).
  repeat split; unfold section_is_object.
  - change (dict_lookup (normalized d) (u "company_info"))
      with (Some (get_or d (u "company_info") (PDict []))).
    now rewrite (get_or_object _ _ Hc).
  - change (dict_lookup (normalized d) (u "geographic_revenue"))
      with (Some (get_or d (u "geographic_revenue") (PDict []))).
    now rewrite (get_or_object _ _ Hg).
  - change (dict_lookup (normalized d) (u "key_financials"))
      with (Some (get_or d (u "key_financials") (PDict []))).
    now rewrite (get_or_object _ _ Hk).
  - change (dict_lookup (normalized d) (u "supply_chain"))
      with (Some (get_or d (u "supply_chain") (PDict []))).
    now rewrite (get_or_object _ _ Hs).
Qed.

Lemma normalized_section_of (d : dict) (k : str) (x : value) :
  dict_lookup (normalized d) k = Some (get_or d k (PDict [])) ->
  section_is_object d k ->
  section_of (normalized d) k = section_of d k.
Proof.
  intros L H. unfold section_of at 1. rewrite L.
  now rewrite (get_or_object _ _ H).
Qed.

Lemma normalized_idempotent (d : dict) :
  sections_are_objects d -> normalized (normalized d) = normalized d.
Proof.
  intros (Hc & Hg & Hk & Hs).
  pose proof (@normalized_section_of d (u "company_info") PNone eq_refl Hc) as S1.
  pose proof (@normalized_section_of d (u "geographic_revenue") PNone eq_refl Hg)
    as S2.
  pose proof (@normalized_section_of d (u "key_financials") PNone eq_refl Hk) as S3.
  pose proof (@normalized_section_of d (u "supply_chain") PNone eq_refl Hs) as S4.
  set (n := normalized d) in *. unfold normalized at 1.
  rewrite S1, S2, S3, S4. reflexivity.
Qed.

(** X7. [normalize_structure] is idempotent: normalizing a profile that
    it returned gives that profile again. *)
Theorem normalize_structure_idempotent (v w : value)
  (H : normalize_structure v = ret w) :
  normalize_structure w = ret w.
Proof.
  destruct (normalize_structure_cases v) as [(d & -> & S & R)|(R & _)];
    [|rewrite R in H; discriminate H].
  rewrite R in H. injection H as <-.
  rewrite (normalize_structure_object (normalized_sections S)).
  now rewrite (normalized_idempotent S).
Qed.

Lemma normalize_structure_idempotent_witness :
  normalize_structure (PDict emea_apac) = ret (PDict (normalized emea_apac)) /\
  normalize_structure (PDict (normalized emea_apac))
    = ret (PDict (normalized emea_apac)).
Proof.
  assert (H : normalize_structure (PDict emea_apac)
              = ret (PDict (normalized emea_apac))) by reflexivity.
  exact (conj H (@normalize_structure_idempotent _ _ H)).
Defined.

(** X8. The profile that the dashboard formats from a record of
    extract_10k_v2.py, whose data went through [normalize_structure]:
    geography and business mix are always "Not disclosed", because the
    normalizer writes neither the regional shares nor the two revenues
    that [format_company_profile] reads; the name and the sector are those
    of company_info, and [None] rather than "Unknown" where the filing has
    none, because the normalizer always writes the key. *)
Theorem profile_of_normalized_record (format_value format_billions : value -> str)
  (render : message -> str) (d : dict) (ticker file_path extracted_at : str) :
  format_company_profile format_value format_billions
    (Loaders.extraction_dict render
       (Extracted ticker file_path (PDict (normalized d)) extracted_at))
  = (let suppliers :=
       get_or (section_of d (u "supply_chain"))
         (u "major_suppliers_industries") (PList []) in
     let r_and_d_value :=
       get_or (section_of d (u "key_financials"))
         (u "r_and_d_expense_usd") PNone in
     supply_chain <-
       (if truthy suppliers then join_first_3 suppliers
        else ret (u "Not disclosed")) ;;
     r_and_d <-
       (if truthy r_and_d_value
        then (b <- billions format_billions r_and_d_value ;;
              ret (u "$" ++ b ++ u "B"))
        else ret (u "Not disclosed")) ;;
     ret {| RegulatoryUtils.ticker := PStr ticker;
            company_name :=
              get_or (section_of d (u "company_info")) (u "name") PNone;
            sector :=
              get_or (section_of d (u "company_info")) (u "sector") PNone;
            geography := u "Not disclosed";
            business_mix := u "Not disclosed";
            supply_chain := supply_chain;
            r_and_d := r_and_d |})%py /\
  (forall profile,
     format_company_profile format_value format_billions
       (Loaders.extraction_dict render
          (Extracted ticker file_path (PDict (normalized d)) extracted_at))
       = ret profile ->
     geography profile = u "Not disclosed" /\
     business_mix profile = u "Not disclosed" /\
     RegulatoryUtils.ticker profile = PStr ticker /\
     company_name profile
       = get_or (section_of d (u "company_info")) (u "name") PNone /\
     sector profile
       = get_or (section_of d (u "company_info")) (u "sector") PNone).
Proof.
  assert (E : format_company_profile format_value format_billions
                (Loaders.extraction_dict render
                   (Extracted ticker file_path (PDict (normalized d))
                      extracted_at))
              = (supply_chain <-
                   (if truthy (get_or (section_of d (u "supply_chain"))
                                 (u "major_suppliers_industries") (PList []))
                    then join_first_3
                           (get_or (section_of d (u "supply_chain"))
                              (u "major_suppliers_industries") (PList []))
                    else ret (u "Not disclosed")) ;;
                 r_and_d <-
                   (if truthy (get_or (section_of d (u "key_financials"))
                                 (u "r_and_d_expense_usd") PNone)
                    then (b <- billions format_billions
                                 (get_or (section_of d (u "key_financials"))
                                    (u "r_and_d_expense_usd") PNone) ;;
                          ret (u "$" ++ b ++ u "B"))
                    else ret (u "Not disclosed")) ;;
                 ret {| RegulatoryUtils.ticker := PStr ticker;
                        company_name :=
                          get_or (section_of d (u "company_info")) (u "name")
                            PNone;
                        sector :=
                          get_or (section_of d (u "company_info")) (u "sector")
                            PNone;
                        geography := u "Not disclosed";
                        business_mix := u "Not disclosed";
                        supply_chain := supply_chain;
                        r_and_d := r_and_d |})%py)
    by reflexivity.
  split; [exact E|].
  intros profile H. rewrite E in H. clear E.
  destruct (if truthy _ then join_first_3 _ else _) as [e|supply];
    [discriminate H|].
  cbn [bind] in H.
  match type of H with
  | bind ?m _ = _ => destruct m as [e|rd]; [discriminate H|]
  end.
  cbn [bind] in H. injection H as <-. repeat split.
Qed.

End NormalizerEdges.

(** ** What the gateways return, and how long they sleep *)

Section GatewayResults.

Variable loads : str -> option value.
Variable lower : str -> str.
Variable sv : answers.
Variable prompt : str.

Lemma run_analysis_first_success (m k : nat) :
  k + m = RunAnalysis.MAX_RETRIES ->
  snd (RunAnalysis.call_bedrock_loop loads sv prompt (seq k m))
    = or_none (first_success (fun n => RunAnalysis.attempt loads (sv n))
                 (seq k m)).
Proof.
  revert k. induction m as [|m IH]; intros k Hk; [reflexivity|].
  cbn -[RunAnalysis.MAX_RETRIES Nat.ltb Nat.sub].
  destruct (RunAnalysis.attempt loads (sv k)) as [e|v]; [|reflexivity].
  destruct (Nat.ltb_spec k (RunAnalysis.MAX_RETRIES - 1)) as [L|L].
  - specialize (IH (S k) ltac:(lia)).
    destruct (RunAnalysis.call_bedrock_loop loads sv prompt (seq (S k) m)).
    exact IH.
  - assert (m = 0) by lia. subst m. reflexivity.
Qed.

Lemma v2_first_success (m k : nat) :
  k + m = Extract10kV2.MAX_RETRIES ->
  snd (Extract10kV2.call_bedrock_loop loads lower sv prompt (seq k m))
    = or_none (first_success (fun n => Extract10kV2.attempt loads (sv n))
                 (seq k m)).
Proof.
  revert k. induction m as [|m IH]; intros k Hk; [reflexivity|].
  cbn -[Extract10kV2.MAX_RETRIES Nat.ltb Nat.sub Extract10kV2.backoff].
  specialize (IH (S k)).
  assert (Last : ~ k < Extract10kV2.MAX_RETRIES - 1 -> m = 0) by lia.
  destruct (Extract10kV2.call_bedrock_loop loads lower sv prompt (seq (S k) m))
    as [t r].
  destruct (Extract10kV2.attempt loads (sv k)) as [e|v]; [|reflexivity].
  destruct e; try destruct (Extract10kV2.mentions_throttling lower _);
    destruct (Nat.ltb_spec k (Extract10kV2.MAX_RETRIES - 1)) as [L|L];
    cbn [snd];
    first [ apply IH; lia | rewrite (Last ltac:(lia)); reflexivity ].
Qed.

(** X9. The gateways of run_analysis.py and of extract_10k_v2.py return
    what the first attempt that does not fail gives, and [None] when every
    attempt fails; what the failed attempts raised is not returned. *)
Theorem call_bedrock_returns_first_success :
  snd (RunAnalysis.call_bedrock loads sv prompt)
    = or_none (first_success (fun n => RunAnalysis.attempt loads (sv n))
                 (seq 0 RunAnalysis.MAX_RETRIES)) /\
  snd (Extract10kV2.call_bedrock loads lower sv prompt)
    = or_none (first_success (fun n => Extract10kV2.attempt loads (sv n))
                 (seq 0 Extract10kV2.MAX_RETRIES)).
Proof.
  split.
  - now apply run_analysis_first_success.
  - now apply v2_first_success.
Qed.

Lemma slept_app (t1 t2 : trace) : (slept (t1 ++ t2) == slept t1 + slept t2)%Q.
Proof.
  induction t1 as [|e t1 IH]; simpl; [lra|].
  destruct e; simpl; lra.
Qed.

Lemma slept_backoff (retry : nat) : (0 <= slept (Extract10kV2.backoff retry))%Q.
Proof.
  unfold Extract10kV2.backoff. destruct (0 <? retry); simpl; [|lra].
  assert (H : (0 <= Z.min (2 ^ Z.of_nat retry) 10)%Z)
    by (apply Z.min_glb; [apply Z.pow_nonneg|]; lia).
  rewrite Zle_Qle in H. change (inject_Z 0) with 0%Q in H. lra.
Qed.

Lemma v2_step_sleeps (retry : nat) (rest : list nat) (B : Q) :
  (0 <= B)%Q ->
  (slept (fst (Extract10kV2.call_bedrock_loop loads lower sv prompt rest))
   <= B)%Q ->
  (slept (fst (Extract10kV2.call_bedrock_loop loads lower sv prompt
                 (retry :: rest)))
   <= slept (Extract10kV2.backoff retry)
      + inject_Z (5 * (Z.of_nat retry + 1)) + B)%Q.
Proof.
  intros H0 H.
  pose proof (slept_backoff retry) as Hb.
  assert (Ht : (0 <= inject_Z (5 * (Z.of_nat retry + 1)))%Q)
    by (change 0%Q with (inject_Z 0); rewrite <- Zle_Qle; lia).
  cbn -[Extract10kV2.MAX_RETRIES Nat.ltb Nat.sub Extract10kV2.backoff slept
        Z.mul Z.add Z.of_nat inject_Z].
  set (T := inject_Z (5 * (Z.of_nat retry + 1))) in *.
  destruct (Extract10kV2.call_bedrock_loop loads lower sv prompt rest) as [t r].
  cbn [fst] in H.
  destruct (Extract10kV2.attempt loads (sv retry)) as [e|v].
  - destruct e; try destruct (Extract10kV2.mentions_throttling lower _);
      destruct (retry <? Extract10kV2.MAX_RETRIES - 1);
      cbn [fst];
      repeat (first [ rewrite slept_app | progress cbn [slept app] ]);
      lra.
  - cbn [fst]. rewrite slept_app. cbn [slept]. lra.
Qed.

(** X10. The seconds that one call of a gateway sleeps: at most 1 in
    run_analysis.py, at most 36 in extract_10k_v2.py.  A service that
    throttles the three attempts of extract_10k_v2.py makes it sleep the
    36 seconds, the last 15 of them after the third attempt, when no
    attempt follows. *)
Theorem call_bedrock_sleeps :
  (slept (fst (RunAnalysis.call_bedrock loads sv prompt)) <= 1)%Q /\
  (slept (fst (Extract10kV2.call_bedrock loads lower sv prompt)) <= 36)%Q /\
  fst (Extract10kV2.call_bedrock loads ascii_lower throttled prompt)
    = [ Invoke prompt; Sleep 5;
        Sleep 2; Invoke prompt; Sleep 10;
        Sleep 4; Invoke prompt; Sleep 15;
        LogError (u "bedrock")
          [Lit (u "Error: ");
           ExnText (ClientError (u "ThrottlingException: Rate exceeded"))] ] /\
  (slept (fst (Extract10kV2.call_bedrock loads ascii_lower throttled prompt))
   == 36)%Q.
Proof.
  split; [|split; [|split; vm_compute; reflexivity]].
  - unfold RunAnalysis.call_bedrock.
    change (seq 0 RunAnalysis.MAX_RETRIES) with [0; 1].
    cbn [RunAnalysis.call_bedrock_loop].
    destruct (RunAnalysis.attempt loads (sv 0));
      [destruct (RunAnalysis.attempt loads (sv 1))|];
      vm_compute; discriminate.
  - unfold Extract10kV2.call_bedrock.
    change (seq 0 Extract10kV2.MAX_RETRIES) with [0; 1; 2].
    assert (H2 : (slept (fst (Extract10kV2.call_bedrock_loop loads lower sv
                                prompt [2%nat])) <= 19)%Q).
    { eapply Qle_trans;
        [apply (@v2_step_sleeps 2 [] 0); simpl; lra | vm_compute; discriminate]. }
    assert (H1 : (slept (fst (Extract10kV2.call_bedrock_loop loads lower sv
                                prompt [1%nat; 2%nat])) <= 31)%Q).
    { eapply Qle_trans;
        [apply (@v2_step_sleeps 1 [2] 19); [lra | exact H2]
        | vm_compute; discriminate]. }
    eapply Qle_trans;
      [apply (@v2_step_sleeps 0 [1; 2] 31); [lra | exact H1]
      | vm_compute; discriminate].
Qed.

End GatewayResults.

(** ** The gateway of extract_10k.py *)

Section Extract10kGateway.

Import Extract10kRun.

Variable loads : str -> option value.
Variable sv : answers.
Variable prompt : str.

Local Abbreviation attempt_of := (fun n => RunAnalysis.attempt loads (sv n)).
Local Abbreviation failed := (fun n => is_raised (RunAnalysis.attempt loads (sv n))).

Lemma extract_10k_loop (max_retries m k : nat) :
  k + m = max_retries ->
  let run := call_bedrock_loop loads max_retries sv prompt (seq k m) in
  invocations (fst run) = attempts_needed failed (seq k m) /\
  snd run = or_none (first_success attempt_of (seq k m)) /\
  (slept (fst run) <= inject_Z (2 * Z.of_nat (m - 1)))%Q.
Proof.
  revert k. induction m as [|m IH]; intros k Hk.
  - repeat split. vm_compute. discriminate.
  - cbn -[Nat.ltb Nat.sub slept invocations inject_Z Z.mul Z.of_nat].
    specialize (IH (S k) ltac:(lia)). cbv zeta in IH.
    destruct (call_bedrock_loop loads max_retries sv prompt (seq (S k) m))
      as [t r].
    cbn [fst snd] in IH. destruct IH as (I1 & I2 & I3).
    assert (Last : max_retries - 1 <= k -> m = 0) by lia.
    assert (Step : (inject_Z (2 * Z.of_nat (m - 1)) + 2
                    <= inject_Z (2 * Z.of_nat (S m - 1)))%Q \/ m = 0).
    { destruct m as [|m']; [now right|left].
      replace (2 * Z.of_nat (S (S m') - 1))%Z
        with (2 * Z.of_nat (S m' - 1) + 2)%Z by lia.
      rewrite inject_Z_plus. change (inject_Z 2) with 2%Q. lra. }
    assert (Pos : (0 <= inject_Z (2 * Z.of_nat (S m - 1)))%Q)
      by (change 0%Q with (inject_Z 0); rewrite <- Zle_Qle; lia).
    destruct (RunAnalysis.attempt loads (sv k)) as [e|v].
    + destruct e;
        (destruct (Nat.ltb_spec k (max_retries - 1)) as [L|L];
         cbn [fst snd is_raised];
         rewrite ?invocations_cons, ?invocations_nil; cbn [is_invoke Nat.add];
         cbn [slept];
         [ split; [now rewrite I1 | split; [exact I2|]];
           destruct Step as [Step|Z]; [lra | exfalso; lia]
         | rewrite (Last L) in *; repeat split; exact Pos ]).
    + cbn [fst snd is_raised]. repeat split. exact Pos.
Qed.

(** X11. [call_bedrock(prompt, max_retries)] of extract_10k.py, for every
    number of retries: it sends one request per attempt up to the first
    that does not fail, so at most [max_retries]; it returns what that
    attempt gives and [None] when all fail; it sleeps at most 2 seconds
    between two attempts; with no retry allowed it returns [None] without
    a request. *)
Theorem extract_10k_call_bedrock (max_retries : nat) :
  invocations (fst (call_bedrock loads sv prompt max_retries))
    = attempts_needed failed (seq 0 max_retries) /\
  invocations (fst (call_bedrock loads sv prompt max_retries)) <= max_retries /\
  snd (call_bedrock loads sv prompt max_retries)
    = or_none (first_success attempt_of (seq 0 max_retries)) /\
  (slept (fst (call_bedrock loads sv prompt max_retries))
   <= inject_Z (2 * Z.of_nat (max_retries - 1)))%Q /\
  call_bedrock loads sv prompt 0 = ([], PNone).
Proof.
  destruct (@extract_10k_loop max_retries max_retries 0 eq_refl)
    as (H1 & H2 & H3).
  unfold call_bedrock. repeat split; try assumption.
  rewrite H1. etransitivity; [apply attempts_needed_le|].
  now rewrite length_seq.
Qed.

End Extract10kGateway.

(** ** The gateway of the dashboard *)

Section DashboardGateway.

Import DashboardApp.

Variable loads : str -> option value.
Variable sv : answers.
Variable prompt : str.

Lemma dashboard_loop_requests (todo : list nat) (bound : option value) :
  invocations (fst (call_bedrock_loop loads sv prompt bound todo))
    <= List.length todo.
Proof.
  revert bound. induction todo as [|n rest IH]; intro bound; [apply le_n|].
  cbn -[Nat.ltb invocations slice_value RunAnalysis.clean_markdown strip].
  repeat match goal with
  | |- context [call_bedrock_loop loads sv prompt ?b rest] =>
    let H := fresh "IH" in
    pose proof (IH b) as H;
    destruct (call_bedrock_loop loads sv prompt b rest); cbn [fst] in H
  | |- context [match ?x with _ => _ end] => destruct x
  end;
  cbn [fst]; rewrite ?invocations_cons, ?invocations_app, ?invocations_cons,
    ?invocations_nil; cbn [is_invoke Nat.add List.length]; lia.
Qed.

Lemma dashboard_call_error_page (body : str) :
  sv 0 = Responds body -> loads body = None ->
  call_bedrock loads true sv prompt
    = ([Invoke prompt], raise (UnboundLocalError (u "response_text"))).
Proof.
  intros S L. unfold call_bedrock. cbn [seq call_bedrock_loop].
  now rewrite S, L.
Qed.

(** X12. [call_bedrock] of the dashboard sends at most two requests, and
    none when the client could not be built.  When the body of the first
    response is not JSON, the handler of the decoding error reads
    [response_text] before anything was assigned to it: the call raises
    UnboundLocalError after that one request instead of trying again. *)
Theorem dashboard_call_bedrock (BEDROCK_AVAILABLE : bool) :
  invocations (fst (call_bedrock loads BEDROCK_AVAILABLE sv prompt)) <= 2 /\
  (BEDROCK_AVAILABLE = false ->
   call_bedrock loads BEDROCK_AVAILABLE sv prompt = ([], ret PNone)) /\
  (forall body,
     BEDROCK_AVAILABLE = true -> sv 0 = Responds body -> loads body = None ->
     call_bedrock loads BEDROCK_AVAILABLE sv prompt
       = ([Invoke prompt], raise (UnboundLocalError (u "response_text")))).
Proof.
  repeat split.
  - unfold call_bedrock.
    destruct BEDROCK_AVAILABLE; [|cbn [fst]; rewrite invocations_nil; lia].
    exact (dashboard_loop_requests (seq 0 2) None).
  - now intros ->.
  - intros body -> S L. exact (dashboard_call_error_page S L).
Qed.

End DashboardGateway.

Lemma dashboard_call_bedrock_witness :
  bad_gateway 0 = Responds (u "<html>Bad Gateway</html>") /\
  Json.loads (u "<html>Bad Gateway</html>") = None /\
  DashboardApp.call_bedrock Json.loads true bad_gateway (u "prompt")
    = ([Invoke (u "prompt")], raise (UnboundLocalError (u "response_text"))).
Proof.
  assert (L : Json.loads (u "<html>Bad Gateway</html>") = None) by reflexivity.
  split; [reflexivity|]. split; [exact L|].
  exact (proj2 (proj2 (dashboard_call_bedrock Json.loads bad_gateway
                         (u "prompt") true))
           (u "<html>Bad Gateway</html>") eq_refl eq_refl L).
Defined.

(** ** The batch of extract_10k_v2.py *)

Section V2Batch.

Import Extract10kV2.

Variable loads : str -> option value.
Variable lower : str -> str.
Variable format_prompt : str -> result str.

Local Abbreviation worker := (process_single_10k loads lower format_prompt).
Local Abbreviation batch := (extract_all_10k loads lower format_prompt).
Local Abbreviation record := (record_of loads lower format_prompt).


Lemma filter_split_length {A} (f : A -> bool) (l : list A) :
  List.length (filter f l) + List.length (filter (fun x => negb (f x)) l)
    = List.length l.
Proof.
  induction l as [|x l IH]; simpl; [reflexivity|].
  destruct (f x); simpl; lia.
Qed.


Lemma worker_without_request (t : task) (p : progress) :
  extract_text_smart t = [] \/
  is_raised (format_prompt (extract_text_smart t)) = true ->
  invocations (snd (worker t p)) = 0 /\
  success_of (fst (fst (worker t p))) = false.
Proof.
  unfold process_single_10k.
  destruct (extract_text_smart t) as [|c text]; [now split|].
  intros [H|H]; [discriminate|].
  destruct (format_prompt (c :: text)); [now split | discriminate].
Qed.

(** X14. A worker of extract_10k_v2.py sends no request and returns a
    record of failure when no text came out of the filing or when
    formatting the prompt raises.  When formatting raises on every text,
    a batch has no success and counts every filing as failed. *)
Theorem process_single_10k_without_request :
  (forall t p,
     extract_text_smart t = [] \/
     is_raised (format_prompt (extract_text_smart t)) = true ->
     invocations (snd (worker t p)) = 0 /\
     success_of (fst (fst (worker t p))) = false /\
     snd (fst (worker t p)) = count_failed p) /\
  (forall completed,
     (forall text, is_raised (format_prompt text) = true) ->
     filter success_of (fst (batch completed)) = [] /\
     success (snd (batch completed)) = 0 /\
     failed (snd (batch completed)) = List.length completed).
Proof.
  split.
  - intros t p H. destruct (worker_without_request t p H) as [I S].
    repeat split; try assumption.
    destruct (worker_counts_once loads lower format_prompt t p) as [_ C].
    now rewrite C, S.
  - intros completed H.
    assert (E : filter success_of (List.map record completed) = []).
    { induction completed as [|t rest IH]; [reflexivity|].
      cbn [List.map filter].
      destruct (worker_without_request t {| success := 0; failed := 0 |}
                  (or_intror (H (extract_text_smart t)))) as [_ S].
      change (success_of (record t) = false) in S. now rewrite S. }
    unfold extract_all_10k. rewrite pool_collects. cbn [fst snd app].
    destruct (count_totals loads lower format_prompt completed
                {| success := 0; failed := 0 |}) as [S F].
    cbv zeta in S, F. cbn [success failed Nat.add] in S, F.
    pose proof (filter_split_length success_of (List.map record completed))
      as T.
    rewrite E in *. rewrite length_map in T. cbn [List.length] in *.
    repeat split; lia.
Qed.

End V2Batch.

Lemma process_single_10k_without_request_witness :
  (Extract10kV2.extract_text_smart (empty_filing "AAA" service_up) = [] \/
   is_raised (plain_prompt
                (Extract10kV2.extract_text_smart (empty_filing "AAA" service_up)))
     = true) /\
  (forall text, is_raised (broken_prompt text) = true) /\
  invocations
    (snd (Extract10kV2.process_single_10k Json.loads ascii_lower plain_prompt
            (empty_filing "AAA" service_up)
            {| Extract10kV2.success := 0; Extract10kV2.failed := 0 |})) = 0 /\
  Extract10kV2.failed
    (snd (Extract10kV2.extract_all_10k Json.loads ascii_lower broken_prompt
            [filing "AAA" service_up; filing "BBB" service_up])) = 2.
Proof.
  assert (H1 : Extract10kV2.extract_text_smart (empty_filing "AAA" service_up)
               = [] \/
               is_raised (plain_prompt
                            (Extract10kV2.extract_text_smart
                               (empty_filing "AAA" service_up))) = true)
    by (left; reflexivity).
  assert (H2 : forall text, is_raised (broken_prompt text) = true)
    by (intro; reflexivity).
  split; [exact H1|]. split; [exact H2|]. split.
  - exact (proj1 (proj1 (process_single_10k_without_request Json.loads
                           ascii_lower plain_prompt) _
                    {| Extract10kV2.success := 0; Extract10kV2.failed := 0 |}
                    H1)).
  - exact (proj2 (proj2 (proj2 (process_single_10k_without_request Json.loads
                                  ascii_lower broken_prompt)
                           [filing "AAA" service_up; filing "BBB" service_up]
                           H2))).
Defined.

(** ** The prompt of extract_10k_v2.py *)

Section ExtractionPrompt.

Import Extract10kV2 Extract10kV2Prompt.

Variable beyond : str -> list (str * str) -> result str.
Variable loads : str -> option value.
Variable lower : str -> str.

Local Abbreviation worker :=
  (process_single_10k loads lower (format_prompt beyond)).
Local Abbreviation batch :=
  (extract_all_10k loads lower (format_prompt beyond)).

Lemma format_prompt_raises (text : str) :
  format_prompt beyond text = raise KeyError.
Proof.
  unfold format_prompt, StrFormat.format.
  assert (E : StrFormat.build_string (S (List.length EXTRACTION_PROMPT))
                [(u "content", text)] EXTRACTION_PROMPT
              = Some (raise KeyError)) by (vm_compute; reflexivity).
  now rewrite E.
Qed.

Lemma batch_never_formats (format_prompt : str -> result str)
  (completed : list task) :
  (forall text, is_raised (format_prompt text) = true) ->
  filter success_of
    (List.map (record_of loads lower format_prompt) completed) = [].
Proof.
  intro H. induction completed as [|t rest IH]; [reflexivity|].
  cbn [List.map filter].
  destruct (@worker_without_request loads lower format_prompt t
              {| success := 0; failed := 0 |}
              (or_intror (H (extract_text_smart t)))) as [_ S].
  change (success_of (record_of loads lower format_prompt t) = false) in S.
  now rewrite S.
Qed.

(** X15. [EXTRACTION_PROMPT.format(content=text)] raises KeyError on
    every text: the braces of the JSON sample in the template are not
    doubled, so that the first replacement field that [str.format] reads
    is the sample itself, under a name that is no keyword of the call.
    The worker of extract_10k_v2.py therefore never sends a request: it
    returns the record of failure "Empty extraction" for a filing without
    text and the record of failure of the KeyError, which it logs, for
    every other filing; and every batch ends without a success, all its
    filings counted as failed. *)
Theorem extraction_prompt_format_raises (t : task) (p : progress)
  (completed : list task) :
  (forall text, format_prompt beyond text = raise KeyError) /\
  worker t p
    = (Failure (parent_name (html_path t)) (path_str (html_path t))
         match extract_text_smart t with
         | [] => [Lit (u "Empty extraction")]
         | _ => [ExnText KeyError]
         end,
       count_failed p,
       match extract_text_smart t with
       | [] => []
       | _ => [LogError (parent_name (html_path t)) [ExnText KeyError]]
       end) /\
  invocations (snd (worker t p)) = 0 /\
  filter success_of (fst (batch completed)) = [] /\
  success (snd (batch completed)) = 0 /\
  failed (snd (batch completed)) = List.length completed.
Proof.
  assert (W : worker t p
              = (Failure (parent_name (html_path t)) (path_str (html_path t))
                   match extract_text_smart t with
                   | [] => [Lit (u "Empty extraction")]
                   | _ => [ExnText KeyError]
                   end,
                 count_failed p,
                 match extract_text_smart t with
                 | [] => []
                 | _ => [LogError (parent_name (html_path t))
                           [ExnText KeyError]]
                 end)).
  { unfold process_single_10k.
    destruct (extract_text_smart t) as [|c text]; [reflexivity|].
    now rewrite format_prompt_raises. }
  split; [exact format_prompt_raises|]. split; [exact W|]. split.
  - rewrite W. now destruct (extract_text_smart t).
  - assert (E : filter success_of
                  (List.map (record_of loads lower (format_prompt beyond))
                     completed) = [])
      by (apply batch_never_formats; intro text;
          now rewrite format_prompt_raises).
    unfold extract_all_10k. rewrite pool_collects. cbn [fst snd app].
    destruct (count_totals loads lower (format_prompt beyond) completed
                {| success := 0; failed := 0 |}) as [S F].
    cbv zeta in S, F. cbn [success failed Nat.add] in S, F.
    pose proof (filter_split_length success_of
                  (List.map (record_of loads lower (format_prompt beyond))
                     completed)) as T.
    rewrite E in *. rewrite length_map in T. cbn [List.length] in *.
    repeat split; lia.
Qed.

End ExtractionPrompt.

(** ** The worker of extract_10k.py *)

Section Extract10kWorker.

Import Extract10kV2 Extract10kRun.

Variable loads : str -> option value.
Variable format_prompt : str -> str.

Local Abbreviation worker := (Extract10kRun.process_single_10k loads format_prompt).

(** X16. The worker of extract_10k.py returns a record under the ticker
    of its filing after at most [MAX_RETRIES] requests.  Without text it
    sends no request and reports "Empty text extraction".  With text, the
    record holds what the first attempt that does not fail returned; when
    that value is empty (null, false, 0, an empty string, list or object)
    the record is the failure "Bedrock extraction failed", as when every
    attempt fails. *)
Theorem extract_10k_process_single_10k (t : task) :
  ticker_of (fst (worker t)) = parent_name (html_path t) /\
  invocations (snd (worker t)) <= Extract10k.MAX_RETRIES /\
  (extract_text_smart t = [] ->
   worker t
     = (Failure (parent_name (html_path t)) (path_str (html_path t))
          [Lit (u "Empty text extraction")], [])) /\
  (extract_text_smart t <> [] ->
   fst (worker t)
     = match first_success (fun n => RunAnalysis.attempt loads (service t n))
               (seq 0 Extract10k.MAX_RETRIES) with
       | Some data =>
         if truthy data
         then Extracted (parent_name (html_path t)) (path_str (html_path t))
                data (now_isoformat t)
         else Failure (parent_name (html_path t)) (path_str (html_path t))
                [Lit (u "Bedrock extraction failed")]
       | None =>
         Failure (parent_name (html_path t)) (path_str (html_path t))
           [Lit (u "Bedrock extraction failed")]
       end).
Proof.
  unfold Extract10kRun.process_single_10k.
  destruct (extract_text_smart t) as [|c text].
  { repeat split; [cbn [snd]; rewrite invocations_nil; lia | contradiction]. }
  destruct (@extract_10k_loop loads (service t) (format_prompt (c :: text))
              Extract10k.MAX_RETRIES Extract10k.MAX_RETRIES 0 eq_refl)
    as (I & R & _).
  pose proof (attempts_needed_le
                (fun n => is_raised (RunAnalysis.attempt loads (service t n)))
                (seq 0 Extract10k.MAX_RETRIES)) as B.
  rewrite length_seq in B.
  unfold call_bedrock.
  destruct (call_bedrock_loop loads Extract10k.MAX_RETRIES (service t)
              (format_prompt (c :: text)) (seq 0 Extract10k.MAX_RETRIES))
    as [tr data].
  cbn [fst snd] in I, R. subst data.
  destruct (first_success (fun n => RunAnalysis.attempt loads (service t n))
              (seq 0 Extract10k.MAX_RETRIES)) as [data|]; cbn [or_none truthy].
  - destruct (truthy data); cbn [fst snd ticker_of];
      (repeat split; [lia | discriminate]).
  - cbn [fst snd ticker_of]. repeat split; [lia | discriminate].
Qed.

End Extract10kWorker.

Lemma extract_10k_process_single_10k_witness :
  Extract10kV2.extract_text_smart (empty_filing "AAA" service_up) = [] /\
  Extract10kRun.process_single_10k Json.loads (fun text => text)
    (empty_filing "AAA" service_up)
    = (Extract10kV2.Failure (u "AAA") (u "fillings/AAA/10k.html")
         [Lit (u "Empty text extraction")], []) /\
  Extract10kV2.extract_text_smart (filing "BBB" empty_object) <> [] /\
  fst (Extract10kRun.process_single_10k Json.loads (fun text => text)
         (filing "BBB" empty_object))
    = Extract10kV2.Failure (u "BBB") (u "fillings/BBB/10k.html")
        [Lit (u "Bedrock extraction failed")].
Proof.
  assert (H1 : Extract10kV2.extract_text_smart (empty_filing "AAA" service_up)
               = []) by reflexivity.
  assert (H2 : Extract10kV2.extract_text_smart (filing "BBB" empty_object)
               <> []) by discriminate.
  split; [exact H1|]. split; [|split; [exact H2|]].
  - exact (proj1 (proj2 (proj2 (extract_10k_process_single_10k Json.loads
                                  (fun text => text)
                                  (empty_filing "AAA" service_up)))) H1).
  - exact (proj2 (proj2 (proj2 (extract_10k_process_single_10k Json.loads
                                  (fun text => text)
                                  (filing "BBB" empty_object)))) H2).
Defined.

(** ** The batch of the dashboard *)

Section DashboardBatch.

Import RegulatoryUtils DashboardApp.

Variable loads : str -> option value.
Variable format_value : value -> str.
Variable format_billions : value -> str.
Variable round_2 : number -> number.
Variable format_prompt : str -> str -> company_profile -> str.
Variable BEDROCK_AVAILABLE : bool.

Local Abbreviation call := (call_bedrock loads BEDROCK_AVAILABLE).
Local Abbreviation worker :=
  (analyze_company_regulation_pair loads format_value format_billions round_2
     format_prompt BEDROCK_AVAILABLE).
Local Abbreviation pool :=
  (as_completed loads format_value format_billions round_2 format_prompt
     BEDROCK_AVAILABLE).
Local Abbreviation batch :=
  (analyze_regulation_with_bedrock loads format_value format_billions round_2
     format_prompt BEDROCK_AVAILABLE).

Lemma pool_returns (reg : regulation) (cb : bool) (total : nat)
  (todo : list task) (n : nat) (acc : list analysis) :
  (forall t, In t todo -> is_raised (snd (worker t reg)) = false) ->
  pool reg cb total todo n acc
    = ((if cb
        then List.map (fun k => Progress k total) (seq (n + 1) (List.length todo))
        else []),
       ret (acc ++ kept_analyses (List.map (fun t => snd (worker t reg)) todo))).
Proof.
  revert n acc. induction todo as [|t rest IH]; intros n acc H.
  - cbn. rewrite app_nil_r. now destruct cb.
  - cbn [as_completed].
    pose proof (H t (or_introl eq_refl)) as W.
    cbn [List.map kept_analyses flat_map].
    destruct (snd (worker t reg)) as [e|r]; [discriminate W|].
    rewrite IH by (intros x Hx; apply H; now right).
    cbn [List.length seq List.map].
    replace (n + 1 + 1) with (S (n + 1)) by lia.
    destruct r as [a|], cb; cbn [app]; rewrite <- ?app_assoc; reflexivity.
Qed.

Lemma pool_raises (reg : regulation) (cb : bool) (total : nat)
  (todo : list task) (n : nat) (acc : list analysis) :
  is_raised (snd (pool reg cb total todo n acc)) = true <->
  exists t, In t todo /\ is_raised (snd (worker t reg)) = true.
Proof.
  revert n acc. induction todo as [|t rest IH]; intros n acc.
  - cbn. split; [discriminate | intros (t & [] & _)].
  - cbn [as_completed].
    destruct (snd (worker t reg)) as [e|r] eqn:W.
    + cbn. split; [|reflexivity]. intros _. exists t.
      rewrite W. split; [now left | reflexivity].
    + specialize (IH (n + 1)
                     (match r with Some r0 => acc ++ [r0] | None => acc end)).
      destruct (pool reg cb total rest (n + 1) _) as [ns out].
      cbn [snd] in *. rewrite IH. split.
      * intros (x & Hx & R). exists x. split; [now right | exact R].
      * intros (x & [<-|Hx] & R); [rewrite W in R; discriminate R|].
        now exists x.
Qed.

(** X17. A batch of the dashboard in which no worker raises returns the
    analyses of its workers in the order in which the companies complete,
    the companies without analysis left out, and calls the callback once
    per company, with the counts 1 to N out of N; without companies it
    returns the empty list and calls nothing. *)
Theorem analyze_regulation_with_bedrock_returns (text filename : str)
  (callback : bool) (completed : list task)
  (H : forall t, In t completed ->
         is_raised (snd (worker t (make_regulation text filename))) = false) :
  batch text filename callback completed
    = (notices callback 1 (List.length completed),
       ret (kept_analyses
              (List.map (fun t => snd (worker t (make_regulation text filename)))
                 completed))).
Proof.
  unfold analyze_regulation_with_bedrock, notices.
  destruct completed as [|t rest]; [now destruct callback|].
  rewrite (pool_returns _ callback _ _ 0 [] H). cbn [app Nat.add].
  replace (List.length (t :: rest) + 1 - 1) with (List.length (t :: rest))
    by lia.
  reflexivity.
Qed.

Lemma worker_raises_on_error_page (t : task) (reg : regulation) (body : str) :
  BEDROCK_AVAILABLE = true ->
  service t 0 = Responds body -> loads body = None ->
  is_raised (snd (worker t reg)) = true.
Proof.
  intros A S L. unfold analyze_company_regulation_pair.
  destruct (format_company_profile format_value format_billions
              (company_data t)) as [e|info]; [reflexivity|].
  destruct (get (company_data t) (u "ticker") (PStr (u "UNK"))) as [e|ticker];
    [reflexivity|].
  rewrite A.
  rewrite (@dashboard_call_error_page loads (service t)
             (format_prompt (title reg) (requirements reg) info) body S L).
  reflexivity.
Qed.

(** X18. A batch of the dashboard raises exactly when one of its workers
    raises; it then returns no analysis at all, those of the other
    companies included.  One company for which the first response of the
    service is not JSON (an error page) is enough. *)
Theorem analyze_regulation_with_bedrock_raises (text filename : str)
  (callback : bool) (completed : list task) :
  (is_raised (snd (batch text filename callback completed)) = true <->
   exists t, In t completed /\
             is_raised (snd (worker t (make_regulation text filename))) = true) /\
  (forall t body,
     In t completed -> BEDROCK_AVAILABLE = true ->
     service t 0 = Responds body -> loads body = None ->
     is_raised (snd (batch text filename callback completed)) = true).
Proof.
  assert (R : is_raised (snd (batch text filename callback completed)) = true <->
              exists t, In t completed /\
                is_raised (snd (worker t (make_regulation text filename)))
                = true).
  { unfold analyze_regulation_with_bedrock.
    destruct completed as [|t rest]; [|apply pool_raises].
    cbn. split; [discriminate | intros (t & [] & _)]. }
  split; [exact R|].
  intros t body I A S L. apply R. exists t. split; [exact I|].
  exact (worker_raises_on_error_page t _ A S L).
Qed.

Lemma round_value_number (v w : value) :
  round_value round_2 v = ret w -> is_number w = true.
Proof.
  destruct v; try discriminate; intro H; injection H as <-; reflexivity.
Qed.

Lemma slice_value_at_most (n : nat) (v w : value) :
  slice_value n v = ret w -> at_most n w = true.
Proof.
  destruct v; try discriminate; intro H; injection H as <-;
    cbn [at_most]; apply Nat.leb_le; rewrite length_firstn; lia.
Qed.

(** X19. The analysis that a worker of the dashboard returns for a
    company has a number for its impact score and for its reliability,
    at most two reasons, and the ticker of its company.  A completion
    that decodes to something else than an object is left out without a
    word when it is empty (null, false, 0, an empty string or list) and
    makes the worker raise AttributeError otherwise. *)
Theorem analyze_company_regulation_pair_outcome (t : task) (reg : regulation) :
  (forall a,
     snd (worker t reg) = ret (Some a) ->
     is_number (impact_score a) = true /\
     is_number (reliability a) = true /\
     at_most 2 (reasons a) = true /\
     date_analyzed a = now_strftime t /\
     get (company_data t) (u "ticker") (PStr (u "UNK")) = ret (a_ticker a)) /\
  (forall info tr v,
     format_company_profile format_value format_billions (company_data t)
       = ret info ->
     call (service t) (format_prompt (title reg) (requirements reg) info)
       = (tr, ret v) ->
     Loaders.is_dict v = false ->
     snd (worker t reg) = if truthy v then raise AttributeError else ret None).
Proof.
  unfold analyze_company_regulation_pair. split.
  - intro a.
    destruct (format_company_profile format_value format_billions
                (company_data t)) as [e|info]; [discriminate|].
    destruct (get (company_data t) (u "ticker") (PStr (u "UNK"))) as [e|ticker];
      [discriminate|].
    destruct (call (service t) _) as [tr [e|v]]; [discriminate|].
    cbn [snd bind]. destruct (truthy v); [|discriminate].
    destruct (get v (u "impact_score") (PInt 0)) as [e|s0]; [discriminate|].
    cbn [bind].
    destruct (round_value round_2 s0) as [e|score] eqn:S; [discriminate|].
    cbn [bind].
    destruct (get v (u "sentiment") (PStr (u "NEUTRAL"))) as [e|sent];
      [discriminate|].
    cbn [bind].
    destruct (get v (u "reliability") (PFloat (Fin 0.5))) as [e|r0];
      [discriminate|].
    cbn [bind].
    destruct (round_value round_2 r0) as [e|rel] eqn:R; [discriminate|].
    cbn [bind].
    destruct (get v (u "reasons") (PList [])) as [e|rs0]; [discriminate|].
    cbn [bind].
    destruct (slice_value 2 rs0) as [e|rs] eqn:L; [discriminate|].
    cbn [bind]. intro H. injection H as <-.
    cbn [impact_score reliability reasons date_analyzed a_ticker].
    repeat split.
    + exact (round_value_number _ S).
    + exact (round_value_number _ R).
    + exact (slice_value_at_most _ _ L).
  - intros info tr v F C D. rewrite F.
    destruct (formatted_has_ticker _ _ _ F) as [ticker ->].
    cbn [ret]. rewrite C. cbn [snd bind ret].
    destruct v; try discriminate D; cbn [truthy];
      repeat match goal with
      | |- context [if ?b then _ else _] => destruct b
      end; reflexivity.
Qed.

(** X28. The dashboard passes to the model the first 500 characters of
    a regulation and no more: the requirements of the prompt have at most
    503 characters, and two regulations longer than 500 characters that
    agree on their first 500 characters get the same batch, request for
    request. *)
Theorem analyze_regulation_with_bedrock_reads_500 (text text' filename : str)
  (callback : bool) (completed : list task) :
  List.length (requirements (make_regulation text filename)) <= 503 /\
  (List.length text <= 500 ->
   requirements (make_regulation text filename) = text) /\
  (500 < List.length text -> 500 < List.length text' ->
   firstn 500 text = firstn 500 text' ->
   make_regulation text filename = make_regulation text' filename /\
   batch text filename callback completed
     = batch text' filename callback completed /\
   (forall t,
      fst (worker t (make_regulation text filename))
        = fst (worker t (make_regulation text' filename)))).
Proof.
  assert (M : 500 < List.length text -> 500 < List.length text' ->
              firstn 500 text = firstn 500 text' ->
              make_regulation text filename = make_regulation text' filename).
  { intros L L' E. unfold make_regulation, slice_to.
    destruct (Nat.ltb_spec 500 (List.length text)); [|lia].
    destruct (Nat.ltb_spec 500 (List.length text')); [|lia].
    now rewrite E. }
  split; [|split].
  - unfold make_regulation, slice_to. cbn [requirements].
    destruct (Nat.ltb_spec 500 (List.length text)) as [L|L]; [|lia].
    rewrite length_app, length_firstn.
    change (List.length (u "...")) with 3. lia.
  - intro L. unfold make_regulation. cbn [requirements].
    destruct (Nat.ltb_spec 500 (List.length text)); [lia | reflexivity].
  - intros L L' E. specialize (M L L' E). split; [exact M|].
    split; [|intro t; now rewrite M].
    unfold analyze_regulation_with_bedrock. now rewrite M.
Qed.

Lemma worker_error_page (t : task) (reg : regulation) (body : str) :
  BEDROCK_AVAILABLE = true ->
  service t 0 = Responds body -> loads body = None ->
  is_raised (format_company_profile format_value format_billions
               (company_data t)) = false ->
  snd (worker t reg) = raise (UnboundLocalError (u "response_text")) /\
  invocations (fst (worker t reg)) = 1.
Proof.
  intros A S L F. unfold analyze_company_regulation_pair.
  destruct (format_company_profile format_value format_billions
              (company_data t)) as [e|info] eqn:E; [discriminate F|].
  destruct (formatted_has_ticker _ _ _ E) as [ticker ->].
  cbn [ret]. rewrite A.
  rewrite (@dashboard_call_error_page loads (service t)
             (format_prompt (title reg) (requirements reg) info) body S L).
  split; reflexivity.
Qed.

Lemma pool_raises_first (reg : regulation) (cb : bool) (total : nat)
  (before after : list task) (c : task) (e : exn) (n : nat)
  (acc : list analysis) :
  (forall t, In t before -> is_raised (snd (worker t reg)) = false) ->
  snd (worker c reg) = raise e ->
  snd (pool reg cb total (before ++ c :: after) n acc) = raise e.
Proof.
  intros H W. revert n acc.
  induction before as [|t rest IH]; intros n acc; cbn [app as_completed].
  - now rewrite W.
  - pose proof (H t (or_introl eq_refl)) as R.
    destruct (snd (worker t reg)) as [x|r]; [discriminate R|].
    specialize (IH (fun x Hx => H x (or_intror Hx)) (n + 1)
                   (match r with Some r0 => acc ++ [r0] | None => acc end)).
    destruct (pool reg cb total (rest ++ c :: after) (n + 1) _) as [ns out].
    exact IH.
Qed.

Lemma batch_is_pool (text filename : str) (callback : bool)
  (before after : list task) (c : task) :
  batch text filename callback (before ++ c :: after)
    = pool (make_regulation text filename) callback
        (List.length (before ++ c :: after)) (before ++ c :: after) 0 [].
Proof.
  unfold analyze_regulation_with_bedrock.
  now destruct before.
Qed.

(** C1. The isolation of a task whose gateway attempts fail does not hold
    in dashboard/app.py when the service answers a company with a body
    that is not JSON (the error page of a proxy, say).  [call_bedrock]
    decodes the body inside its [try]; the handler of the decoding error
    prints [response_text], which is assigned only after the decoding, and
    so raises UnboundLocalError after that one request.  The worker
    [analyze_company_regulation_pair] has no handler and raises instead of
    returning [None]; [future.result()] raises in turn, and the batch
    raises: it returns no analysis at all, whatever the other companies
    got, where the batch without that company returns theirs.  The first
    response is enough, the second attempt is never made.  A company
    whose two attempts fail by an exception of the client or by a
    completion that is not JSON is isolated: its worker returns [None] and
    the batch returns what it returns without it. *)
Theorem gateway_error_page_breaks_isolation (text filename : str)
  (callback : bool) (before after : list task) (c : task) (body : str)
  (Havailable : BEDROCK_AVAILABLE = true)
  (Hresponse : service c 0 = Responds body)
  (Hpage : loads body = None) :
  (forall prompt,
     call (service c) prompt
       = ([Invoke prompt], raise (UnboundLocalError (u "response_text")))) /\
  is_raised (snd (worker c (make_regulation text filename))) = true /\
  (is_raised (format_company_profile format_value format_billions
                (company_data c)) = false ->
   snd (worker c (make_regulation text filename))
     = raise (UnboundLocalError (u "response_text")) /\
   invocations (fst (worker c (make_regulation text filename))) = 1) /\
  is_raised (snd (batch text filename callback (before ++ c :: after)))
    = true /\
  (forall analyses,
     snd (batch text filename callback (before ++ c :: after))
       <> ret analyses) /\
  ((forall t, In t before ->
      is_raised (snd (worker t (make_regulation text filename))) = false) ->
   is_raised (format_company_profile format_value format_billions
                (company_data c)) = false ->
   snd (batch text filename callback (before ++ c :: after))
     = raise (UnboundLocalError (u "response_text"))) /\
  ((forall t, In t (before ++ after) ->
      is_raised (snd (worker t (make_regulation text filename))) = false) ->
   snd (batch text filename callback (before ++ after))
     = ret (kept_analyses
              (List.map
                 (fun t => snd (worker t (make_regulation text filename)))
                 (before ++ after)))) /\
  (forall d,
     is_raised (format_company_profile format_value format_billions
                  (company_data d)) = false ->
     gateway_down loads clean_v1 (service d) 2 ->
     snd (worker d (make_regulation text filename)) = ret None /\
     snd (batch text filename callback (before ++ d :: after))
       = snd (batch text filename callback (before ++ after))).
Proof.
  pose proof (worker_raises_on_error_page c (make_regulation text filename)
                Havailable Hresponse Hpage) as W.
  assert (B : is_raised
                (snd (batch text filename callback (before ++ c :: after)))
              = true).
  { rewrite batch_is_pool. apply pool_raises. exists c.
    split; [apply in_elt | exact W]. }
  split.
  { intro prompt. rewrite Havailable.
    exact (@dashboard_call_error_page loads (service c) prompt body
             Hresponse Hpage). }
  split; [exact W|].
  split.
  { intro F. exact (worker_error_page c _ Havailable Hresponse Hpage F). }
  split; [exact B|].
  split.
  { intros analyses E. rewrite E in B. discriminate B. }
  split.
  { intros H F. rewrite batch_is_pool. apply pool_raises_first; [exact H|].
    exact (proj1 (worker_error_page c _ Havailable Hresponse Hpage F)). }
  split.
  { intro H. unfold analyze_regulation_with_bedrock.
    destruct (before ++ after) as [|t rest] eqn:E; [reflexivity|].
    now rewrite (pool_returns _ callback _ _ 0 [] H). }
  intros d F D.
  pose proof (@dashboard_worker_down loads format_value format_billions
                round_2 format_prompt BEDROCK_AVAILABLE d
                (make_regulation text filename) F D) as N.
  split; [exact N|].
  exact (@batch_skips loads format_value format_billions round_2
           format_prompt BEDROCK_AVAILABLE text filename callback before
           after d N).
Qed.

End DashboardBatch.

Lemma gateway_error_page_breaks_isolation_witness :
  bad_gateway 0 = Responds (u "<html>Bad Gateway</html>") /\
  Json.loads (u "<html>Bad Gateway</html>") = None /\
  snd (DashboardApp.analyze_company_regulation_pair Json.loads no_format
         no_format same_number fixed_prompt true (company "BBB" bad_gateway)
         (DashboardApp.make_regulation (u "text") (u "law.pdf")))
    = raise (UnboundLocalError (u "response_text")) /\
  snd (DashboardApp.analyze_regulation_with_bedrock Json.loads no_format
         no_format same_number fixed_prompt true (u "text") (u "law.pdf") true
         ([company "AAA" service_up] ++ company "BBB" bad_gateway
            :: [company "CCC" service_up]))
    = raise (UnboundLocalError (u "response_text")) /\
  exists a c,
    snd (DashboardApp.analyze_regulation_with_bedrock Json.loads no_format
           no_format same_number fixed_prompt true (u "text") (u "law.pdf")
           true ([company "AAA" service_up] ++ [company "CCC" service_up]))
      = ret [a; c] /\
    DashboardApp.a_ticker a = PStr (u "AAA") /\
    DashboardApp.a_ticker c = PStr (u "CCC").
Proof.
  pose proof (@gateway_error_page_breaks_isolation Json.loads no_format
                no_format same_number fixed_prompt true (u "text")
                (u "law.pdf") true [company "AAA" service_up]
                [company "CCC" service_up] (company "BBB" bad_gateway)
                (u "<html>Bad Gateway</html>") eq_refl eq_refl eq_refl)
    as (_ & _ & W & _ & _ & B & R & _).
  split; [reflexivity|].
  split; [reflexivity|].
  split; [exact (proj1 (W eq_refl))|].
  split.
  { apply B; [|reflexivity].
    intros t [<-|[]]. reflexivity. }
  eexists. eexists. split; [|split].
  - rewrite R.
    + vm_compute. reflexivity.
    + intros t [<-|[<-|[]]]; reflexivity.
  - reflexivity.
  - reflexivity.
Defined.

(** ** The validation of an upload, in full *)

Section ValidationExactly.

Import DashboardConfig RegulatoryUtils.

Variable lower : str -> str.

Lemma filter_length_zero {A} (f : A -> bool) (l : list A) :
  List.length (filter f l) < 1 -> forall x, In x l -> f x = false.
Proof.
  intros H x I. destruct (f x) eqn:F; [|reflexivity].
  pose proof (filter_length_pos f l x I F). lia.
Qed.

(** X20. [validate_regulatory_document] accepts a text exactly when it
    has at least 50 characters and its lower-case form holds one of the
    keywords of [REGULATORY_KEYWORDS]; a text that is long enough and is
    refused was found to hold none, and the message says so. *)
Theorem validate_regulatory_document_exactly (text : str) :
  (fst (validate_regulatory_document lower text) = true <->
   MIN_DOCUMENT_LENGTH <= List.length text /\
   exists keyword,
     In keyword REGULATORY_KEYWORDS /\ contains (lower text) keyword = true) /\
  (MIN_DOCUMENT_LENGTH <= List.length text ->
   fst (validate_regulatory_document lower text) = false ->
   (forall keyword,
      In keyword REGULATORY_KEYWORDS -> contains (lower text) keyword = false) /\
   snd (validate_regulatory_document lower text)
     = u "Document ne contient pas assez de mots-clés réglementaires (trouvé 0, minimum 1)").
Proof.
  assert (Short : List.length text < MIN_DOCUMENT_LENGTH ->
                  fst (validate_regulatory_document lower text) = false)
    by apply validate_rejects_short.
  assert (Long : MIN_DOCUMENT_LENGTH <= List.length text ->
                 validate_regulatory_document lower text
                 = if List.length
                        (filter (fun keyword => contains (lower text) keyword)
                           REGULATORY_KEYWORDS) <? MIN_KEYWORD_MATCHES
                   then (false,
                         u "Document ne contient pas assez de mots-clés réglementaires (trouvé "
                           ++ str_of_nat
                                (List.length
                                   (filter
                                      (fun keyword =>
                                         contains (lower text) keyword)
                                      REGULATORY_KEYWORDS))
                           ++ u ", minimum " ++ str_of_nat MIN_KEYWORD_MATCHES
                           ++ u ")")
                   else (true, u "Document validé")).
  { intro H. unfold validate_regulatory_document.
    destruct text as [|c text];
      [simpl in H; unfold MIN_DOCUMENT_LENGTH in H; lia|].
    destruct (Nat.ltb_spec (List.length (c :: text)) MIN_DOCUMENT_LENGTH);
      [lia | reflexivity]. }
  split.
  - split.
    + intro V.
      destruct (Nat.lt_ge_cases (List.length text) MIN_DOCUMENT_LENGTH) as [S|L];
        [rewrite (Short S) in V; discriminate V|].
      split; [exact L|]. rewrite (Long L) in V.
      destruct (Nat.ltb_spec
                  (List.length
                     (filter (fun keyword => contains (lower text) keyword)
                        REGULATORY_KEYWORDS)) MIN_KEYWORD_MATCHES) as [K|K];
        [discriminate V|].
      destruct (filter (fun keyword => contains (lower text) keyword)
                  REGULATORY_KEYWORDS) as [|keyword rest] eqn:F;
        [simpl in K; unfold MIN_KEYWORD_MATCHES in K; lia|].
      exists keyword.
      apply (proj1 (filter_In (fun keyword => contains (lower text) keyword)
                      keyword REGULATORY_KEYWORDS)).
      rewrite F. now left.
    + intros (L & keyword & I & C).
      now rewrite (@validate_accepts lower text keyword L I C).
  - intros L V. rewrite (Long L) in *.
    destruct (Nat.ltb_spec
                (List.length
                   (filter (fun keyword => contains (lower text) keyword)
                      REGULATORY_KEYWORDS)) MIN_KEYWORD_MATCHES) as [K|K];
      [|discriminate V].
    split; [exact (filter_length_zero _ _ K)|].
    cbn [snd].
    assert (Z : List.length
                  (filter (fun keyword => contains (lower text) keyword)
                     REGULATORY_KEYWORDS) = 0)
      by (unfold MIN_KEYWORD_MATCHES in K; lia).
    rewrite Z. reflexivity.
Qed.

End ValidationExactly.

(** ** The profile of a company without data *)

Section ProfileDefaults.

Import RegulatoryUtils.

Variable format_value : value -> str.
Variable format_billions : value -> str.

(** X21. [format_company_profile] on a record that has no data (as a
    record of failure of the extraction has none): the name and the
    sector are "Unknown", every other field is "Not disclosed", the ticker
    is that of the record or "UNK".  On a value that is not an object it
    raises AttributeError. *)
Theorem format_company_profile_defaults :
  (forall d,
     dict_lookup d (u "data") = None ->
     format_company_profile format_value format_billions (PDict d)
       = ret {| ticker := get_or d (u "ticker") (PStr (u "UNK"));
                company_name := PStr (u "Unknown");
                sector := PStr (u "Unknown");
                geography := u "Not disclosed";
                business_mix := u "Not disclosed";
                supply_chain := u "Not disclosed";
                r_and_d := u "Not disclosed" |}) /\
  (forall v,
     Loaders.is_dict v = false ->
     format_company_profile format_value format_billions v
       = raise AttributeError).
Proof.
  split.
  - intros d H. unfold format_company_profile.
    assert (D : get_or d (u "data") (PDict []) = PDict [])
      by (unfold get_or; now rewrite H).
    rewrite !get_dict. cbn [bind ret]. rewrite D. reflexivity.
  - intros v H. destruct v; try discriminate H; reflexivity.
Qed.

End ProfileDefaults.

(** ** The end of a batch of extract_10k.py *)

Section EndOfBatch.

Import Extract10kV2 Extract10k.

Variable OUTPUT_FILE ERROR_LOG_FILE CSV_FILE : str.

Local Abbreviation finish :=
  (statistics_and_save OUTPUT_FILE ERROR_LOG_FILE CSV_FILE).

Lemma summary_rows_raises (results : list extraction) (r : extraction) :
  In r results ->
  is_raised (identity_field r (u "company_name")) = true \/
  is_raised (identity_field r (u "sector_industry")) = true ->
  is_raised (summary_rows results) = true.
Proof.
  induction results as [|x rest IH]; intros I H; [contradiction|].
  cbn [summary_rows].
  destruct (identity_field x (u "company_name")) as [e|name] eqn:N;
    [reflexivity|].
  destruct (identity_field x (u "sector_industry")) as [e|sector] eqn:S;
    [reflexivity|].
  cbn [bind].
  destruct I as [<-|I].
  - rewrite N, S in H. destruct H; discriminate.
  - specialize (IH I H). now destruct (summary_rows rest).
Qed.

(** X22. The end of a batch in extract_10k.py.  Without a result (no
    filing found) the statistics divide by zero after the heading, and
    nothing is written.  With results and a clock that has moved the JSON
    file receives every result; the CSV summary is written, and the
    results are returned, exactly when building the summary does not
    raise, and it raises as soon as the data of one result lack the
    identity section or one of the two fields read from it. *)
Theorem extract_10k_end_of_batch (results : list extraction) (elapsed_time : Q) :
  finish [] elapsed_time
    = ([ Console []; Console [Lit rule];
         Console [Lit (u " STATISTIQUES")]; Console [Lit rule] ],
       raise ZeroDivisionError) /\
  (results <> [] -> Qeq_bool elapsed_time 0 = false ->
   In (JsonFile OUTPUT_FILE results) (fst (finish results elapsed_time)) /\
   existsb is_csv_file (fst (finish results elapsed_time))
     = negb (is_raised (summary_rows results)) /\
   snd (finish results elapsed_time)
     = match summary_rows results with
       | inl e => raise e
       | inr _ => ret results
       end) /\
  (forall r,
     In r results ->
     is_raised (identity_field r (u "company_name")) = true \/
     is_raised (identity_field r (u "sector_industry")) = true ->
     is_raised (summary_rows results) = true).
Proof.
  split; [reflexivity|]. split; [|exact (summary_rows_raises results)].
  intros NE T. unfold statistics_and_save.
  destruct results as [|r results]; [contradiction|].
  cbn [List.length Nat.eqb]. rewrite T.
  set (rows := summary_rows _).
  destruct rows, (0 <? _); cbn [fst snd is_raised negb];
    (split; [repeat (apply in_or_app; first [ right; simpl; tauto | left ])|]);
    split; reflexivity.
Qed.

End EndOfBatch.

(** ** The text of a filing *)

Section FilingTextLength.

Import FilingText.

Variable lower : str -> str.
Variable search : str -> str -> option nat.

Lemma join_snoc (sep : str) (parts : list str) (s : str) :
  join sep (parts ++ [s])
    = match parts with
      | [] => s
      | _ => join sep parts ++ sep ++ s
      end.
Proof.
  induction parts as [|p parts IH]; [reflexivity|].
  destruct parts as [|q parts]; [reflexivity|].
  change (join sep ((p :: q :: parts) ++ [s]))
    with (p ++ sep ++ join sep ((q :: parts) ++ [s])).
  rewrite IH.
  change (join sep (p :: q :: parts)) with (p ++ sep ++ join sep (q :: parts)).
  now rewrite <- !app_assoc.
Qed.

Lemma room_snoc (parts : list str) (s : str) :
  room (parts ++ [s])
    = room parts + List.length s + List.length SECTION_MARK.
Proof.
  unfold room.
  destruct parts as [|p parts]; [cbn [app join]; lia|].
  cbn [app]. change (p :: parts ++ [s]) with ((p :: parts) ++ [s]).
  rewrite join_snoc, !length_app. lia.
Qed.

Lemma slice_length (a n : nat) (text : str) :
  List.length (slice a (a + n) text) <= n.
Proof.
  unfold slice. rewrite length_firstn. lia.
Qed.

Lemma key_sections_room (text text_lower : str) (todo : list (str * nat))
  (sections : list str) :
  room (key_sections search text text_lower todo sections)
    <= room sections
       + list_sum (List.map (fun p => snd p + List.length SECTION_MARK) todo).
Proof.
  unfold list_sum.
  revert sections. induction todo as [|[pattern max_len] rest IH];
    intro sections; cbn [key_sections List.map fold_right snd]; [lia|].
  destruct (search pattern text_lower) as [start|].
  - etransitivity; [apply IH|]. rewrite room_snoc.
    pose proof (slice_length start max_len text). lia.
  - etransitivity; [apply IH|]. lia.
Qed.

Lemma key_sections_length (text : str) :
  List.length (join SECTION_MARK (key_sections search text (lower text)
                                    patterns []))
    <= 120 * 1000 + 57.
Proof.
  pose proof (key_sections_room text (lower text) patterns []) as H.
  assert (M : List.length SECTION_MARK = 19) by reflexivity.
  unfold patterns in H at 2. unfold room in H.
  unfold list_sum in H. cbn [List.map fold_right snd] in H. rewrite M in H.
  destruct (key_sections search text (lower text) patterns []);
    [cbn [join List.length]; lia|].
  lia.
Qed.

(** X23. [extract_key_sections] returns at most 120057 characters: the
    four sections are capped at 30000, 20000, 40000 and 30000 characters
    and are joined by three separators of 19.  Its last cut at
    [CHAR_LIMIT] can therefore never shorten anything. *)
Theorem extract_key_sections_length (text : str) :
  List.length (extract_key_sections lower search text) <= 120 * 1000 + 57 /\
  extract_key_sections lower search text
    = join SECTION_MARK (key_sections search text (lower text) patterns []).
Proof.
  pose proof (key_sections_length text) as H.
  unfold extract_key_sections.
  destruct (key_sections search text (lower text) patterns []) as [|s rest];
    [split; [cbn [List.length]; lia | reflexivity]|].
  unfold slice_to. rewrite firstn_all2 by (unfold CHAR_LIMIT; lia).
  split; [exact H | reflexivity].
Qed.

Lemma last_resort_length (text : str) :
  CHAR_LIMIT < List.length text ->
  List.length
    (slice_to part1 text ++ MIDDLE_MARK
       ++ slice (List.length text / 2) (List.length text / 2 + part2) text
       ++ END_MARK ++ slice_last part3 text)
    = CHAR_LIMIT + 35.
Proof.
  intro H.
  assert (M : List.length MIDDLE_MARK = 26) by reflexivity.
  assert (E : List.length END_MARK = 9) by reflexivity.
  unfold slice_to, slice, slice_last.
  rewrite !length_app, !length_firstn, !length_skipn, M, E.
  unfold CHAR_LIMIT, part1, part2, part3 in *.
  pose proof (Nat.div_mod_eq (List.length text) 2) as D.
  pose proof (Nat.mod_upper_bound (List.length text) 2 ltac:(lia)) as U.
  lia.
Qed.

(** X24. The text that extract_10k_v2.py sends for a filing.  A text
    within [CHAR_LIMIT] is sent as it is.  A longer text in which a
    section heading is found is replaced by the sections, at most 120057
    characters.  A longer text without any heading is cut into a start, a
    middle and an end with two marks between them, which makes 350035
    characters, 35 more than [CHAR_LIMIT].  In extract_10k.py the text is
    the first 400000 characters at most. *)
Theorem extract_text_smart_length (name text : str) :
  (List.length text <= CHAR_LIMIT ->
   extract_text_smart lower search name (ret text) = (text, [])) /\
  (CHAR_LIMIT < List.length text ->
   extract_key_sections lower search text <> [] ->
   extract_text_smart lower search name (ret text)
     = (extract_key_sections lower search text, [])) /\
  (CHAR_LIMIT < List.length text ->
   extract_key_sections lower search text = [] ->
   List.length (fst (extract_text_smart lower search name (ret text)))
     = CHAR_LIMIT + 35) /\
  List.length (fst (extract_text_smart lower search name (ret text)))
    <= CHAR_LIMIT + 35 /\
  fst (extract_text_from_html name (ret text)) = firstn CHAR_LIMIT_V1 text /\
  List.length (fst (extract_text_from_html name (ret text))) <= CHAR_LIMIT_V1.
Proof.
  assert (K : List.length (extract_key_sections lower search text) <= 120 * 1000 + 57).
  { pose proof (key_sections_length text) as H. unfold extract_key_sections.
    destruct (key_sections search text (lower text) patterns []) as [|s rest];
      [cbn [List.length]; lia|].
    unfold slice_to. rewrite length_firstn. lia. }
  assert (Short : List.length text <= CHAR_LIMIT ->
                  extract_text_smart lower search name (ret text) = (text, [])).
  { intro H. unfold extract_text_smart. cbn [ret].
    destruct (Nat.ltb_spec CHAR_LIMIT (List.length text)) as [L|L]; [lia|].
    destruct (Nat.ltb_spec CHAR_LIMIT (List.length text)) as [L'|L']; [lia|].
    reflexivity. }
  assert (Sections : CHAR_LIMIT < List.length text ->
                     extract_key_sections lower search text <> [] ->
                     extract_text_smart lower search name (ret text)
                     = (extract_key_sections lower search text, [])).
  { intros H N. unfold extract_text_smart. cbn [ret].
    destruct (Nat.ltb_spec CHAR_LIMIT (List.length text)) as [L|L]; [|lia].
    destruct (extract_key_sections lower search text) as [|c s] eqn:S;
      [contradiction|].
    destruct (Nat.ltb_spec CHAR_LIMIT (List.length (c :: s))) as [L'|L'];
      [unfold CHAR_LIMIT in L'; lia | reflexivity]. }
  assert (Cut : CHAR_LIMIT < List.length text ->
                extract_key_sections lower search text = [] ->
                List.length (fst (extract_text_smart lower search name
                                    (ret text))) = CHAR_LIMIT + 35).
  { intros H N. unfold extract_text_smart. cbn [ret]. rewrite N.
    destruct (Nat.ltb_spec CHAR_LIMIT (List.length text)) as [L|L]; [|lia].
    destruct (Nat.ltb_spec CHAR_LIMIT (List.length text)) as [L'|L']; [|lia].
    cbn [fst]. exact (@last_resort_length text H). }
  repeat split; try assumption.
  - destruct (Nat.le_gt_cases (List.length text) CHAR_LIMIT) as [S|L].
    + rewrite (Short S). cbn [fst]. lia.
    + destruct (extract_key_sections lower search text) as [|c s] eqn:N.
      * rewrite (Cut L eq_refl). lia.
      * rewrite (Sections L ltac:(discriminate)). cbn [fst].
        unfold CHAR_LIMIT. lia.
  - unfold extract_text_from_html. cbn [ret fst].
    destruct (Nat.ltb_spec CHAR_LIMIT_V1 (List.length text)) as [L|L];
      [reflexivity|].
    now rewrite firstn_all2.
  - unfold extract_text_from_html. cbn [ret fst].
    destruct (Nat.ltb_spec CHAR_LIMIT_V1 (List.length text)) as [L|L];
      [|exact L].
    unfold slice_to. rewrite length_firstn. lia.
Qed.

End FilingTextLength.

Lemma extract_text_smart_length_witness :
  FilingText.CHAR_LIMIT < List.length long_filing /\
  FilingText.extract_key_sections ascii_lower no_heading long_filing = [] /\
  List.length
    (fst (FilingText.extract_text_smart ascii_lower no_heading (u "10k.html")
            (ret long_filing)))
    = FilingText.CHAR_LIMIT + 35.
Proof.
  assert (H : FilingText.CHAR_LIMIT < List.length long_filing)
    by (unfold long_filing, FilingText.CHAR_LIMIT; rewrite repeat_length; lia).
  assert (N : FilingText.extract_key_sections ascii_lower no_heading long_filing
              = []) by reflexivity.
  split; [exact H|]. split; [exact N|].
  exact (proj1 (proj2 (proj2 (extract_text_smart_length ascii_lower no_heading
                                (u "10k.html") long_filing))) H N).
Defined.

(** ** The files of a batch *)

Section Files.

Import Selection.

Variable A : Type.

Lemma take_prefix (n : Z) (l : list A) : exists k, take n l = firstn k l.
Proof. unfold take. destruct (0 <=? n)%Z; eexists; reflexivity. Qed.

(** X25. The files that a run of the extraction from the command line
    processes are always the first ones of those found: five with
    [--dry-run], whatever the other options; the first N with
    [--sample N] for a positive N; all but the last N with [--sample -N];
    and with no sample or [--sample 0], all of them with [--full] and five
    without. *)
Theorem main_processes_a_prefix (args : arguments) (all_files : list A) :
  (exists k, main args all_files = firstn k all_files) /\
  (dry_run args = true -> main args all_files = firstn 5 all_files) /\
  (forall n,
     dry_run args = false -> sample args = Some n -> (0 < n)%Z ->
     main args all_files = firstn (Z.to_nat n) all_files) /\
  (forall n,
     dry_run args = false -> sample args = Some n -> (n < 0)%Z ->
     main args all_files
       = firstn (List.length all_files - Z.to_nat (- n)) all_files) /\
  (dry_run args = false -> sample args = None \/ sample args = Some 0%Z ->
   main args all_files
     = if full args then all_files else firstn 5 all_files).
Proof.
  unfold main, select. repeat split.
  - destruct (dry_run args); [apply take_prefix|].
    destruct (sample args) as [n|].
    + destruct (n =? 0)%Z eqn:Z; cbn [negb].
      * destruct (full args); [|apply take_prefix].
        exists (List.length all_files). now rewrite firstn_all.
      * apply take_prefix.
    + destruct (full args); [|apply take_prefix].
      exists (List.length all_files). now rewrite firstn_all.
  - now intros ->.
  - intros n -> -> H.
    destruct (Z.eqb_spec n 0) as [E|E]; [lia|]. cbn [negb].
    destruct (Z.eqb_spec n 0) as [E'|E']; [lia|].
    unfold take. destruct (Z.leb_spec 0 n); [reflexivity | lia].
  - intros n -> -> H.
    destruct (Z.eqb_spec n 0) as [E|E]; [lia|]. cbn [negb].
    destruct (Z.eqb_spec n 0) as [E'|E']; [lia|].
    unfold take. destruct (Z.leb_spec 0 n); [lia | reflexivity].
  - intros -> [->| ->]; cbn; now destruct (full args).
Qed.

End Files.

Lemma main_processes_a_prefix_witness :
  Selection.dry_run
    {| Selection.dry_run := false; Selection.sample := Some (-2)%Z;
       Selection.full := true |} = false /\
  (-2 < 0)%Z /\
  Selection.main
    {| Selection.dry_run := false; Selection.sample := Some (-2)%Z;
       Selection.full := true |} [1; 2; 3; 4; 5] = [1; 2; 3].
Proof.
  assert (H : (-2 < 0)%Z) by lia.
  split; [reflexivity|]. split; [exact H|].
  exact (proj1 (proj2 (proj2 (proj2
           (main_processes_a_prefix
              {| Selection.dry_run := false; Selection.sample := Some (-2)%Z;
                 Selection.full := true |} [1; 2; 3; 4; 5])))) (-2)%Z
           eq_refl eq_refl H).
Defined.

(** ** The steps of the progress display *)

Section Steps.

Import ProgressDisplay.

(** X29. The four steps that the progress display shows are in order for
    every value of the stored step: a run of completed steps, then at most
    one active step, then pending steps; the fourth step is never shown as
    active; a step name that the display does not know shows the four
    steps as pending. *)
Theorem steps_status_in_order (step : value) :
  (exists k,
     k <= 4 /\
     (steps_list (steps_status step)
        = repeat completed k ++ repeat pending (4 - k) \/
      k < 3 /\
      steps_list (steps_status step)
        = repeat completed k ++ active :: repeat pending (3 - k))) /\
  (among step ["parsing"; "validation"; "analyzing"; "completed"]%string
     = false ->
   steps_status step = (pending, pending, pending, pending)).
Proof.
  unfold steps_status, steps_list.
  destruct step as [| | | |s| |];
    try (split; [exists 0; split; [lia | left; reflexivity] | reflexivity]).
  cbn [among existsb].
  destruct (str_eqb s (u "parsing")), (str_eqb s (u "validation")),
    (str_eqb s (u "analyzing")), (str_eqb s (u "completed"));
    cbn [orb]; (split; [|first [discriminate | reflexivity]]);
    first [ exists 4; split; [lia | left; reflexivity]
          | exists 0; split; [lia | left; reflexivity]
          | exists 0; split; [lia | right; split; [lia | reflexivity]]
          | exists 1; split; [lia | right; split; [lia | reflexivity]]
          | exists 2; split; [lia | right; split; [lia | reflexivity]] ].
Qed.

End Steps.

(** ** The loaders of the companies *)

Section CompanyLoaders.

Import Extract10kV2 Loaders.

Variable render : message -> str.

Lemma keep_successful_extractions (rs : list extraction) :
  keep_successful (List.map (extraction_dict render) rs)
    = ret (List.map (extraction_dict render) (filter success_of rs)).
Proof.
  induction rs as [|r rs IH]; [reflexivity|].
  cbn [List.map keep_successful filter]. rewrite IH.
  destruct r; reflexivity.
Qed.

Lemma filter_successful_extractions (rs : list extraction) :
  filter (fun d => is_dict d && marked_successful d)
    (List.map (extraction_dict render) rs)
    = List.map (extraction_dict render) (filter success_of rs).
Proof.
  induction rs as [|r rs IH]; [reflexivity|].
  cbn [List.map filter]. rewrite IH. destruct r; reflexivity.
Qed.

(** X26. The file that the extraction writes, read back by the two
    loaders (the decoded file being the list of records that was
    written): [load_company_data] of run_analysis.py and
    [load_company_data] of the dashboard both return the records of
    success, and only them, in the order of the file. *)
Theorem loaders_keep_successes (rs : list extraction) :
  load_company_data (PList (List.map (extraction_dict render) rs))
    = ret (List.map (extraction_dict render) (filter success_of rs)) /\
  load_company_data_utils
      (Some (PList (List.map (extraction_dict render) rs)))
    = List.map (extraction_dict render) (filter success_of rs).
Proof.
  split; [apply keep_successful_extractions|].
  destruct rs as [|r rs]; [reflexivity|].
  destruct r as [t f data at_|t f e].
  - exact (filter_successful_extractions (Extracted t f data at_ :: rs)).
  - exact (filter_successful_extractions (Failure t f e :: rs)).
Qed.

Lemma entries_of_marked (items : list (str * value)) (c : value) :
  In c (entries_of items) -> is_dict c = true /\ marked_successful c = true.
Proof.
  induction items as [|[ticker data] rest IH]; [contradiction|].
  cbn [entries_of]. destruct (is_dict data); [|exact IH].
  intros [<-|H]; [split; reflexivity | exact (IH H)].
Qed.

Lemma keep_successful_no_mark (items : list value) :
  Forall (fun v => exists d, v = PDict d /\ dict_lookup d (u "success") = None)
    items ->
  keep_successful items = ret [].
Proof.
  induction 1 as [|v rest (d & -> & N) _ IH]; [reflexivity|].
  cbn [keep_successful get]. rewrite N. cbn [bind ret]. now rewrite IH.
Qed.

Lemma filter_no_mark (items : list value) :
  Forall (fun v => exists d, v = PDict d /\ dict_lookup d (u "success") = None)
    items ->
  filter (fun d => is_dict d && marked_successful d) items = items.
Proof.
  induction 1 as [|v rest (d & -> & N) _ IH]; [reflexivity|].
  cbn [filter is_dict marked_successful andb]. rewrite N. now rewrite IH.
Qed.

(** X27. Where the two loaders part.  Every company that the dashboard
    loads is an object that is not marked as failed.  Companies without a
    ['success'] key are all kept by the dashboard and all dropped by
    run_analysis.py.  A list whose first item is not an object is empty
    for the dashboard, whatever follows, and makes run_analysis.py
    raise AttributeError; so does a file that maps tickers to companies,
    which the dashboard reads. *)
Theorem loaders_differ :
  (forall file c,
     In c (load_company_data_utils file) ->
     is_dict c = true /\ marked_successful c = true) /\
  (forall items,
     Forall (fun v => exists d, v = PDict d /\
                                dict_lookup d (u "success") = None) items ->
     load_company_data (PList items) = ret [] /\
     load_company_data_utils (Some (PList items)) = items) /\
  (forall first rest,
     is_dict first = false ->
     load_company_data_utils (Some (PList (first :: rest))) = [] /\
     load_company_data (PList (first :: rest)) = raise AttributeError) /\
  (forall ticker company rest,
     load_company_data (PDict ((ticker, company) :: rest))
       = raise AttributeError /\
     load_company_data_utils (Some (PDict ((ticker, company) :: rest)))
       = entries_of ((ticker, company) :: rest)).
Proof.
  repeat split.
  - destruct file as [[| | | | |[|first rest]|items]|]; try contradiction.
    + unfold load_company_data_utils in H.
      destruct (is_dict first); [|contradiction].
      apply filter_In in H. destruct H as [_ H].
      now apply andb_prop in H.
    + exact (proj1 (entries_of_marked _ _ H)).
  - destruct file as [[| | | | |[|first rest]|items]|]; try contradiction.
    + unfold load_company_data_utils in H.
      destruct (is_dict first); [|contradiction].
      apply filter_In in H. destruct H as [_ H].
      now apply andb_prop in H.
    + exact (proj2 (entries_of_marked _ _ H)).
  - exact (keep_successful_no_mark H).
  - destruct H as [|v rest (d & -> & N) H]; [reflexivity|].
    unfold load_company_data_utils. cbn [is_dict].
    exact (filter_no_mark (Forall_cons _ (ex_intro _ d (conj eq_refl N)) H)).
  - unfold load_company_data_utils. now rewrite H.
  - cbn [load_company_data keep_successful].
    destruct first; try discriminate H; reflexivity.
Qed.

End CompanyLoaders.

(** ** Instances of the theorems on the batch of the dashboard, on the
       validation, on the profile, on the end of a batch and on the
       loaders *)

Lemma analyze_regulation_with_bedrock_returns_witness :
  (forall t,
     In t [company "AAA" service_up; company "BBB" service_down] ->
     is_raised
       (snd (DashboardApp.analyze_company_regulation_pair Json.loads no_format
               no_format same_number fixed_prompt true t
               (DashboardApp.make_regulation (u "text") (u "law.pdf"))))
     = false) /\
  DashboardApp.analyze_regulation_with_bedrock Json.loads no_format no_format
    same_number fixed_prompt true (u "text") (u "law.pdf") true
    [company "AAA" service_up; company "BBB" service_down]
  = (notices true 1 2,
     ret (kept_analyses
            (List.map
               (fun t =>
                  snd (DashboardApp.analyze_company_regulation_pair Json.loads
                         no_format no_format same_number fixed_prompt true t
                         (DashboardApp.make_regulation (u "text")
                            (u "law.pdf"))))
               [company "AAA" service_up; company "BBB" service_down]))).
Proof.
  assert (H : forall t,
            In t [company "AAA" service_up; company "BBB" service_down] ->
            is_raised
              (snd (DashboardApp.analyze_company_regulation_pair Json.loads
                      no_format no_format same_number fixed_prompt true t
                      (DashboardApp.make_regulation (u "text") (u "law.pdf"))))
            = false)
    by (intros t [<-|[<-|[]]]; vm_compute; reflexivity).
  split; [exact H|].
  exact (@analyze_regulation_with_bedrock_returns Json.loads no_format
           no_format same_number fixed_prompt true (u "text") (u "law.pdf")
           true [company "AAA" service_up; company "BBB" service_down] H).
Defined.

Lemma analyze_regulation_with_bedrock_raises_witness :
  In (company "BBB" bad_gateway)
     [company "AAA" service_up; company "BBB" bad_gateway] /\
  DashboardApp.service (company "BBB" bad_gateway) 0
    = Responds (u "<html>Bad Gateway</html>") /\
  Json.loads (u "<html>Bad Gateway</html>") = None /\
  is_raised
    (snd (DashboardApp.analyze_regulation_with_bedrock Json.loads no_format
            no_format same_number fixed_prompt true (u "text") (u "law.pdf")
            true [company "AAA" service_up; company "BBB" bad_gateway]))
  = true.
Proof.
  assert (I : In (company "BBB" bad_gateway)
                [company "AAA" service_up; company "BBB" bad_gateway])
    by (right; left; reflexivity).
  assert (L : Json.loads (u "<html>Bad Gateway</html>") = None)
    by reflexivity.
  split; [exact I|]. split; [reflexivity|]. split; [exact L|].
  exact (proj2 (@analyze_regulation_with_bedrock_raises Json.loads no_format
                  no_format same_number fixed_prompt true (u "text")
                  (u "law.pdf") true
                  [company "AAA" service_up; company "BBB" bad_gateway])
           (company "BBB" bad_gateway) (u "<html>Bad Gateway</html>")
           I eq_refl eq_refl L).
Defined.

Lemma analyze_company_regulation_pair_outcome_witness :
  exists a,
    snd (DashboardApp.analyze_company_regulation_pair Json.loads no_format
           no_format same_number fixed_prompt true (company "AAA" service_up)
           (DashboardApp.make_regulation (u "text") (u "law.pdf")))
    = ret (Some a) /\
    is_number (DashboardApp.impact_score a) = true /\
    is_number (DashboardApp.reliability a) = true /\
    at_most 2 (DashboardApp.reasons a) = true.
Proof.
  eexists. split; [vm_compute; reflexivity|].
  destruct (proj1 (@analyze_company_regulation_pair_outcome Json.loads
                     no_format no_format same_number fixed_prompt true
                     (company "AAA" service_up)
                     (DashboardApp.make_regulation (u "text") (u "law.pdf")))
              _ ltac:(vm_compute; reflexivity)) as (S & R & L & _).
  exact (conj S (conj R L)).
Defined.

Lemma analyze_regulation_with_bedrock_reads_500_witness :
  500 < List.length regulation_a /\
  500 < List.length regulation_b /\
  firstn 500 regulation_a = firstn 500 regulation_b /\
  DashboardApp.analyze_regulation_with_bedrock Json.loads no_format no_format
    same_number fixed_prompt true regulation_a (u "law.pdf") true
    [company "AAA" service_up]
  = DashboardApp.analyze_regulation_with_bedrock Json.loads no_format no_format
      same_number fixed_prompt true regulation_b (u "law.pdf") true
      [company "AAA" service_up].
Proof.
  assert (A : 500 < List.length regulation_a)
    by (unfold regulation_a; rewrite length_app, !repeat_length; lia).
  assert (B : 500 < List.length regulation_b)
    by (unfold regulation_b; rewrite length_app, !repeat_length; lia).
  assert (E : firstn 500 regulation_a = firstn 500 regulation_b)
    by (vm_compute; reflexivity).
  split; [exact A|]. split; [exact B|]. split; [exact E|].
  exact (proj1 (proj2 (proj2 (proj2
           (@analyze_regulation_with_bedrock_reads_500 Json.loads no_format
              no_format same_number fixed_prompt true regulation_a
              regulation_b (u "law.pdf") true [company "AAA" service_up]))
           A B E))).
Defined.

Lemma validate_regulatory_document_exactly_witness :
  DashboardConfig.MIN_DOCUMENT_LENGTH <= List.length long_text /\
  (exists keyword,
     In keyword DashboardConfig.REGULATORY_KEYWORDS /\
     contains (ascii_lower long_text) keyword = true) /\
  fst (RegulatoryUtils.validate_regulatory_document ascii_lower long_text)
    = true.
Proof.
  assert (L : DashboardConfig.MIN_DOCUMENT_LENGTH <= List.length long_text)
    by (vm_compute; repeat constructor).
  assert (K : exists keyword,
            In keyword DashboardConfig.REGULATORY_KEYWORDS /\
            contains (ascii_lower long_text) keyword = true)
    by (exists (u "directive"); split; [vm_compute; tauto | reflexivity]).
  split; [exact L|]. split; [exact K|].
  exact (proj2 (proj1 (validate_regulatory_document_exactly ascii_lower
                         long_text)) (conj L K)).
Defined.

Lemma format_company_profile_defaults_witness :
  dict_lookup [(u "ticker", PStr (u "AAA")); (u "success", PBool false)]
    (u "data") = None /\
  RegulatoryUtils.format_company_profile no_format no_format
    (PDict [(u "ticker", PStr (u "AAA")); (u "success", PBool false)])
  = ret {| RegulatoryUtils.ticker := PStr (u "AAA");
           RegulatoryUtils.company_name := PStr (u "Unknown");
           RegulatoryUtils.sector := PStr (u "Unknown");
           RegulatoryUtils.geography := u "Not disclosed";
           RegulatoryUtils.business_mix := u "Not disclosed";
           RegulatoryUtils.supply_chain := u "Not disclosed";
           RegulatoryUtils.r_and_d := u "Not disclosed" |}.
Proof.
  assert (H : dict_lookup
                [(u "ticker", PStr (u "AAA")); (u "success", PBool false)]
                (u "data") = None) by reflexivity.
  split; [exact H|].
  exact (proj1 (format_company_profile_defaults no_format no_format) _ H).
Defined.

Lemma extract_10k_end_of_batch_witness :
  [Extract10kV2.Failure (u "AAA") (u "fillings/AAA/10k.html")
     [Lit (u "Bedrock extraction failed")]] <> [] /\
  Qeq_bool 60 0 = false /\
  In (JsonFile (u "company_10k_data.json")
        [Extract10kV2.Failure (u "AAA") (u "fillings/AAA/10k.html")
           [Lit (u "Bedrock extraction failed")]])
     (fst (Extract10k.statistics_and_save (u "company_10k_data.json")
             (u "extraction_errors.log") (u "company_10k_data.csv")
             [Extract10kV2.Failure (u "AAA") (u "fillings/AAA/10k.html")
                [Lit (u "Bedrock extraction failed")]] 60)).
Proof.
  assert (N : [Extract10kV2.Failure (u "AAA") (u "fillings/AAA/10k.html")
                 [Lit (u "Bedrock extraction failed")]] <> [])
    by discriminate.
  assert (T : Qeq_bool 60 0 = false) by reflexivity.
  split; [exact N|]. split; [exact T|].
  exact (proj1 (proj1 (proj2 (extract_10k_end_of_batch
                                (u "company_10k_data.json")
                                (u "extraction_errors.log")
                                (u "company_10k_data.csv") _ 60)) N T)).
Defined.

Lemma loaders_differ_witness :
  Forall (fun v => exists d, v = PDict d /\ dict_lookup d (u "success") = None)
    [PDict [(u "ticker", PStr (u "AAA"))]] /\
  Loaders.load_company_data (PList [PDict [(u "ticker", PStr (u "AAA"))]])
    = ret [] /\
  Loaders.load_company_data_utils
    (Some (PList [PDict [(u "ticker", PStr (u "AAA"))]]))
    = [PDict [(u "ticker", PStr (u "AAA"))]].
Proof.
  assert (H : Forall (fun v => exists d, v = PDict d /\
                                         dict_lookup d (u "success") = None)
                [PDict [(u "ticker", PStr (u "AAA"))]])
    by (constructor; [eexists; split; reflexivity | constructor]).
  split; [exact H|].
  exact (proj1 (proj2 loaders_differ) _ H).
Defined.
